(** * finance_account: the reporting pages of [main.py], embedded in Rocq

    The program is one Streamlit script: [load_data] reads the ledger
    workbook, and each report page filters the loaded table, sums columns
    and shows metrics.  The pages are embedded as functions over a list of
    ledger rows; widget input (the selected date range, the clock) is an
    argument, widget output is an event log, and [st.stop] and Python
    exceptions are outcomes of a small page monad.

    Conventions.
    - A calendar date is its day number (a [Z]); a pandas Timestamp is a day
      number and the nanoseconds elapsed in that day.  [date - timedelta(days=n)]
      is subtraction (the year 1..9999 limits of [datetime.date] are not
      modelled).
    - Amounts are exact rationals ([Q]); the special values of numpy floats
      appear only where a division or a mean could produce them
      ([np_float]).
    - A text is a [string] holding its UTF-8 bytes; [str.lower] lower-cases
      the letters A-Z.
    - A table with rows is the list of its rows in index order and has the
      ledger's columns.  A text column of it is an object column when some
      cell holds text; an entirely empty column is read as a float column,
      on which [.str] raises AttributeError.  The empty list is
      [pd.DataFrame()], the table without columns that [load_data] returns
      for a missing file.
    - Labels and messages are written without their emoji. *)

From Stdlib Require Import List ZArith QArith String Ascii Bool Lia.
Import ListNotations.

Set Implicit Arguments.

(** ** Text columns: the [Series.str] methods the pages use *)

Module Str.

Open Scope char_scope.

(** [str.lower] on one character. *)
Definition lower_ascii (c : ascii) : ascii :=
  let n := nat_of_ascii c in
  if (65 <=? n)%nat && (n <=? 90)%nat then ascii_of_nat (n + 32) else c.

Fixpoint lower (s : string) : string :=
  match s with
  | EmptyString => EmptyString
  | String c s' => String (lower_ascii c) (lower s')
  end.

(** The white space that [str.strip()] removes, by the UTF-8 bytes of the
    character: U+0009..000D, U+001C..0020 (one byte), U+0085 and U+00A0
    (two bytes), U+1680, U+2000..200A, U+2028, U+2029, U+202F, U+205F and
    U+3000 (three bytes). *)
Definition is_space (c : ascii) : bool :=
  let n := nat_of_ascii c in
  ((9 <=? n)%nat && (n <=? 13)%nat) || ((28 <=? n)%nat && (n <=? 32)%nat).

Definition is_space2 (c d : ascii) : bool :=
  let m := nat_of_ascii c in
  let n := nat_of_ascii d in
  (m =? 194)%nat && ((n =? 133)%nat || (n =? 160)%nat).

Definition is_space3 (c d e : ascii) : bool :=
  let l := nat_of_ascii c in
  let m := nat_of_ascii d in
  let n := nat_of_ascii e in
  ((l =? 225)%nat && (m =? 154)%nat && (n =? 128)%nat)
  || ((l =? 226)%nat && (m =? 128)%nat
      && (((128 <=? n)%nat && (n <=? 138)%nat)
          || (n =? 168)%nat || (n =? 169)%nat || (n =? 175)%nat))
  || ((l =? 226)%nat && (m =? 129)%nat && (n =? 159)%nat)
  || ((l =? 227)%nat && (m =? 128)%nat && (n =? 128)%nat).

Fixpoint lstrip (s : string) : string :=
  match s with
  | EmptyString => EmptyString
  | String c s1 =>
      if is_space c then lstrip s1
      else match s1 with
           | EmptyString => s
           | String d s2 =>
               if is_space2 c d then lstrip s2
               else match s2 with
                    | EmptyString => s
                    | String e s3 => if is_space3 c d e then lstrip s3 else s
                    end
           end
  end.

Fixpoint rev_onto (s acc : string) : string :=
  match s with
  | EmptyString => acc
  | String c s' => rev_onto s' (String c acc)
  end.

Definition rev (s : string) : string := rev_onto s EmptyString.

(** [lstrip] on the reversed text: the bytes of a character come last
    byte first. *)
Fixpoint lstrip_rev (s : string) : string :=
  match s with
  | EmptyString => EmptyString
  | String c s1 =>
      if is_space c then lstrip_rev s1
      else match s1 with
           | EmptyString => s
           | String d s2 =>
               if is_space2 d c then lstrip_rev s2
               else match s2 with
                    | EmptyString => s
                    | String e s3 => if is_space3 e d c then lstrip_rev s3 else s
                    end
           end
  end.

Definition rstrip (s : string) : string := rev (lstrip_rev (rev s)).

Definition strip (s : string) : string := rstrip (lstrip s).

(** [pat in s]: some suffix of [s] starts with [pat]. *)
Fixpoint contains (pat s : string) : bool :=
  String.prefix pat s ||
  match s with
  | EmptyString => false
  | String _ s' => contains pat s'
  end.

(** A regular expression that is an alternation of literals,
    ["received|paid"], matches when one of the literals occurs. *)
Definition contains_any (pats : list string) (s : string) : bool :=
  existsb (fun p => contains p s) pats.

End Str.

(** A cell of a text column: [None] is a missing value (NaN). *)
Definition text := option string.

(** [Series.str.lower()]: missing stays missing. *)
Definition str_lower (t : text) : text := option_map Str.lower t.

(** [Series.astype(str)]: a missing value becomes the text "nan". *)
Definition astype_str (t : text) : string :=
  match t with Some s => s | None => "nan"%string end.

(** [Series.str.contains(pat)] with the default [na]: a missing value
    yields a missing value, so the result is three-valued. *)
Definition str_contains (pats : list string) (t : text) : option bool :=
  option_map (Str.contains_any pats) t.

(** [Series.str.contains(pat, na=False)]. *)
Definition str_contains_na_false (pats : list string) (t : text) : bool :=
  match t with Some s => Str.contains_any pats s | None => false end.

(** [Series.str.contains(pat, case=False, na=False)]: the pattern is matched
    ignoring case; the literals are given in lower case. *)
Definition str_contains_nocase (pats : list string) (t : text) : bool :=
  str_contains_na_false pats (str_lower t).

(** [series == "lit"] and [series != "lit"]: a missing value is different
    from every text. *)
Definition text_eqb (t : text) (lit : string) : bool :=
  match t with Some s => String.eqb s lit | None => false end.

Definition text_neqb (t : text) (lit : string) : bool := negb (text_eqb t lit).

(** ** Dates and timestamps *)

Definition date := Z.

Record Timestamp := mkTimestamp {
  ts_day : date;       (* the calendar day *)
  ts_ns  : Z           (* nanoseconds since midnight, 0 <= ts_ns < NS_PER_DAY *)
}.

Definition NS_PER_DAY : Z := 86400000000000.

(** A cell of a datetime column: [None] is NaT. *)
Definition datetime := option Timestamp.

(** [Series.dt.date]. *)
Definition dt_date (d : datetime) : option date := option_map ts_day d.

(** [pd.to_datetime(some_date)]: midnight of that day. *)
Definition to_datetime_date (d : date) : Timestamp := mkTimestamp d 0.

Definition ts_nanos (t : Timestamp) : Z := (ts_day t * NS_PER_DAY + ts_ns t)%Z.

Definition ts_leb (a b : Timestamp) : bool := (ts_nanos a <=? ts_nanos b)%Z.

(** [(a - b).days]: the day component of a Timedelta is the floor of the
    difference in days. *)
Definition timedelta_days (a b : Timestamp) : Z :=
  ((ts_nanos a - ts_nanos b) / NS_PER_DAY)%Z.

(** ** Numeric cells *)

(** A cell of a column that should hold numbers, as read from the
    workbook: empty, a number, or some text. *)
Inductive cell :=
| CNull
| CNum (q : Q)
| CText (s : string).

(** [pd.to_numeric(col, errors='coerce')] turns what it cannot read as a
    number into a missing value, and [.fillna(0)] turns that into 0.
    Which texts read as numbers is pandas' business: [parse_number] stands
    for it (texts that read as an infinity are outside [Q] and not
    modelled). *)
Section Coercion.

Variable parse_number : string -> option Q.

Definition to_numeric_coerce (c : cell) : cell :=
  match c with
  | CNull => CNull
  | CNum q => CNum q
  | CText s => match parse_number s with Some q => CNum q | None => CNull end
  end.

Definition fillna0 (c : cell) : cell :=
  match c with CNull => CNum 0 | _ => c end.

Definition to_numeric_fillna (c : cell) : cell := fillna0 (to_numeric_coerce c).

End Coercion.

Definition is_null (c : cell) : bool :=
  match c with CNull => true | _ => false end.

(** ** Ledger rows

    [D] is the type of a cell of the four date columns: what the workbook
    holds before [load_data], a [datetime] after it. *)

Record Row_ (D : Type) := mkRow {
  voucher_no      : text;
  date_           : D;
  invoice_date    : D;
  due_date        : D;
  payment_date    : D;
  debit           : cell;
  credit          : cell;
  amount          : cell;
  bank_deposit    : cell;
  bank_withdrawal : cell;
  category        : text;
  sub_category    : text;
  account_head    : text;
  account_name    : text;
  account_type    : text;
  party_name      : text;
  party_type      : text;
  payment_method  : text;
  status          : text
}.

(** A date cell of the workbook: empty, a date-time, or some text. *)
Inductive raw_date :=
| RNull
| RTime (t : Timestamp)
| RText (s : string).

Definition RawRow := Row_ raw_date.
Definition Row := Row_ datetime.
Definition DataFrame := list Row.

(** ** The page monad: an event log and an outcome *)

Inductive exn :=
| KeyError
| TypeError
| ValueError
| IndexError
| AttributeError
| ReadError.      (* whatever [pd.read_excel] raises on a file it cannot parse *)

Inductive message :=
| Msg (s : string)
| MsgRange (s : string) (d1 d2 : date)    (* an f-string over two dates *)
| MsgExn (s : string) (e : exn).          (* an f-string over [str(e)] *)

(** numpy's float results where a division is involved. *)
Inductive np_float :=
| Fin (q : Q)
| PInf
| NInf
| NaN.

(** The small text under a metric: nothing, a percentage against a previous
    window, or a word. *)
Inductive delta :=
| DeltaNone
| DeltaPct (x : np_float) (prev_start prev_end : date)
| DeltaText (s : string).

Inductive ui :=
| StError (m : message)
| StWarning (m : message)
| StInfo (m : message)
| StSuccess (m : message)
| StMetric (label : string) (value : Q) (d : delta).

Inductive outcome (A : Type) :=
| Done (a : A)
| Stopped                (* [st.stop()] *)
| Raised (e : exn).

Arguments Stopped {A}.
Arguments Raised {A} e.

Definition page (A : Type) : Type := (list ui * outcome A)%type.

Definition ret {A} (a : A) : page A := ([], Done a).

Definition bind {A B} (m : page A) (k : A -> page B) : page B :=
  match m with
  | (log, Done a) => let '(log', o) := k a in (log ++ log', o)
  | (log, Stopped) => (log, Stopped)
  | (log, Raised e) => (log, Raised e)
  end.

Definition emit (e : ui) : page unit := ([e], Done tt).
Definition st_stop {A} : page A := ([], Stopped).
Definition raise {A} (e : exn) : page A := ([], Raised e).

Declare Scope page_scope.
Delimit Scope page_scope with page.
Notation "x <- m ;; k" := (bind m (fun x => k))
  (at level 61, m at next level, right associativity) : page_scope.
Notation "m ;; k" := (bind m (fun _ => k))
  (at level 61, right associativity) : page_scope.

Definition outcome_of {A} (m : page A) : outcome A := snd m.
Definition log_of {A} (m : page A) : list ui := fst m.

Open Scope page_scope.

(** [try: m  except Exception as e: h e].  [st.stop()] is no [Exception]
    and goes through. *)
Definition try_except {A} (m : page A) (h : exn -> page A) : page A :=
  match m with
  | (log, Raised e) => let '(log', o) := h e in (log ++ log', o)
  | _ => m
  end.

(** The [.str] accessor of a text column of a table with rows: the column
    is an object column when some cell holds text; an entirely empty
    column is a float column, and [.str] raises AttributeError on it. *)
Definition is_object (col : list text) : bool :=
  existsb (fun t => match t with Some _ => true | None => false end) col.

Definition str_accessor (col : list text) : page unit :=
  if is_object col then ret tt else raise AttributeError.

(** [st.date_input(label, value, min_value, max_value)]: the widget holds
    [value] until the user picks a date, and takes a pick only within its
    bounds. *)
Definition date_input (value min_value max_value : date) (pick : option date)
    : date :=
  match pick with
  | Some d => if (min_value <=? d)%Z && (d <=? max_value)%Z then d else value
  | None => value
  end.

(** ** The ledger loader ([load_data], lines 24-35) *)

(** What is found at [EXCEL_FILE]: a workbook with rows, or a file
    [pd.read_excel] cannot parse. *)
Inductive file :=
| Workbook (rows : list RawRow)
| Garbage.

Definition EXCEL_FILE : string := "data/accounts.xlsx".

Definition read_excel (f : file) : page (list RawRow) :=
  match f with
  | Workbook rows => ret rows
  | Garbage => raise ReadError
  end.

Section Loader.

(** How [pd.to_datetime] reads a text as a date-time, if it does. *)
Variable parse_datetime : string -> option Timestamp.

(** [pd.to_datetime(col, errors='coerce')] *)
Definition to_datetime_coerce (d : raw_date) : datetime :=
  match d with
  | RNull => None
  | RTime t => Some t
  | RText s => parse_datetime s
  end.

(** The loop over the four date columns; every other column is kept as
    [pd.read_excel] returned it. *)
Definition parse_dates (r : RawRow) : Row :=
  mkRow (voucher_no r)
        (to_datetime_coerce (date_ r))
        (to_datetime_coerce (invoice_date r))
        (to_datetime_coerce (due_date r))
        (to_datetime_coerce (payment_date r))
        (debit r) (credit r) (amount r) (bank_deposit r) (bank_withdrawal r)
        (category r) (sub_category r) (account_head r) (account_name r)
        (account_type r) (party_name r) (party_type r) (payment_method r)
        (status r).

(** [exists_] is what [os.path.exists(EXCEL_FILE)] finds: the file, when
    there is one. *)
Definition load_data (exists_ : option file) : page DataFrame :=
  match exists_ with
  | Some f =>
      df <- read_excel f ;;
      ret (map parse_dates df)
  | None =>
      emit (StError (Msg ("Excel file not found: " ++ EXCEL_FILE))) ;;
      ret []
  end.

End Loader.

(** ** Series operations *)

(** [Series.sum()]: missing values are skipped; a column that still holds
    text has no numeric sum (the addition raises TypeError). *)
Fixpoint series_sum (col : list cell) : page Q :=
  match col with
  | [] => ret 0
  | CNull :: col' => series_sum col'
  | CNum q :: col' => s <- series_sum col' ;; ret (q + s)
  | CText _ :: col' => raise TypeError
  end.

(** The plain sum of the numbers of a column. *)
Definition qsum (l : list Q) : Q := fold_right Qplus 0 l.

(** [Series.min().date()] and [Series.max().date()] of a datetime column,
    as the value of the date widget that follows them in every page: NaT
    is skipped; the minimum of nothing is NaT, [NaT.date()] is NaT again,
    and the widget that gets it as its value raises ValueError. *)
Definition non_null {A} (col : list (option A)) : list A :=
  flat_map (fun d => match d with Some t => [t] | None => [] end) col.

Definition series_min_date (col : list datetime) : page date :=
  match non_null col with
  | [] => raise ValueError
  | t :: ts =>
      ret (ts_day (fold_left (fun m x => if ts_leb x m then x else m) ts t))
  end.

Definition series_max_date (col : list datetime) : page date :=
  match non_null col with
  | [] => raise ValueError
  | t :: ts =>
      ret (ts_day (fold_left (fun m x => if ts_leb m x then x else m) ts t))
  end.

(** ** The date-range filter

    [sub[(sub[col].dt.date >= date_range[0]) & (sub[col].dt.date <= date_range[1])]]:
    a comparison with a missing date is False. *)
Definition date_geb (d : option date) (s : date) : bool :=
  match d with Some x => (s <=? x)%Z | None => false end.

Definition date_leb (d : option date) (e : date) : bool :=
  match d with Some x => (x <=? e)%Z | None => false end.

Definition in_date_range (s e : date) (d : datetime) : bool :=
  date_geb (dt_date d) s && date_leb (dt_date d) e.

Definition filter_date_range (col : Row -> datetime) (s e : date)
    (sub : DataFrame) : DataFrame :=
  filter (fun r => in_date_range s e (col r)) sub.

(** [if len(date_range) == 2: sub = sub[...]], as the Cashbook (lines
    275-279), Bankbook, Liability, Income (1036-1040), Expense and Bank
    Txns pages write it. *)
Definition apply_date_range (col : Row -> datetime) (date_range : list date)
    (sub : DataFrame) : DataFrame :=
  match date_range with
  | [s; e] => filter_date_range col s e sub
  | _ => sub
  end.

(** ** Numeric columns by name, and the coercion loop

    [for col in numeric_cols: df[col] = pd.to_numeric(df[col], errors='coerce').fillna(0)] *)

Inductive numcol := Debit | Credit | Amount | BankDeposit | BankWithdrawal.

Definition get_num {D} (c : numcol) (r : Row_ D) : cell :=
  match c with
  | Debit => debit r
  | Credit => credit r
  | Amount => amount r
  | BankDeposit => bank_deposit r
  | BankWithdrawal => bank_withdrawal r
  end.

Definition set_num {D} (c : numcol) (v : cell) (r : Row_ D) : Row_ D :=
  mkRow (voucher_no r) (date_ r) (invoice_date r) (due_date r) (payment_date r)
        (match c with Debit => v | _ => debit r end)
        (match c with Credit => v | _ => credit r end)
        (match c with Amount => v | _ => amount r end)
        (match c with BankDeposit => v | _ => bank_deposit r end)
        (match c with BankWithdrawal => v | _ => bank_withdrawal r end)
        (category r) (sub_category r) (account_head r) (account_name r)
        (account_type r) (party_name r) (party_type r) (payment_method r)
        (status r).

Section Pages.

Variable parse_number : string -> option Q.

Definition coerce_col (c : numcol) (r : Row) : Row :=
  set_num c (to_numeric_fillna parse_number (get_num c r)) r.

Definition coerce_cols (cols : list numcol) (df : DataFrame) : DataFrame :=
  map (fun r => fold_left (fun r c => coerce_col c r) cols r) df.

(** *** Percent change against the previous period (lines 293-311) *)

Definition Qgt0 (q : Q) : bool := negb (Qle_bool q 0).

(** numpy's true division: a zero divisor gives an infinity or NaN
    (with a warning), never an exception. *)
Definition np_truediv (a b : Q) : np_float :=
  if Qeq_bool b 0 then
    if Qeq_bool a 0 then NaN else if Qle_bool 0 a then PInf else NInf
  else Fin (a / b).

Definition np_mul (x : np_float) (k : Q) : np_float :=
  match x with
  | Fin q => Fin (q * k)
  | NaN => NaN
  | PInf => if Qeq_bool k 0 then NaN else if Qle_bool 0 k then PInf else NInf
  | NInf => if Qeq_bool k 0 then NaN else if Qle_bool 0 k then NInf else PInf
  end.

(** [((total - prev)/prev*100) if prev > 0 else 0] *)
Definition pct_change (total prev : Q) : np_float :=
  if Qgt0 prev then np_mul (np_truediv (total - prev) prev) 100 else Fin 0.

(** [prev_start] and [prev_end] of lines 296-298. *)
Definition prev_window (s e : date) : date * date :=
  let days_diff := (e - s)%Z in
  ((s - (days_diff + 1))%Z, (s - 1)%Z).

Record Comparison := mkComparison {
  prev_start    : date;
  prev_end      : date;
  prev_debit    : Q;
  prev_credit   : Q;
  debit_change  : np_float;
  credit_change : np_float
}.

(** The previous-period block.  [df] is the whole (prepared) ledger, as
    in the source; [total_debit] and [total_credit] are the totals of the
    cash rows of the current range. *)
Definition compare_previous (df : DataFrame) (s e : date)
    (total_debit total_credit : Q) : page Comparison :=
  let '(prev_start, prev_end) := prev_window s e in
  let prev_period_df := filter_date_range (@payment_date _) prev_start prev_end df in
  prev_debit <- series_sum (map (@debit _) prev_period_df) ;;
  prev_credit <- series_sum (map (@credit _) prev_period_df) ;;
  ret (mkComparison prev_start prev_end prev_debit prev_credit
         (pct_change total_debit prev_debit)
         (pct_change total_credit prev_credit)).

(** *** The Cashbook page (lines 217-330, up to the first three metrics) *)

Definition is_cash (r : Row) : bool :=
  str_contains_na_false ["cash"; "ca"]%string (str_lower (payment_method r)).

Record CashbookView := mkCashbookView {
  cb_cash_df      : DataFrame;
  cb_total_debit  : Q;
  cb_total_credit : Q;
  cb_net_flow     : Q;
  cb_comparison   : option Comparison
}.

Definition cashbook_numeric_cols : list numcol :=
  [Debit; Credit; Amount; BankDeposit; BankWithdrawal].

Definition delta_of (c : option Comparison) (f : Comparison -> np_float) : delta :=
  match c with
  | Some c => DeltaPct (f c) (prev_start c) (prev_end c)
  | None => DeltaNone
  end.

(** [date_range] is the value of the range picker after the shortcut
    buttons: a tuple of at most two dates.  The page is entered only when
    the ledger is not empty. *)
Definition cashbook (df0 : DataFrame) (date_range : list date)
    : page (option CashbookView) :=
  match df0 with
  | [] => ret None
  | _ =>
    let df := coerce_cols cashbook_numeric_cols df0 in
    str_accessor (map (@payment_method _) df) ;;
    match filter is_cash df with
    | [] =>
        emit (StWarning (Msg "No cash transactions found in the selected date range!")) ;;
        ret None
    | cash_df =>
        min_date <- series_min_date (map (@payment_date _) cash_df) ;;
        max_date <- series_max_date (map (@payment_date _) cash_df) ;;
        let cash_df := apply_date_range (@payment_date _) date_range cash_df in
        match date_range with
        | [s; e] => emit (StSuccess (MsgRange "Showing data" s e))
        | _ => ret tt
        end ;;
        total_debit <- series_sum (map (@debit _) cash_df) ;;
        total_credit <- series_sum (map (@credit _) cash_df) ;;
        let net_flow := total_debit - total_credit in
        cmp <- match date_range with
               | [s; e] =>
                   c <- compare_previous df s e total_debit total_credit ;;
                   ret (Some c)
               | _ => ret None
               end ;;
        emit (StMetric "Total Cash In" total_debit (delta_of cmp debit_change)) ;;
        emit (StMetric "Total Cash Out" total_credit (delta_of cmp credit_change)) ;;
        emit (StMetric "Net Cash Flow" net_flow
                (DeltaText (if Qle_bool 0 net_flow then "Surplus" else "Deficit"))) ;;
        ret (Some (mkCashbookView cash_df total_debit total_credit net_flow cmp))
    end
  end.

(** *** The MD Report page: date validation and filter (lines 1226-1308)

    [pick_start] and [pick_end] are what the user picks in the two date
    widgets, if anything; both widgets are bounded by the first and the
    last day of the [date] column. *)

(** [(df['date'] >= pd.to_datetime(start_date)) & (df['date'] <= pd.to_datetime(end_date))]:
    the timestamps are compared, and [pd.to_datetime] of a day is its
    midnight. *)
Definition md_mask (start_date end_date : date) (r : Row) : bool :=
  match date_ r with
  | Some t => ts_leb (to_datetime_date start_date) t
              && ts_leb t (to_datetime_date end_date)
  | None => false
  end.

Definition md_report (df : DataFrame) (pick_start pick_end : option date)
    : page DataFrame :=
  min_date <- series_min_date (map (@date_ _) df) ;;
  max_date <- series_max_date (map (@date_ _) df) ;;
  let start_date := date_input min_date min_date max_date pick_start in
  let end_date := date_input max_date min_date max_date pick_end in
  (if (end_date <? start_date)%Z then
     emit (StError (Msg "End date must be after start date")) ;; st_stop
   else ret tt) ;;
  let filtered_df := filter (md_mask start_date end_date) df in
  ret (coerce_cols cashbook_numeric_cols filtered_df).

(** *** The Payables page: the outstanding subset (lines 1454-1462) *)

Definition is_payable (r : Row) : bool :=
  text_eqb (str_lower (party_type r)) "vendor"
  && text_neqb (str_lower (status r)) "paid".

Definition payable_df (df : DataFrame) : DataFrame := filter is_payable df.

(** On the table without columns [df['party_type']] raises KeyError. *)
Definition payables (df : DataFrame) : page DataFrame :=
  match df with
  | [] => raise KeyError
  | _ =>
    str_accessor (map (@party_type _) df) ;;
    str_accessor (map (@status _) df) ;;
    match payable_df df with
    | [] =>
        emit (StInfo (Msg "No outstanding payables. All vendor bills are paid.")) ;;
        ret []
    | sub => ret sub
    end
  end.

(** *** The Receivables page (lines 1500-1548)

    The columns are object columns.  [str.contains] without [na=] gives
    a missing value on a missing text.  On the left of [&] a missing
    value counts as False; under [~] it cannot be inverted: a status
    column with a missing value makes the mask raise TypeError. *)

Definition is_customer (r : Row) : bool :=
  match str_contains ["customer"]%string (str_lower (party_type r)) with
  | Some b => b
  | None => false
  end.

Definition is_settled (r : Row) : option bool :=
  str_contains ["received"; "paid"]%string (str_lower (status r)).

Definition receivable_df (df : DataFrame) : page DataFrame :=
  str_accessor (map (@party_type _) df) ;;
  str_accessor (map (@status _) df) ;;
  if existsb (fun r => match is_settled r with None => true | Some _ => false end) df
  then raise TypeError
  else ret (filter (fun r => is_customer r
                             && negb (match is_settled r with
                                      | Some b => b
                                      | None => false
                                      end)) df).

(** [pd.cut(x, bins, labels=labels)] with the default [right=True],
    [include_lowest=False]: bin [i] is the interval [(bins[i], bins[i+1]]],
    and a value in no bin gets no label. *)
Inductive edge :=
| At (z : Z)
| Inf.                (* [float('inf')] *)

Definition edge_ltb (lo : edge) (x : Z) : bool :=
  match lo with At z => (z <? x)%Z | Inf => false end.

Definition edge_geb (hi : edge) (x : Z) : bool :=
  match hi with At z => (x <=? z)%Z | Inf => true end.

Fixpoint cut (bins : list edge) (labels : list string) (x : Z) : option string :=
  match bins, labels with
  | lo :: ((hi :: _) as rest), lab :: labels' =>
      if edge_ltb lo x && edge_geb hi x then Some lab else cut rest labels' x
  | _, _ => None
  end.

Definition aging_bins : list edge := [At (-1); At 0; At 30; At 60; At 90; Inf].

Definition aging_labels : list string :=
  ["Not Due"; "0-30 Days"; "31-60 Days"; "61-90 Days"; "90+ Days"]%string.

(** [(today - due_date).dt.days]: missing when the due date is. *)
Definition days_overdue (today : Timestamp) (r : Row) : option Z :=
  option_map (fun due => timedelta_days today due) (due_date r).

(** The [aging_bucket] column. *)
Definition bucket_of_days (d : option Z) : option string :=
  match d with
  | Some x => cut aging_bins aging_labels x
  | None => None
  end.

Definition aging_bucket (today : Timestamp) (r : Row) : option string :=
  bucket_of_days (days_overdue today r).

(** One row of [aging_summary]: the bucket, the sum of [amount] and the
    count of [voucher_no] over the rows of that bucket.  A row without a
    bucket is in no group. *)
Definition bucket_rows (today : Timestamp) (lab : string) (sub : DataFrame)
    : DataFrame :=
  filter (fun r => match aging_bucket today r with
                   | Some l => String.eqb l lab
                   | None => false
                   end) sub.

Definition series_count (col : list text) : nat := List.length (non_null col).

Fixpoint aging_summary (today : Timestamp) (labels : list string)
    (sub : DataFrame) : page (list (string * Q * nat)) :=
  match labels with
  | [] => ret []
  | lab :: labels' =>
      let g := bucket_rows today lab sub in
      a <- series_sum (map (@amount _) g) ;;
      rest <- aging_summary today labels' sub ;;
      ret ((lab, a, series_count (map (@voucher_no _) g)) :: rest)
  end.

Definition is_overdue (today : Timestamp) (r : Row) : bool :=
  match days_overdue today r with
  | Some d => (0 <? d)%Z
  | None => false
  end.

Record ReceivablesView := mkReceivablesView {
  rv_receivable_df    : DataFrame;
  rv_total_receivable : Q;
  rv_overdue_amount   : Q;
  rv_aging_summary    : list (string * Q * nat)
}.

(** [today] is [pd.Timestamp.today()].  The table without columns fails
    the column check of line 1510. *)
Definition receivables (df : DataFrame) (today : Timestamp)
    : page ReceivablesView :=
  match df with
  | [] =>
      emit (StError (Msg
        "Required columns (party_type, status, amount) not found in dataset")) ;;
      st_stop
  | _ =>
    sub <- receivable_df df ;;
    match sub with
    | [] =>
        emit (StSuccess (Msg "No outstanding receivables. All customer payments are received.")) ;;
        st_stop
    | _ =>
        total_receivable <- series_sum (map (@amount _) sub) ;;
        overdue_amount <- series_sum (map (@amount _) (filter (is_overdue today) sub)) ;;
        summary <- aging_summary today aging_labels sub ;;
        ret (mkReceivablesView sub total_receivable overdue_amount summary)
    end
  end.

(** *** The Bank Txns page (lines 1629-1682, up to the three metrics) *)

Definition is_bank_txn (r : Row) : bool :=
  str_contains_nocase ["bank"; "cash"]%string (account_head r)
  || str_contains_nocase ["bank"; "cash"]%string (category r)
  || str_contains_nocase ["bank"; "cash"]%string (sub_category r).

(** [bank_df[bank_df['payment_method'].isin(selected_methods)]] *)
Definition isin (vals : list string) (t : text) : bool :=
  match t with
  | Some s => existsb (String.eqb s) vals
  | None => false
  end.

(** [date_range[i]] on a tuple. *)
Definition tuple_get (date_range : list date) (i : nat) : page date :=
  match nth_error date_range i with
  | Some d => ret d
  | None => raise IndexError
  end.

Record BankTxnsView := mkBankTxnsView {
  bt_bank_df          : DataFrame;
  bt_total_deposit    : Q;
  bt_total_withdrawal : Q;
  bt_net_flow         : Q
}.

(** [date_range] is the value of the range picker and [selected_methods]
    that of the payment-method multiselect. *)
Definition bank_txns (df0 : DataFrame) (date_range : list date)
    (selected_methods : list string) : page (option BankTxnsView) :=
  match df0 with
  | [] => ret None
  | _ =>
    let df := coerce_cols [BankDeposit; BankWithdrawal] df0 in
    str_accessor (map (@account_head _) df) ;;
    str_accessor (map (@category _) df) ;;
    str_accessor (map (@sub_category _) df) ;;
    match filter is_bank_txn df with
    | [] => ret None
    | bank_df =>
        min_date <- series_min_date (map (@payment_date _) bank_df) ;;
        max_date <- series_max_date (map (@payment_date _) bank_df) ;;
        total_deposit <- series_sum (map (@bank_deposit _) bank_df) ;;
        total_withdrawal <- series_sum (map (@bank_withdrawal _) bank_df) ;;
        let net_flow := total_deposit - total_withdrawal in
        let bank_df := apply_date_range (@payment_date _) date_range bank_df in
        let bank_df :=
          match selected_methods with
          | [] => bank_df
          | _ => filter (fun r => isin selected_methods (payment_method r)) bank_df
          end in
        s <- tuple_get date_range 0 ;;
        e <- tuple_get date_range 1 ;;
        let bank_df := filter_date_range (@payment_date _) s e bank_df in
        emit (StMetric "Total Deposit" total_deposit DeltaNone) ;;
        emit (StMetric "Total Withdrawal" total_withdrawal DeltaNone) ;;
        emit (StMetric "Net Cash Flow" net_flow DeltaNone) ;;
        ret (Some (mkBankTxnsView bank_df total_deposit total_withdrawal net_flow))
    end
  end.

(** *** The Balance Sheet page: classification and totals (lines 1911-1937)

    [balance_sheet] is the block from the coercion of line 1911 to the
    totals, on the table that reaches it; [balance_sheet_page] below is the
    page from its first line. *)

Definition valid_types : list string :=
  ["asset"; "liability"; "equity"; "capital"; "retained earnings"]%string.

(** [df['account_type'].astype(str).str.strip().str.lower()] *)
Definition clean_account_type (t : text) : string :=
  Str.lower (Str.strip (astype_str t)).

(** [.replace({'capital': 'equity', 'retained earnings': 'equity'})] *)
Definition replace_equity (s : string) : string :=
  if String.eqb s "capital" then "equity"%string
  else if String.eqb s "retained earnings" then "equity"%string
  else s.

Definition set_account_type {D} (v : text) (r : Row_ D) : Row_ D :=
  mkRow (voucher_no r) (date_ r) (invoice_date r) (due_date r) (payment_date r)
        (debit r) (credit r) (amount r) (bank_deposit r) (bank_withdrawal r)
        (category r) (sub_category r) (account_head r) (account_name r)
        v (party_name r) (party_type r) (payment_method r) (status r).

Definition has_type (ty : string) (r : Row) : bool :=
  text_eqb (account_type r) ty.

Record BalanceSheet := mkBalanceSheet {
  assets_df         : DataFrame;
  liabilities_df    : DataFrame;
  equity_df         : DataFrame;
  total_assets      : Q;
  total_liabilities : Q;
  total_equity      : Q
}.

Definition bs_clean (df : DataFrame) : DataFrame :=
  map (fun r => set_account_type (Some (clean_account_type (account_type r))) r)
      (coerce_cols [Amount] df).

Definition bs_filtered (df : DataFrame) : DataFrame :=
  map (fun r => set_account_type (option_map replace_equity (account_type r)) r)
      (filter (fun r => isin valid_types (account_type r)) (bs_clean df)).

Definition balance_sheet (df : DataFrame) : page BalanceSheet :=
  let df_filtered := bs_filtered df in
  match df_filtered with
  | [] =>
      emit (StWarning (Msg
        "No valid balance sheet accounts found (looking for types: asset, liability, equity)")) ;;
      st_stop
  | _ =>
      let assets_df := filter (has_type "asset") df_filtered in
      let liabilities_df := filter (has_type "liability") df_filtered in
      let equity_df := filter (has_type "equity") df_filtered in
      total_assets <- series_sum (map (@amount _) assets_df) ;;
      total_liabilities <- series_sum (map (@amount _) liabilities_df) ;;
      total_equity <-
        match equity_df with
        | [] => ret (total_assets - total_liabilities)
        | _ => series_sum (map (@amount _) equity_df)
        end ;;
      ret (mkBalanceSheet assets_df liabilities_df equity_df
             total_assets total_liabilities total_equity)
  end.

(** *** The Balance Sheet page from its first line (lines 1867-1937 and the
    handler of lines 2160-2162)

    [columns] is [df.columns]: the header of the ledger, in the order of
    the workbook.  [pick] is what the user picks as the snapshot date, if
    anything. *)

(** The snapshot filter (lines 1877-1893): the rows dated up to the
    midnight that starts the snapshot day; any exception is shown as a
    warning and the table is left as it was. *)
Definition bs_snapshot (df : DataFrame) (pick : option date) : page DataFrame :=
  try_except
    (min_date <- series_min_date (map (@date_ _) df) ;;
     max_date <- series_max_date (map (@date_ _) df) ;;
     let snapshot_date := date_input max_date min_date max_date pick in
     ret (filter (fun r => match date_ r with
                           | Some t => ts_leb t (to_datetime_date snapshot_date)
                           | None => false
                           end) df))
    (fun e => emit (StWarning (MsgExn "Could not filter by date" e)) ;; ret df).

Definition required_cols : list string :=
  ["account_name"; "account_type"; "amount"]%string.

(** [[col for col in required_cols if col.lower() not in [c.lower() for c in df.columns]]] *)
Definition missing_cols (columns : list string) : list string :=
  filter (fun col => negb (existsb (String.eqb (Str.lower col))
                             (map Str.lower columns)))
         required_cols.

(** [{col: required_cols[i] for i, col in enumerate(df.columns)
      if col.lower() in [c.lower() for c in required_cols]}]:
    [i] is the position of the column in the header, so a required column
    that is not among the first three makes [required_cols[i]] raise
    IndexError. *)
Fixpoint col_mapping (i : nat) (columns : list string)
    : page (list (string * string)) :=
  match columns with
  | [] => ret []
  | col :: columns' =>
      if existsb (String.eqb (Str.lower col)) (map Str.lower required_cols) then
        match nth_error required_cols i with
        | Some name =>
            rest <- col_mapping (S i) columns' ;;
            ret ((col, name) :: rest)
        | None => raise IndexError
        end
      else col_mapping (S i) columns'
  end.

Section Rename.

(** How Python writes a number as text ([str(x)]). *)
Variable float_str : Q -> string.

(** A cell of one of the three columns, whatever the column holds. *)
Definition cell_of_text (t : text) : cell :=
  match t with Some s => CText s | None => CNull end.

Definition text_of_cell (c : cell) : text :=
  match c with
  | CNull => None
  | CNum q => Some (float_str q)
  | CText s => Some s
  end.

Definition column_cell (name : string) (r : Row) : cell :=
  if String.eqb name "account_name" then cell_of_text (account_name r)
  else if String.eqb name "account_type" then cell_of_text (account_type r)
  else amount r.

(** [df.rename(columns=col_mapping)]: the column called [name] afterwards
    is the one that the mapping sends to [name], or the column of that
    name when the mapping sends none there.  (A number that lands in
    [account_name] is kept as its text: the page reads that column in its
    tabs only.) *)
Definition renamed_from (mapping : list (string * string)) (name : string)
    : string :=
  match find (fun kv => String.eqb (snd kv) name) mapping with
  | Some kv => Str.lower (fst kv)
  | None => name
  end.

Definition rename (mapping : list (string * string)) (r : Row) : Row :=
  mkRow (voucher_no r) (date_ r) (invoice_date r) (due_date r) (payment_date r)
        (debit r) (credit r)
        (column_cell (renamed_from mapping "amount") r)
        (bank_deposit r) (bank_withdrawal r)
        (category r) (sub_category r) (account_head r)
        (text_of_cell (column_cell (renamed_from mapping "account_name") r))
        (text_of_cell (column_cell (renamed_from mapping "account_type") r))
        (party_name r) (party_type r) (payment_method r) (status r).

Definition balance_sheet_page (columns : list string) (df : DataFrame)
    (pick : option date) : page (option BalanceSheet) :=
  df <- (if existsb (String.eqb "date") columns then bs_snapshot df pick
         else ret df) ;;
  match missing_cols columns with
  | _ :: _ =>
      emit (StWarning (Msg
        ("Required columns not found: "
         ++ String.concat ", " (missing_cols columns)))) ;;
      emit (StInfo (Msg
        "Please ensure your dataset contains: account_name, account_type, and amount columns")) ;;
      st_stop
  | [] =>
      try_except
        (mapping <- col_mapping 0 columns ;;
         bs <- balance_sheet (map (rename mapping) df) ;;
         ret (Some bs))
        (fun e =>
           emit (StError (MsgExn "An error occurred" e)) ;;
           emit (StError (Msg "Please check your data and try again")) ;;
           ret None)
  end.

End Rename.

End Pages.

From Stdlib Require Import Permutation.

(** * More of the pages *)

(** ** The sidebar menu and the page dispatch (lines 40-58 and the
    [if]/[elif] chain of lines 61-2190) *)

Definition menu : list string :=
  ["🏠 Home"; "📊 Dashboard"; "💵 Cashbook"; "🏦 Bankbook"; "📉 Liability";
   "💰 Income"; "💸 Expense"; "📂 Payables"; "📥 Receivables"; "📈 Forecast";
   "📑 MD Report"; "🏧 Bank Txns"; "⚙ Settings"; "👨‍⚖️ About";
   "⚖ Blance Sheet"]%string.

Inductive branch :=
| BHome | BDashboard | BCashbook | BBankbook | BLiability | BIncome
| BExpense | BMdReport | BPayables | BReceivables | BBankTxns | BForecast
| BBalanceSheet | BAbout | BSettings
| BElse.     (* the final [else]: the "Please upload a valid CSV file" warning *)

(** The branch taken for a choice; [df_empty] is [df.empty]. *)
Definition dispatch (choice : string) (df_empty : bool) : branch :=
  if String.eqb choice "🏠 Home" then BHome
  else if String.eqb choice "📊 Dashboard" && negb df_empty then BDashboard
  else if String.eqb choice "💵 Cashbook" && negb df_empty then BCashbook
  else if String.eqb choice "🏦 Bankbook" && negb df_empty then BBankbook
  else if String.eqb choice "📉 Liability" && negb df_empty then BLiability
  else if String.eqb choice "💰 Income" && negb df_empty then BIncome
  else if String.eqb choice "💸 Expense" && negb df_empty then BExpense
  else if String.eqb choice "📑 MD Report" then BMdReport
  else if String.eqb choice "📂 Payables" then BPayables
  else if String.eqb choice "📥 Receivables" then BReceivables
  else if String.eqb choice "🏧 Bank Txns" && negb df_empty then BBankTxns
  else if String.eqb choice "📈 Forecast" then BForecast
  else if String.eqb choice "⚖ Balance Sheet" then BBalanceSheet
  else if String.eqb choice "👨‍⚖️ About" then BAbout
  else if String.eqb choice "Settings" then BSettings
  else BElse.

(** ** Row highlighting *)

Definition ts_ltb (a b : Timestamp) : bool := (ts_nanos a <? ts_nanos b)%Z.

(** [highlight_overdue] of the Payables page (lines 1466-1469): the style of
    every cell of the row. *)
Definition payables_highlight (today : Timestamp) (r : Row) : string :=
  match due_date r with
  | Some due => if ts_ltb due today then "background-color: #ffcccc"%string
                else ""%string
  | None => ""%string
  end.

(** [highlight_overdue] of the Receivables page (lines 1593-1603), on the
    [days_overdue] of the row: a comparison with a missing value is False. *)
Definition receivables_highlight (d : option Z) : string :=
  match d with
  | Some x =>
      if (90 <? x)%Z then "background-color: #ffb3ba"%string
      else if (60 <? x)%Z then "background-color: #ffdfba"%string
      else if (30 <? x)%Z then "background-color: #ffffba"%string
      else if (0 <? x)%Z then "background-color: #baffc9"%string
      else ""%string
  | None => ""%string
  end.

Section MorePages.

Variable parse_number : string -> option Q.

(** ** The Home page: the current balance (lines 84-96) *)

Record HomeView := mkHomeView {
  home_total_cash    : Q;
  home_total_bank    : Q;
  home_total_balance : Q
}.

(** The page has no guard on [df.empty]: on the table without columns the
    loop finds no column to coerce and [df['debit']] raises KeyError. *)
Definition home (df0 : DataFrame) : page HomeView :=
  match df0 with
  | [] => raise KeyError
  | _ =>
    let df := coerce_cols parse_number
                [Debit; Credit; BankDeposit; BankWithdrawal] df0 in
    d <- series_sum (map (@debit _) df) ;;
    c <- series_sum (map (@credit _) df) ;;
    let total_cash := d - c in
    bd <- series_sum (map (@bank_deposit _) df) ;;
    bw <- series_sum (map (@bank_withdrawal _) df) ;;
    let total_bank := bd - bw in
    let total_balance := total_cash + total_bank in
    emit (StMetric "Current Balance" total_balance DeltaNone) ;;
    ret (mkHomeView total_cash total_bank total_balance)
  end.

(** ** The Dashboard page: the summary metrics (lines 131-162) *)

Record DashboardView := mkDashboardView {
  dash_total_income  : Q;
  dash_total_expense : Q;
  dash_balance       : Q
}.

Definition dashboard (df0 : DataFrame) : page (option DashboardView) :=
  match df0 with
  | [] => ret None
  | _ =>
    let df := coerce_cols parse_number [Debit; Credit] df0 in
    total_income <- series_sum (map (@credit _) df) ;;
    total_expense <- series_sum (map (@debit _) df) ;;
    let balance := total_income - total_expense in
    emit (StMetric "Total Income" total_income DeltaNone) ;;
    emit (StMetric "Total Expense" total_expense DeltaNone) ;;
    emit (StMetric "Net Balance" balance DeltaNone) ;;
    ret (Some (mkDashboardView total_income total_expense balance))
  end.

(** ** The Cashbook page: the shortcut buttons (lines 247-272)

    [month_start] and [year_start] stand for
    [datetime(d.year, d.month, 1).date()] and [datetime(d.year, 1, 1).date()].
    [picked] is the value of the range picker; a pressed button replaces
    it, a later button after an earlier one. *)
Section Shortcuts.

Variable month_start : date -> date.
Variable year_start : date -> date.

Definition shortcut_range (picked : list date)
    (last_7_days current_month current_year : bool) (max_date : date)
    : list date :=
  let date_range := picked in
  let date_range :=
    if last_7_days then [(max_date - 7)%Z; max_date] else date_range in
  let date_range :=
    if current_month then [month_start max_date; max_date] else date_range in
  let date_range :=
    if current_year then [year_start max_date; max_date] else date_range in
  date_range.

(** The Cashbook with its picker and buttons: [max_date] is taken from the
    cash rows, as the page does before it shows the picker. *)
Definition cashbook_with_shortcuts (df0 : DataFrame) (picked : list date)
    (last_7_days current_month current_year : bool)
    : page (option CashbookView) :=
  match non_null (map (@payment_date _)
                    (filter is_cash
                       (coerce_cols parse_number cashbook_numeric_cols df0))) with
  | [] => cashbook parse_number df0 picked
  | _ =>
      max_date <- series_max_date
                    (map (@payment_date _)
                       (filter is_cash
                          (coerce_cols parse_number cashbook_numeric_cols df0))) ;;
      cashbook parse_number df0
        (shortcut_range picked last_7_days current_month current_year max_date)
  end.

End Shortcuts.

(** ** The Cashbook page: the rows of the "Detailed Transactions" tab
    (lines 556-616), before they are sorted for display

    [cash_df] is the table of the page at that point: its numeric columns
    are numbers.  [slider] is the value of the amount slider, shown only
    when [cash_df] has a row. *)

Definition cell_leb (lo : Q) (c : cell) (hi : Q) : bool :=
  match c with
  | CNum q => Qle_bool lo q && Qle_bool q hi
  | _ => false
  end.

Definition cell_gt0 (c : cell) : bool :=
  match c with
  | CNum q => Qgt0 q
  | _ => false
  end.

Definition is_zero_range (amount_range : Q * Q) : bool :=
  Qeq_bool (fst amount_range) 0 && Qeq_bool (snd amount_range) 0.

Definition detailed_transactions (cash_df : DataFrame)
    (category_filter : list string) (slider : Q * Q)
    (flow_type : list string) : DataFrame :=
  let amount_range :=
    match cash_df with
    | [] => (0, 0)
    | _ => slider
    end in
  let filtered_df := cash_df in
  let filtered_df :=
    match category_filter with
    | [] => filtered_df
    | _ => filter (fun r => isin category_filter (category r)) filtered_df
    end in
  let filtered_df :=
    if negb (is_zero_range amount_range) then
      filter (fun r => cell_leb (fst amount_range) (amount r) (snd amount_range))
             filtered_df
    else filtered_df in
  let flow_filters : list (Row -> bool) :=
    (if existsb (String.eqb "Cash In") flow_type
     then [fun r => cell_gt0 (debit r)] else [])
    ++
    (if existsb (String.eqb "Cash Out") flow_type
     then [fun r => cell_gt0 (credit r)] else []) in
  match flow_filters with
  | [] => filtered_df
  | _ => filter (fun r => existsb (fun f => f r) flow_filters) filtered_df
  end.

(** The same tab as a function of the ledger and the widgets. *)
Definition cashbook_transactions (df0 : DataFrame) (date_range : list date)
    (category_filter : list string) (slider : Q * Q)
    (flow_type : list string) : DataFrame :=
  detailed_transactions
    (apply_date_range (@payment_date _) date_range
       (filter is_cash (coerce_cols parse_number cashbook_numeric_cols df0)))
    category_filter slider flow_type.

(** ** Grouping

    [df.groupby(key)] sorts the groups by key; a row with a missing key is
    left out, or, with [dropna=False], goes to a last group of its own. *)

Fixpoint insert_sorted (s : string) (l : list string) : list string :=
  match l with
  | [] => [s]
  | x :: l' => if String.leb s x then s :: l else x :: insert_sorted s l'
  end.

Definition sort_strings (l : list string) : list string :=
  fold_right insert_sorted [] l.

Definition group_keys (col : list text) : list string :=
  sort_strings (nodup string_dec (non_null col)).

Definition has_key (key : Row -> text) (k : string) (r : Row) : bool :=
  text_eqb (key r) k.

Definition no_key (key : Row -> text) (r : Row) : bool :=
  match key r with None => true | Some _ => false end.

Definition groupby (key : Row -> text) (dropna : bool) (df : DataFrame)
    : list (text * DataFrame) :=
  map (fun k => (Some k, filter (has_key key k) df)) (group_keys (map key df))
  ++ (if dropna then []
      else match filter (no_key key) df with
           | [] => []
           | g => [(None, g)]
           end).

(** [.agg(total=(c, 'sum'), count=('voucher_no', 'count'))] on the groups. *)
Fixpoint agg_sum_count (c : numcol) (groups : list (text * DataFrame))
    : page (list (text * Q * nat)) :=
  match groups with
  | [] => ret []
  | (k, g) :: groups' =>
      s <- series_sum (map (get_num c) g) ;;
      rest <- agg_sum_count c groups' ;;
      ret ((k, s, series_count (map (@voucher_no _) g)) :: rest)
  end.

(** [groupby(key)[c].sum()] *)
Fixpoint group_sums (c : numcol) (groups : list (text * DataFrame))
    : page (list (text * Q)) :=
  match groups with
  | [] => ret []
  | (k, g) :: groups' =>
      s <- series_sum (map (get_num c) g) ;;
      rest <- group_sums c groups' ;;
      ret ((k, s) :: rest)
  end.

(** [Series.idxmax()] with [Series.max()]: the first label that carries the
    greatest value; nothing for an empty series. *)
Fixpoint idxmax (l : list (text * Q)) : option (text * Q) :=
  match l with
  | [] => None
  | (k, v) :: l' =>
      match idxmax l' with
      | None => Some (k, v)
      | Some (k', v') => if Qle_bool v' v then Some (k, v) else Some (k', v')
      end
  end.

(** ** The Receivables page: the customer summary (lines 1569-1574),
    before [.sort_values] *)

(** [Series.mean()] of a column of day counts: missing values are skipped,
    and the mean of nothing is NaN. *)
Definition series_mean (col : list (option Z)) : np_float :=
  match non_null col with
  | [] => NaN
  | x :: l =>
      Fin (inject_Z (fold_right Z.add 0%Z (x :: l))
           / inject_Z (Z.of_nat (List.length (x :: l))))
  end.

(** [Series.min()] of a datetime column: NaT for a column without a date. *)
Definition series_min (col : list datetime) : datetime :=
  match non_null col with
  | [] => None
  | t :: ts => Some (fold_left (fun m x => if ts_leb x m then x else m) ts t)
  end.

Record CustomerRow := mkCustomerRow {
  cr_party_name       : text;
  cr_total_due        : Q;
  cr_oldest_invoice   : datetime;
  cr_invoice_count    : nat;
  cr_avg_days_overdue : np_float
}.

Fixpoint customer_agg (today : Timestamp) (groups : list (text * DataFrame))
    : page (list CustomerRow) :=
  match groups with
  | [] => ret []
  | (k, g) :: groups' =>
      total_due <- series_sum (map (@amount _) g) ;;
      rest <- customer_agg today groups' ;;
      ret (mkCustomerRow k total_due
             (series_min (map (@due_date _) g))
             (series_count (map (@voucher_no _) g))
             (series_mean (map (days_overdue today) g)) :: rest)
  end.

Definition customer_summary (today : Timestamp) (receivable_df : DataFrame)
    : page (list CustomerRow) :=
  customer_agg today (groupby (@party_name _) true receivable_df).

(** The page up to the customer summary. *)
Definition receivables_customers (df : DataFrame) (today : Timestamp)
    : page (list CustomerRow) :=
  v <- receivables df today ;;
  customer_summary today (rv_receivable_df v).

(** ** The Payables page: total and vendor summary (lines 1454-1480)

    [vendor_summary] is the table before [.sort_values]. *)

Record PayablesView := mkPayablesView {
  pv_payable_df     : DataFrame;
  pv_total_payable  : Q;
  pv_vendor_summary : list (text * Q * nat)
}.

Definition payables_report (df : DataFrame) : page (option PayablesView) :=
  match df with
  | [] => raise KeyError
  | _ =>
    str_accessor (map (@party_type _) df) ;;
    str_accessor (map (@status _) df) ;;
    match payable_df df with
    | [] =>
        emit (StInfo (Msg "No outstanding payables. All vendor bills are paid.")) ;;
        ret None
    | sub =>
        total_payable <- series_sum (map (@amount _) sub) ;;
        vendor_summary <- agg_sum_count Amount (groupby (@party_name _) false sub) ;;
        emit (StMetric "Total Payable" total_payable DeltaNone) ;;
        ret (Some (mkPayablesView sub total_payable vendor_summary))
    end
  end.

(** ** The Liability page: metrics and party summary (lines 916-960)

    [party_summary] is the table before [.sort_values]. *)

Definition is_liability (r : Row) : bool :=
  str_contains_nocase ["liability"; "loan"]%string (account_head r)
  || str_contains_nocase ["loan"; "liability"]%string (sub_category r)
  || str_contains_nocase ["managing director"]%string (party_type r).

Definition not_paid (r : Row) : bool :=
  text_neqb (str_lower (status r)) "paid".

Record PartyLiability := mkPartyLiability {
  pl_party_name     : text;
  pl_total_amount   : Q;
  pl_overdue_amount : Q;
  pl_count          : nat
}.

(** The three aggregations of [party_summary]; the second sums the
    amounts of the group's rows that pass the same status test. *)
Fixpoint liability_agg (groups : list (text * DataFrame))
    : page (list PartyLiability) :=
  match groups with
  | [] => ret []
  | (k, g) :: groups' =>
      total_amount <- series_sum (map (@amount _) g) ;;
      overdue_amount <- series_sum (map (@amount _) (filter not_paid g)) ;;
      rest <- liability_agg groups' ;;
      ret (mkPartyLiability k total_amount overdue_amount
             (series_count (map (@voucher_no _) g)) :: rest)
  end.

Record LiabilityView := mkLiabilityView {
  lv_liability_df        : DataFrame;
  lv_total_liabilities   : Q;
  lv_overdue_liabilities : Q;
  lv_outstanding         : Q;        (* the third metric *)
  lv_party_summary       : list PartyLiability
}.

Definition liability (df0 : DataFrame) (date_range : list date)
    : page (option LiabilityView) :=
  match df0 with
  | [] => ret None
  | _ =>
    let df := coerce_cols parse_number [Amount] df0 in
    str_accessor (map (@account_head _) df) ;;
    str_accessor (map (@sub_category _) df) ;;
    str_accessor (map (@party_type _) df) ;;
    match filter is_liability df with
    | [] => ret None
    | liability_df =>
        min_date <- series_min_date (map (@due_date _) liability_df) ;;
        max_date <- series_max_date (map (@due_date _) liability_df) ;;
        let liability_df := apply_date_range (@due_date _) date_range liability_df in
        total_liabilities <- series_sum (map (@amount _) liability_df) ;;
        str_accessor (map (@status _) df) ;;
        overdue_liabilities <-
          series_sum (map (@amount _) (filter not_paid liability_df)) ;;
        emit (StMetric "Total Liabilities" total_liabilities DeltaNone) ;;
        emit (StMetric "Overdue Liabilities" overdue_liabilities DeltaNone) ;;
        emit (StMetric "Outstanding Liabilities"
                (total_liabilities - overdue_liabilities) DeltaNone) ;;
        party_summary <-
          liability_agg (groupby (@party_name _) true liability_df) ;;
        ret (Some (mkLiabilityView liability_df total_liabilities
                     overdue_liabilities
                     (total_liabilities - overdue_liabilities)
                     party_summary))
    end
  end.

(** ** The Bankbook page: the metrics (lines 690-733) *)

Definition is_bank_method (r : Row) : bool :=
  str_contains_na_false ["bank"]%string
    (Some (Str.lower (astype_str (payment_method r)))).

Record BankbookView := mkBankbookView {
  bb_bank_df          : DataFrame;
  bb_total_deposit    : Q;
  bb_total_withdrawal : Q;
  bb_net_flow         : Q;
  bb_total_amount     : Q
}.

Definition bankbook (df0 : DataFrame) (date_range : list date)
    : page (option BankbookView) :=
  match df0 with
  | [] => ret None
  | _ =>
    let df := coerce_cols parse_number
                [BankDeposit; BankWithdrawal; Amount; Debit; Credit] df0 in
    match filter is_bank_method df with
    | [] =>
        emit (StWarning (Msg "No bank transactions found!")) ;;
        ret None
    | bank_df =>
        total_deposit <- series_sum (map (@bank_deposit _) bank_df) ;;
        total_withdrawal <- series_sum (map (@bank_withdrawal _) bank_df) ;;
        let net_flow := total_deposit - total_withdrawal in
        min_date <- series_min_date (map (@payment_date _) bank_df) ;;
        max_date <- series_max_date (map (@payment_date _) bank_df) ;;
        let bank_df := apply_date_range (@payment_date _) date_range bank_df in
        emit (StMetric "Total Deposit" total_deposit (DeltaText "All Time")) ;;
        emit (StMetric "Total Withdrawal" total_withdrawal (DeltaText "All Time")) ;;
        emit (StMetric "Net Flow" net_flow DeltaNone) ;;
        total_amount <- series_sum (map (@amount _) bank_df) ;;
        emit (StMetric "Total Amount" total_amount DeltaNone) ;;
        ret (Some (mkBankbookView bank_df total_deposit total_withdrawal
                     net_flow total_amount))
    end
  end.

(** ** The Income page: filters and metrics (lines 1013-1063)

    [method_filter] and [account_filter] are the values of the two
    multiselects.  The view holds the values the page shows as metrics. *)

Definition is_income (r : Row) : bool :=
  str_contains_nocase ["income"; "revenue"; "sales"]%string (account_head r)
  || str_contains_nocase ["income"; "revenue"]%string (category r)
  || str_contains_nocase ["income"; "sales"]%string (sub_category r).

Record IncomeView := mkIncomeView {
  iv_income_df    : DataFrame;
  iv_total_income : Q;
  iv_top_party    : text;
  iv_top_amount   : Q
}.

Definition income (df0 : DataFrame) (date_range : list date)
    (method_filter account_filter : list string)
    : page (option IncomeView) :=
  match df0 with
  | [] => ret None
  | _ =>
    let df := coerce_cols parse_number [Amount] df0 in
    str_accessor (map (@account_head _) df) ;;
    str_accessor (map (@category _) df) ;;
    str_accessor (map (@sub_category _) df) ;;
    match filter is_income df with
    | [] => ret None
    | income_df =>
        min_date <- series_min_date (map (@payment_date _) income_df) ;;
        max_date <- series_max_date (map (@payment_date _) income_df) ;;
        let income_df := apply_date_range (@payment_date _) date_range income_df in
        let income_df :=
          match method_filter with
          | [] => income_df
          | _ => filter (fun r => isin method_filter (payment_method r)) income_df
          end in
        let income_df :=
          match account_filter with
          | [] => income_df
          | _ => filter (fun r => isin account_filter (account_name r)) income_df
          end in
        total_income <- series_sum (map (@amount _) income_df) ;;
        by_party <- group_sums Amount (groupby (@party_name _) true income_df) ;;
        match idxmax by_party with
        | None => raise ValueError
        | Some (top_party, top_amount) =>
            ret (Some (mkIncomeView income_df total_income top_party top_amount))
        end
    end
  end.

(** ** The Expense page: sub-category summary and detailed table
    (lines 1114-1217)

    [party_filter] is the value of the multiselect of the detailed table,
    whose options and default are [ev_party_options].  [subcat_summary] is
    the table before [.sort_values]. *)

Definition is_expense (r : Row) : bool :=
  str_contains_nocase ["expense"; "purchase"; "cost"]%string (account_head r)
  || str_contains_nocase ["expense"; "purchase"]%string (category r)
  || str_contains_nocase ["expense"; "purchase"]%string (sub_category r).

Record ExpenseView := mkExpenseView {
  ev_expense_df     : DataFrame;
  ev_subcat_summary : list (text * Q * nat);
  ev_party_options  : list string;
  ev_filtered_df    : DataFrame
}.

Definition expense (df0 : DataFrame) (date_range : list date)
    (party_filter : list string) : page (option ExpenseView) :=
  match df0 with
  | [] => ret None
  | _ =>
    let df := coerce_cols parse_number [Credit] df0 in
    str_accessor (map (@account_head _) df) ;;
    str_accessor (map (@category _) df) ;;
    str_accessor (map (@sub_category _) df) ;;
    match filter is_expense df with
    | [] =>
        emit (StWarning (Msg "No expense records found for the given criteria.")) ;;
        ret None
    | expense_df =>
        min_date <- series_min_date (map (@payment_date _) expense_df) ;;
        max_date <- series_max_date (map (@payment_date _) expense_df) ;;
        let expense_df := apply_date_range (@payment_date _) date_range expense_df in
        subcat_summary <-
          agg_sum_count Credit (groupby (@sub_category _) true expense_df) ;;
        let options := group_keys (map (@party_name _) expense_df) in
        let filtered_df :=
          filter (fun r => isin party_filter (party_name r)) expense_df in
        ret (Some (mkExpenseView expense_df subcat_summary options filtered_df))
    end
  end.

(** ** The MD Report page: the KPI values, their cards and the financial
    position (lines 1298-1348 and 1398-1404, with the handler of lines
    1442-1444)

    [df] is the ledger and [filtered_df] its rows of the range with the
    numeric columns coerced.  The [status] column of [filtered_df] has the
    type it has in [df]. *)

(** [num / den if den != 0 else float('inf')] *)
Definition guarded_ratio (num den : Q) : np_float :=
  if negb (Qeq_bool den 0) then np_truediv num den else PInf.

Record MdKpis := mkMdKpis {
  md_total_sales       : Q;
  md_total_expenses    : Q;
  md_total_loans       : Q;
  md_total_payables    : Q;
  md_total_receivables : Q;
  md_total_balance     : Q;
  md_assets            : Q;
  md_liabilities       : Q;
  md_equity            : Q;
  md_current_ratio     : np_float;
  md_debt_to_equity    : np_float
}.

Definition md_unsettled (party word : string) (r : Row) : bool :=
  text_eqb (party_type r) party
  && negb (str_contains_na_false [word] (status r)).

(** One KPI card (lines 1340-1348). *)
Inductive delta_type := DtNone | DtInverse | DtNormal.

Definition kpi_card (title : string) (value : Q) (dt : delta_type)
    : page unit :=
  if match dt with DtInverse => Qgt0 value | _ => false end then
    emit (StMetric title value (DeltaText "High"))
  else if match dt with DtNormal => negb (Qle_bool 0 value) | _ => false end then
    emit (StMetric title value (DeltaText "Negative"))
  else emit (StMetric title value DeltaNone).

Definition md_kpis (df filtered_df : DataFrame) : page MdKpis :=
  total_sales <-
    series_sum (map (@debit _)
      (filter (fun r => text_eqb (category r) "Income") filtered_df)) ;;
  total_expenses <-
    series_sum (map (@credit _)
      (filter (fun r => text_eqb (category r) "Expense") filtered_df)) ;;
  total_loans <-
    series_sum (map (@debit _)
      (filter (fun r => text_eqb (category r) "Loan") filtered_df)) ;;
  str_accessor (map (@status _) df) ;;
  total_payables <-
    series_sum (map (@amount _)
      (filter (md_unsettled "Vendor" "Paid") filtered_df)) ;;
  total_receivables <-
    series_sum (map (@amount _)
      (filter (md_unsettled "Customer" "Received") filtered_df)) ;;
  d <- series_sum (map (@debit _) filtered_df) ;;
  c <- series_sum (map (@credit _) filtered_df) ;;
  bd <- series_sum (map (@bank_deposit _) filtered_df) ;;
  bw <- series_sum (map (@bank_withdrawal _) filtered_df) ;;
  let total_balance := (d - c) + (bd - bw) in
  kpi_card "Sales" total_sales DtNone ;;
  kpi_card "Expenses" total_expenses DtInverse ;;
  kpi_card "Loans" total_loans DtNone ;;
  kpi_card "Payables" total_payables DtInverse ;;
  kpi_card "Receivables" total_receivables DtNone ;;
  kpi_card "Current Balance" total_balance DtNormal ;;
  let assets := total_balance + total_receivables in
  let liabilities := total_payables + total_loans in
  let equity := assets - liabilities in
  let current_ratio :=
    guarded_ratio (total_balance + total_receivables)
                  (total_payables + total_loans) in
  let debt_to_equity := guarded_ratio (total_payables + total_loans) equity in
  ret (mkMdKpis total_sales total_expenses total_loans total_payables
         total_receivables total_balance assets liabilities equity
         current_ratio debt_to_equity).

(** The page from its date inputs to the financial position; an exception
    of the report block is shown as an error, and the page goes on. *)
Definition md_report_kpis (df : DataFrame) (pick_start pick_end : option date)
    : page (option MdKpis) :=
  filtered_df <- md_report parse_number df pick_start pick_end ;;
  try_except
    (k <- md_kpis df filtered_df ;; ret (Some k))
    (fun e =>
       emit (StError (MsgExn "An error occurred while generating the report" e)) ;;
       emit (StError (Msg "Please check your data format and try again")) ;;
       ret None).

End MorePages.

(** * Vocabulary of the properties *)

Definition cell_value (c : cell) : Q :=
  match c with CNum q => q | _ => 0 end.

Definition is_num (c : cell) : Prop := exists q, c = CNum q.

Definition numeric_col (c : numcol) (df : DataFrame) : Prop :=
  Forall (fun r => is_num (get_num c r)) df.

(** The total of a column of a table, as a plain sum. *)
Definition total (c : numcol) (df : DataFrame) : Q :=
  qsum (map (fun r => cell_value (get_num c r)) df).

(** The text columns that a page reads with [.str] are object columns:
    each holds text in some row. *)
Definition object_columns (cols : list (Row -> text)) (df : DataFrame) : Prop :=
  Forall (fun col => is_object (map col df) = true) cols.

(** A failure outcome: the page stopped or an exception went up. *)
Definition failed {A} (m : page A) : Prop :=
  match outcome_of m with
  | Done _ => False
  | Stopped => True
  | Raised _ => True
  end.

(** What the specification says of the loader: no numeric cell of a
    loaded ledger is missing. *)
Definition loader_leaves_no_null : Prop :=
  forall (parse_datetime : string -> option Timestamp) (rows : list RawRow)
         (df : DataFrame),
    outcome_of (load_data parse_datetime (Some (Workbook rows))) = Done df ->
    forall r c, In r df -> is_null (get_num c r) = false.

(** An explicit validation error: an error message is shown and the page
    stops. *)
Definition validation_error {A} (m : page A) : Prop :=
  outcome_of m = Stopped /\ exists msg, In (StError msg) (log_of m).

(** ** Example data *)

(** A ledger row with the columns the examples look at; the others are
    empty. *)
Definition example_row (pay due : datetime) (deb cre amt : cell)
    (ptype pmethod stat atype : text) : Row :=
  mkRow None None None due pay deb cre amt CNull CNull
        None None None None atype None ptype pmethod stat.

Definition no_parse : string -> option Q := fun _ => None.
Definition no_datetime : string -> option Timestamp := fun _ => None.

(** Nine o'clock in the morning of day 100. *)
Definition example_today : Timestamp := mkTimestamp 100%Z 32400000000000%Z.

(** An open customer invoice that falls due on day 101. *)
Definition invoice_due_tomorrow : Row :=
  example_row None (Some (mkTimestamp 101%Z 0%Z)) CNull CNull (CNum 250)
              (Some "Customer"%string) None (Some "Pending"%string) None.

(** A workbook row whose debit cell is empty. *)
Definition row_without_debit : RawRow :=
  mkRow (Some "V-1"%string) RNull RNull RNull RNull
        CNull (CNum 40) (CNum 40) CNull CNull
        None None None None None None None None None.

(** A workbook row for an open customer invoice: no debit, no credit and
    no due date entered. *)
Definition undated_invoice : RawRow :=
  mkRow (Some "INV-7"%string) RNull RNull RNull RNull
        CNull CNull (CNum 250) CNull CNull
        None None None None None (Some "Acme"%string)
        (Some "Customer"%string) None (Some "Pending"%string).

(** A vendor bill and a customer invoice, both marked "Fully Paid". *)
Definition fully_paid_bill : Row :=
  example_row None None CNull CNull (CNum 900)
              (Some "Vendor"%string) None (Some "Fully Paid"%string) None.

Definition fully_paid_invoice : Row :=
  example_row None None CNull CNull (CNum 900)
              (Some "Customer"%string) None (Some "Fully Paid"%string) None.

(** A customer invoice marked as received, next to an open one. *)
Definition received_invoice : Row :=
  example_row None None CNull CNull (CNum 120)
              (Some "Customer"%string) None (Some "Payment Received"%string) None.

(** A ledger with one cash receipt on day 10 and a bank receipt on day 3. *)
Definition cash_receipt : Row :=
  example_row (Some (mkTimestamp 10%Z 0%Z)) None (CNum 100) (CNum 0) CNull
              None (Some "Cash"%string) None None.

Definition bank_receipt : Row :=
  example_row (Some (mkTimestamp 3%Z 0%Z)) None (CNum 70) (CNum 5) CNull
              None (Some "Bank Transfer"%string) None None.

Definition small_ledger : DataFrame := [cash_receipt; bank_receipt].

(** The cash receipt of day 10 and, on day 8, the reversal of an earlier
    receipt: a negative debit. *)
Definition cash_reversal : Row :=
  example_row (Some (mkTimestamp 8%Z 0%Z)) None (CNum (-60)) (CNum 0) CNull
              None (Some "Cash"%string) None None.

Definition reversal_ledger : DataFrame := [cash_receipt; cash_reversal].

(** A dated ledger entry: its day and time of day, category, debit and
    credit, party type, status and amount. *)
Definition entry (day ns : Z) (cat : string) (deb cre : Q)
    (ptype stat : string) (amt : Q) : Row :=
  mkRow None (Some (mkTimestamp day ns)) None None None
        (CNum deb) (CNum cre) (CNum amt) CNull CNull
        (Some cat) None None None None None (Some ptype) None (Some stat).

(** A sale entered on day 5 at midnight and a bill entered on day 20 at
    nine o'clock. *)
Definition late_entry : Row :=
  entry 20 32400000000000 "Expense" 0 40 "Vendor" "Pending" 40.

Definition two_day_ledger : DataFrame :=
  [entry 5 0 "Income" 100 0 "Customer" "Pending" 100; late_entry].

(** The same two entries, both at midnight. *)
Definition month_ledger : DataFrame :=
  [entry 5 0 "Income" 100 0 "Customer" "Pending" 100;
   entry 20 0 "Expense" 0 40 "Vendor" "Pending" 40].

(** The start and the end date of the MD Report for what the user picks:
    the values of its two date widgets. *)
Definition md_dates (df : DataFrame) (pick_start pick_end : option date)
    (s e : date) : Prop :=
  exists mn mx,
    series_min_date (map (@date_ _) df) = ret mn /\
    series_max_date (map (@date_ _) df) = ret mx /\
    s = date_input mn mn mx pick_start /\
    e = date_input mx mn mx pick_end.

(** Three accounts entered on days 1 and 2. *)
Definition account_entry (day : Z) (name atype : string) (amt : Q) : Row :=
  mkRow None (Some (mkTimestamp day 0%Z)) None None None
        CNull CNull (CNum amt) CNull CNull
        None None None (Some name) (Some atype) None None None None.

Definition chart_of_accounts : DataFrame :=
  [account_entry 1 "Cash in hand" "Asset" 1000;
   account_entry 1 "Supplier credit" "Liability" 400;
   account_entry 2 "Share capital" "Capital" 600].

(** The header of a ledger workbook, its columns in the order of the
    rows' fields. *)
Definition ledger_columns : list string :=
  ["voucher_no"; "date"; "invoice_date"; "due_date"; "payment_date";
   "debit"; "credit"; "amount"; "bank_deposit"; "bank_withdrawal";
   "category"; "sub_category"; "account_head"; "account_name";
   "account_type"; "party_name"; "party_type"; "payment_method";
   "status"]%string.

(** A ledger row dated day 10. *)
Definition dated_row : Row :=
  mkRow None (Some (mkTimestamp 10%Z 0%Z)) None None None
        CNull CNull CNull CNull CNull
        None None None None None None None None None.

(** A bank deposit of day 3 and a bank withdrawal of day 40. *)
Definition deposit_row : Row :=
  mkRow (Some "B-1"%string) None None None (Some (mkTimestamp 3%Z 0%Z))
        CNull CNull CNull (CNum 500) CNull
        (Some "Receipt"%string) (Some "Customer payment"%string)
        (Some "Bank Account"%string) None None None None
        (Some "Cheque"%string) None.

Definition withdrawal_row : Row :=
  mkRow (Some "B-2"%string) None None None (Some (mkTimestamp 40%Z 0%Z))
        CNull CNull CNull CNull (CNum 120)
        (Some "Payment"%string) None
        (Some "Bank Account"%string) None None None None
        (Some "Cheque"%string) None.

(** A ledger without equity rows, and one with a capital account. *)
Definition account_row (atype : string) (amt : Q) : Row :=
  example_row None None CNull CNull (CNum amt) None None None (Some atype).

Definition ledger_without_equity : DataFrame :=
  [account_row "Asset" 1000; account_row " liability " 400;
   account_row "Expense" 55].

Definition ledger_with_capital : DataFrame :=
  [account_row "Asset" 1000; account_row "Liability" 400;
   account_row "Capital" 700; account_row "Retained Earnings" 50].

(** ** The pages' results, as plain functions of the ledger *)

Section Vocabulary.

Variable parse_number : string -> option Q.

(** The ledger after the page's preparation step, and its cash rows. *)
Definition prepared_ledger (df0 : DataFrame) : DataFrame :=
  coerce_cols parse_number cashbook_numeric_cols df0.

Definition cash_rows (df0 : DataFrame) : DataFrame :=
  filter is_cash (prepared_ledger df0).

(** The page gets as far as its metrics when some cash row has a payment
    date (otherwise the range picker raises, or there is nothing to
    show). *)
Definition cashbook_ready (df0 : DataFrame) : Prop :=
  non_null (map (@payment_date _) (cash_rows df0)) <> [].

(** The rows of the previous window. *)
Definition previous_rows (df0 : DataFrame) (s e : date) : DataFrame :=
  filter_date_range (@payment_date _) (s - (e - s + 1))%Z (s - 1)%Z
                    (prepared_ledger df0).

Definition expected_comparison (df0 : DataFrame) (s e : date)
    (total_debit total_credit : Q) : Comparison :=
  let prev := previous_rows df0 s e in
  mkComparison (s - (e - s + 1))%Z (s - 1)%Z
               (total Debit prev) (total Credit prev)
               (pct_change total_debit (total Debit prev))
               (pct_change total_credit (total Credit prev)).

Definition expected_view (df0 : DataFrame) (date_range : list date)
    : CashbookView :=
  let cash_df := apply_date_range (@payment_date _) date_range (cash_rows df0) in
  let td := total Debit cash_df in
  let tc := total Credit cash_df in
  mkCashbookView cash_df td tc (td - tc)
    match date_range with
    | [s; e] => Some (expected_comparison df0 s e td tc)
    | _ => None
    end.

(** The bank-classified rows of the prepared ledger, before any date
    filter. *)
Definition bank_subset (df : DataFrame) : DataFrame :=
  filter is_bank_txn (coerce_cols parse_number [BankDeposit; BankWithdrawal] df).

Definition bank_metrics (df : DataFrame) : list ui :=
  let b := bank_subset df in
  [StMetric "Total Deposit" (total BankDeposit b) DeltaNone;
   StMetric "Total Withdrawal" (total BankWithdrawal b) DeltaNone;
   StMetric "Net Cash Flow" (total BankDeposit b - total BankWithdrawal b)
            DeltaNone].

(** The page gets as far as its metrics when the three text columns it
    classifies by are object columns and some bank row has a payment
    date. *)
Definition bank_txns_ready (df : DataFrame) : Prop :=
  object_columns [@account_head _; @category _; @sub_category _] df /\
  non_null (map (@payment_date _) (bank_subset df)) <> [].

(** The class of a ledger row: its cleaned account type, with "capital"
    and "retained earnings" read as "equity"; none for any other type. *)
Definition account_class (r0 : Row) : option string :=
  let t := clean_account_type (account_type r0) in
  if String.eqb t "asset" then Some "asset"%string
  else if String.eqb t "liability" then Some "liability"%string
  else if String.eqb t "equity" || String.eqb t "capital"
          || String.eqb t "retained earnings" then Some "equity"%string
  else None.

Definition in_class (ty : string) (r0 : Row) : bool :=
  match account_class r0 with
  | Some c => String.eqb c ty
  | None => false
  end.

(** A ledger row as it stands in [df_filtered]: amount coerced, account
    type replaced by its class. *)
Definition bs_row (r0 : Row) : Row :=
  set_account_type (account_class r0) (coerce_col parse_number Amount r0).

End Vocabulary.

(** ** Vocabulary of the further properties *)

(** A timestamp as pandas holds it: the time of day within its day. *)
Definition well_formed (t : Timestamp) : Prop :=
  (0 <= ts_ns t < NS_PER_DAY)%Z.

Definition dates_well_formed (col : Row -> datetime) (df : DataFrame) : Prop :=
  forall r t, In r df -> col r = Some t -> well_formed t.

(** The columns other than the five numeric ones. *)
Definition same_other_columns (r r' : Row) : Prop :=
  voucher_no r = voucher_no r' /\ date_ r = date_ r' /\
  invoice_date r = invoice_date r' /\ due_date r = due_date r' /\
  payment_date r = payment_date r' /\ category r = category r' /\
  sub_category r = sub_category r' /\ account_head r = account_head r' /\
  account_name r = account_name r' /\ account_type r = account_type r' /\
  party_name r = party_name r' /\ party_type r = party_type r' /\
  payment_method r = payment_method r' /\ status r = status r'.

(** The sum of a numeric column of the ledger, each cell coerced. *)
Definition coerced_total (parse_number : string -> option Q) (c : numcol)
    (df0 : DataFrame) : Q :=
  qsum (map (fun r => cell_value (to_numeric_fillna parse_number (get_num c r)))
            df0).

(** Two prepared cash rows: one of amount 5, one with nothing but zeros. *)
Definition five_row : Row :=
  example_row (Some (mkTimestamp 10%Z 0%Z)) None (CNum 5) (CNum 0) (CNum 5)
              None (Some "Cash"%string) None None.

Definition zero_row : Row :=
  example_row (Some (mkTimestamp 10%Z 0%Z)) None (CNum 0) (CNum 0) (CNum 0)
              None (Some "Cash"%string) None None.

(** The sum of a column as [Series.sum] forms it on a column without
    text: missing cells skipped. *)
Fixpoint skip_sum (col : list cell) : Q :=
  match col with
  | [] => 0
  | CNum q :: col' => q + skip_sum col'
  | _ :: col' => skip_sum col'
  end.

Definition has_text (col : list cell) : bool :=
  existsb (fun c => match c with CText _ => true | _ => false end) col.

(** The sum of a [Q]-valued function over the rows of a table. *)
Definition sum_over (f : Row -> Q) (df : DataFrame) : Q := qsum (map f df).

(** The sum of the amounts of a summary table. *)
Definition summary_total (l : list (text * Q * nat)) : Q :=
  qsum (map (fun x => snd (fst x)) l).

Definition summary_keys (l : list (text * Q * nat)) : list text :=
  map (fun x => fst (fst x)) l.

(** Three open vendor bills, one of them without party name. *)
Definition vendor_bill (party : text) (amt : Q) : Row :=
  mkRow (Some "P-1"%string) None None None None CNull CNull (CNum amt)
        CNull CNull None None None None None party (Some "Vendor"%string)
        None (Some "Pending"%string).

Definition open_bills : DataFrame :=
  [vendor_bill (Some "Zeta Steel"%string) 300;
   vendor_bill None 50;
   vendor_bill (Some "Alpha Tools"%string) 120;
   vendor_bill (Some "Zeta Steel"%string) 30].

Definition overdue_labels : list string :=
  ["0-30 Days"; "31-60 Days"; "61-90 Days"; "90+ Days"]%string.

(** An invoice that fell due sixteen days before [example_today], next to
    the one that falls due tomorrow. *)
Definition overdue_invoice : Row :=
  example_row None (Some (mkTimestamp 84%Z 0%Z)) CNull CNull (CNum 400)
              (Some "Customer"%string) None (Some "Pending"%string) None.

(** The row colour that goes with an aging bucket. *)
Definition bucket_colour (bucket : option string) : string :=
  match bucket with
  | Some b =>
      if String.eqb b "90+ Days" then "background-color: #ffb3ba"
      else if String.eqb b "61-90 Days" then "background-color: #ffdfba"
      else if String.eqb b "31-60 Days" then "background-color: #ffffba"
      else if String.eqb b "0-30 Days" then "background-color: #baffc9"
      else ""
  | None => ""
  end%string.

(** The liability rows of the prepared ledger, and those of a due-date
    range. *)
Definition liability_rows (parse_number : string -> option Q)
    (df0 : DataFrame) : DataFrame :=
  filter is_liability (coerce_cols parse_number [Amount] df0).

(** The page gets as far as its metrics when the four text columns it
    reads with [.str] hold text and some liability row has a due date. *)
Definition liability_ready (parse_number : string -> option Q)
    (df0 : DataFrame) : Prop :=
  object_columns [@account_head _; @sub_category _; @party_type _; @status _]
                 df0 /\
  non_null (map (@due_date _) (liability_rows parse_number df0)) <> [].

Definition is_paid (r : Row) : bool := text_eqb (str_lower (status r)) "paid".

(** A loan instalment that is paid and one that is not. *)
Definition loan_row (party : text) (stat : string) (amt : Q) : Row :=
  mkRow (Some "L-1"%string) None None (Some (mkTimestamp 50%Z 0%Z)) None
        CNull CNull (CNum amt) CNull CNull None (Some "Term loan"%string)
        (Some "Bank Loan"%string) None None party (Some "Lender"%string)
        None (Some stat).

Definition loans : DataFrame :=
  [loan_row (Some "City Bank"%string) "Paid" 1000;
   loan_row None "Pending" 250;
   loan_row (Some "City Bank"%string) "Pending" 400].

(** The income rows of the prepared ledger, and those left by the date
    range and the two multiselects. *)
Definition income_rows (parse_number : string -> option Q)
    (df0 : DataFrame) : DataFrame :=
  filter is_income (coerce_cols parse_number [Amount] df0).

(** The page gets as far as its metrics when the three text columns it
    classifies by hold text and some income row has a payment date. *)
Definition income_ready (parse_number : string -> option Q)
    (df0 : DataFrame) : Prop :=
  object_columns [@account_head _; @category _; @sub_category _] df0 /\
  non_null (map (@payment_date _) (income_rows parse_number df0)) <> [].

Definition income_selected (parse_number : string -> option Q)
    (df0 : DataFrame) (date_range : list date)
    (method_filter account_filter : list string) : DataFrame :=
  let income_df :=
    apply_date_range (@payment_date _) date_range
      (income_rows parse_number df0) in
  let income_df :=
    match method_filter with
    | [] => income_df
    | _ => filter (fun r => isin method_filter (payment_method r)) income_df
    end in
  match account_filter with
  | [] => income_df
  | _ => filter (fun r => isin account_filter (account_name r)) income_df
  end.

(** Sales to two customers. *)
Definition sale (party : text) (day : Z) (amt : Q) : Row :=
  mkRow (Some "S-1"%string) None None None (Some (mkTimestamp day 0%Z))
        CNull CNull (CNum amt) CNull CNull (Some "Income"%string)
        (Some "Goods"%string) (Some "Sales"%string) None None party
        None None None.

Definition sales : DataFrame :=
  [sale (Some "Beta Ltd"%string) 5 300;
   sale (Some "Acme"%string) 6 200;
   sale (Some "Beta Ltd"%string) 7 50;
   sale None 8 900].

(** The bank rows of the Bankbook: by payment method, over the prepared
    ledger. *)
Definition bankbook_rows (parse_number : string -> option Q)
    (df0 : DataFrame) : DataFrame :=
  filter is_bank_method
    (coerce_cols parse_number
       [BankDeposit; BankWithdrawal; Amount; Debit; Credit] df0).

Definition bankbook_ready (parse_number : string -> option Q)
    (df0 : DataFrame) : Prop :=
  non_null (map (@payment_date _) (bankbook_rows parse_number df0)) <> [].

(** Two bank transfers, on day 3 and day 40. *)
Definition transfer (day : Z) (dep wd amt : Q) : Row :=
  mkRow (Some "T-1"%string) None None None (Some (mkTimestamp day 0%Z))
        CNull CNull (CNum amt) (CNum dep) (CNum wd)
        None None None None None None None (Some "Bank Transfer"%string) None.

Definition transfers : DataFrame := [transfer 3 500 0 500; transfer 40 0 120 120].

(** The expense rows of the Expense page, over the ledger with its credit
    column coerced. *)
Definition expense_rows (parse_number : string -> option Q)
    (df0 : DataFrame) : DataFrame :=
  filter is_expense (coerce_cols parse_number [Credit] df0).

(** The page gets as far as its tables when the three text columns it
    classifies by hold text and some expense row has a payment date. *)
Definition expense_ready (parse_number : string -> option Q)
    (df0 : DataFrame) : Prop :=
  object_columns [@account_head _; @category _; @sub_category _] df0 /\
  non_null (map (@payment_date _) (expense_rows parse_number df0)) <> [].

Definition has_party (r : Row) : bool := negb (no_key (@party_name _) r).

Definition has_sub_category (r : Row) : bool :=
  negb (no_key (@sub_category _) r).

(** Purchases from two suppliers and one without party name. *)
Definition purchase (party sub : text) (day : Z) (amt : Q) : Row :=
  mkRow (Some "E-1"%string) None None None (Some (mkTimestamp day 0%Z))
        CNull (CNum amt) CNull CNull CNull (Some "Expense"%string) sub
        (Some "Operating cost"%string) None None party None None None.

Definition purchases : DataFrame :=
  [purchase (Some "Paper Co"%string) (Some "Office"%string) 5 40;
   purchase None (Some "Office"%string) 6 25;
   purchase (Some "Fuel Ltd"%string) None 7 60].

(** * Properties *)

(** ** The page monad *)

Lemma bind_ret_l {A B} (a : A) (k : A -> page B) : bind (ret a) k = k a.
Proof. unfold bind, ret. destruct (k a) as [log o]. reflexivity. Qed.

Lemma bind_raise {A B} (e : exn) (k : A -> page B) : bind (raise e) k = raise e.
Proof. reflexivity. Qed.

Lemma bind_emit {B} (e : ui) (k : unit -> page B) :
  bind (emit e) k = (e :: log_of (k tt), outcome_of (k tt)).
Proof. unfold bind, emit, log_of, outcome_of. destruct (k tt). reflexivity. Qed.

Lemma outcome_bind_emit {B} (e : ui) (k : unit -> page B) :
  outcome_of (bind (emit e) k) = outcome_of (k tt).
Proof. rewrite bind_emit. reflexivity. Qed.

(** ** The [.str] accessor *)

Lemma str_accessor_object (col : list text) :
  is_object col = true -> str_accessor col = ret tt.
Proof. unfold str_accessor. intros ->. reflexivity. Qed.

Lemma str_accessor_float (col : list text) :
  is_object col = false -> str_accessor col = raise AttributeError.
Proof. unfold str_accessor. intros ->. reflexivity. Qed.

Lemma is_object_iff (col : list text) :
  is_object col = true <-> exists s, In (Some s) col.
Proof.
  unfold is_object. rewrite existsb_exists. split.
  - intros [[s|] [Hin Hs]]; [exists s; exact Hin | discriminate].
  - intros [s Hin]. exists (Some s). split; [exact Hin | reflexivity].
Qed.

(** A column read off some row that holds text is an object column. *)
Lemma is_object_row (col : Row -> text) (df : DataFrame) (r : Row) (s : string) :
  In r df -> col r = Some s -> is_object (map col df) = true.
Proof.
  intros Hin Hs. apply is_object_iff. exists s. rewrite <- Hs.
  apply in_map, Hin.
Qed.

Ltac other_column :=
  let H := fresh "H" in
  intros ? ? H; unfold same_other_columns in H; decompose [and] H; assumption.

(** ** The text methods on examples *)

Example lower_mixed_case : Str.lower "Partially PAID" = "partially paid"%string.
Proof. reflexivity. Qed.

Example strip_both_ends : Str.strip "  Retained Earnings  " = "Retained Earnings"%string.
Proof. reflexivity. Qed.

Example strip_keeps_inner_space : Str.strip "a b" = "a b"%string.
Proof. reflexivity. Qed.

Example contains_inside : Str.contains "paid" "unpaid" = true.
Proof. reflexivity. Qed.

Example contains_absent : Str.contains "paid" "pending" = false.
Proof. reflexivity. Qed.

Example is_cash_examples :
  is_cash cash_receipt = true /\ is_cash bank_receipt = false.
Proof. split; reflexivity. Qed.

Example clean_account_type_missing : clean_account_type None = "nan"%string.
Proof. reflexivity. Qed.

(** ** Sums of numeric columns *)

Lemma series_sum_numeric (c : numcol) (df : DataFrame) :
  numeric_col c df ->
  series_sum (map (get_num c) df) = ret (total c df).
Proof.
  unfold total. induction 1 as [|r df [q Hq] _ IH]; simpl.
  - reflexivity.
  - rewrite Hq, IH, bind_ret_l. reflexivity.
Qed.

Lemma numeric_col_filter (c : numcol) (f : Row -> bool) (df : DataFrame) :
  numeric_col c df -> numeric_col c (filter f df).
Proof.
  unfold numeric_col. rewrite !Forall_forall. intros H r Hr.
  apply filter_In in Hr. apply H, Hr.
Qed.

Section CoercionFacts.

Variable parse_number : string -> option Q.

Lemma to_numeric_fillna_is_num (c : cell) :
  is_num (to_numeric_fillna parse_number c).
Proof.
  unfold to_numeric_fillna, is_num.
  destruct c as [|q|s]; simpl; eauto.
  destruct (parse_number s); simpl; eauto.
Qed.

Lemma coerce_col_same (c : numcol) (r : Row) :
  is_num (get_num c (coerce_col parse_number c r)).
Proof.
  unfold coerce_col. destruct c; simpl; apply to_numeric_fillna_is_num.
Qed.

Lemma coerce_col_keeps (c c' : numcol) (r : Row) :
  is_num (get_num c r) -> is_num (get_num c (coerce_col parse_number c' r)).
Proof.
  intros H. unfold coerce_col.
  destruct c, c'; simpl in *; auto using to_numeric_fillna_is_num.
Qed.

Lemma coerce_fold_keeps (c : numcol) (cols : list numcol) (r : Row) :
  is_num (get_num c r) ->
  is_num (get_num c (fold_left (fun r c => coerce_col parse_number c r) cols r)).
Proof.
  revert r. induction cols as [|c' cols IH]; intros r H; simpl; auto.
  apply IH, coerce_col_keeps, H.
Qed.

Lemma coerce_fold_is_num (c : numcol) (cols : list numcol) (r : Row) :
  In c cols ->
  is_num (get_num c (fold_left (fun r c => coerce_col parse_number c r) cols r)).
Proof.
  revert r. induction cols as [|c' cols IH]; intros r Hin; simpl.
  - contradiction.
  - destruct Hin as [-> | Hin].
    + apply coerce_fold_keeps, coerce_col_same.
    + apply IH, Hin.
Qed.

Lemma numeric_col_coerce (c : numcol) (cols : list numcol) (df : DataFrame) :
  In c cols -> numeric_col c (coerce_cols parse_number cols df).
Proof.
  intros Hin. unfold numeric_col, coerce_cols.
  rewrite Forall_forall. intros r Hr.
  apply in_map_iff in Hr. destruct Hr as [r0 [<- _]].
  apply coerce_fold_is_num, Hin.
Qed.

(** The coercion loop touches the numeric columns only. *)
Lemma coerce_fold_payment_date (cols : list numcol) (r : Row) :
  payment_date (fold_left (fun r c => coerce_col parse_number c r) cols r)
  = payment_date r.
Proof.
  revert r. induction cols as [|c cols IH]; intros r; simpl; auto.
  rewrite IH. reflexivity.
Qed.

Lemma coerce_fold_payment_method (cols : list numcol) (r : Row) :
  payment_method (fold_left (fun r c => coerce_col parse_number c r) cols r)
  = payment_method r.
Proof.
  revert r. induction cols as [|c cols IH]; intros r; simpl; auto.
  rewrite IH. reflexivity.
Qed.

Lemma coerce_fold_other_columns (cols : list numcol) (r : Row) :
  same_other_columns
    (fold_left (fun r c => coerce_col parse_number c r) cols r) r.
Proof.
  revert r. induction cols as [|c cols IH]; intros r; simpl.
  - unfold same_other_columns. repeat split.
  - specialize (IH (coerce_col parse_number c r)).
    unfold same_other_columns in *. decompose [and] IH.
    repeat split; etransitivity; try eassumption; destruct c; reflexivity.
Qed.

(** A column that is none of the five numeric ones reads the same before
    and after the loop. *)
Lemma map_coerce_cols {A} (f : Row -> A) (cols : list numcol) (df : DataFrame) :
  (forall r r', same_other_columns r r' -> f r = f r') ->
  map f (coerce_cols parse_number cols df) = map f df.
Proof.
  intros H. unfold coerce_cols. rewrite map_map. apply map_ext.
  intros r. apply H, coerce_fold_other_columns.
Qed.

(** The [.str] accessor on a text column of the coerced ledger goes through
    when the column of the ledger holds text. *)
Lemma str_guard_coerced {B} (col : Row -> text) (cols : list numcol)
    (df : DataFrame) (k : page B) :
  (forall r r', same_other_columns r r' -> col r = col r') ->
  is_object (map col df) = true ->
  (str_accessor (map col (coerce_cols parse_number cols df)) ;; k) = k.
Proof.
  intros Hcol Hobj. rewrite (map_coerce_cols col cols df Hcol).
  rewrite (str_accessor_object _ Hobj). apply bind_ret_l.
Qed.

End CoercionFacts.

(** ** Aging buckets (Receivables) *)

(** The bins of [pd.cut] as the page passes them, edge by edge. *)
Lemma bucket_of_days_edges (d : Z) :
  bucket_of_days (Some d) =
    if (d <=? -1)%Z then None
    else if (d <=? 0)%Z then Some "Not Due"%string
    else if (d <=? 30)%Z then Some "0-30 Days"%string
    else if (d <=? 60)%Z then Some "31-60 Days"%string
    else if (d <=? 90)%Z then Some "61-90 Days"%string
    else Some "90+ Days"%string.
Proof.
  unfold bucket_of_days, aging_bins, aging_labels, cut, edge_ltb, edge_geb.
  repeat match goal with
         | |- context [(?a <=? ?b)%Z] => destruct (Z.leb_spec a b)
         | |- context [(?a <? ?b)%Z] => destruct (Z.ltb_spec a b)
         end; simpl; try reflexivity; lia.
Qed.

Lemma bucket_overdue_ranges (d : Z) :
  ((1 <= d <= 30)%Z -> bucket_of_days (Some d) = Some "0-30 Days"%string) /\
  ((31 <= d <= 60)%Z -> bucket_of_days (Some d) = Some "31-60 Days"%string) /\
  ((61 <= d <= 90)%Z -> bucket_of_days (Some d) = Some "61-90 Days"%string) /\
  ((90 < d)%Z -> bucket_of_days (Some d) = Some "90+ Days"%string) /\
  (d = 0%Z -> bucket_of_days (Some d) = Some "Not Due"%string) /\
  ((d < 0)%Z -> bucket_of_days (Some d) = None).
Proof.
  rewrite bucket_of_days_edges.
  repeat split; intros H;
    repeat match goal with
           | |- context [(?a <=? ?b)%Z] => destruct (Z.leb_spec a b)
           end; try reflexivity; lia.
Qed.

Lemma bucket_boundary_values :
  map (fun d => bucket_of_days (Some d)) [0; 30; 31; 60; 61; 90; 91]%Z
  = map Some ["Not Due"; "0-30 Days"; "31-60 Days"; "31-60 Days";
              "61-90 Days"; "61-90 Days"; "90+ Days"]%string.
Proof. reflexivity. Qed.

(** A row without a due date has no bucket and is in no aging group. *)
Lemma null_due_date_unbucketed (today : Timestamp) (r : Row) (lab : string)
    (sub : DataFrame) :
  due_date r = None ->
  aging_bucket today r = None /\ ~ In r (bucket_rows today lab sub).
Proof.
  intros H. assert (Hb : aging_bucket today r = None).
  { unfold aging_bucket, days_overdue. rewrite H. reflexivity. }
  split; [exact Hb|].
  unfold bucket_rows. intros Hin. apply filter_In in Hin.
  rewrite Hb in Hin. destruct Hin; discriminate.
Qed.

(** C1 (the code departs from the claim).  The claim sends every
    [days_overdue <= 0] to "Not Due".  The first bin of the page's [pd.cut]
    is [(-1, 0]], so only [days_overdue = 0] is labelled "Not Due": an open
    invoice that falls due tomorrow has [days_overdue = -1], gets no bucket,
    and is counted in the total receivable but in no row of the aging
    summary. *)
Theorem aging_bucket_not_yet_due_has_no_bucket :
  days_overdue example_today invoice_due_tomorrow = Some (-1)%Z /\
  aging_bucket example_today invoice_due_tomorrow = None /\
  outcome_of (receivables [invoice_due_tomorrow] example_today)
  = Done (mkReceivablesView [invoice_due_tomorrow] 250 0
            [("Not Due", 0, 0%nat); ("0-30 Days", 0, 0%nat);
             ("31-60 Days", 0, 0%nat); ("61-90 Days", 0, 0%nat);
             ("90+ Days", 0, 0%nat)]%string).
Proof. repeat split; reflexivity. Qed.

(** ** The loader *)

Lemma load_data_workbook (parse_datetime : string -> option Timestamp)
    (rows : list RawRow) :
  load_data parse_datetime (Some (Workbook rows))
  = ret (map (parse_dates parse_datetime) rows).
Proof. unfold load_data, read_excel. rewrite bind_ret_l. reflexivity. Qed.

(** C5 (counterexample).  With no file at [EXCEL_FILE] the loader does not
    fail: it returns a table. *)
Lemma load_data_missing_file_returns :
  ~ failed (load_data no_datetime None) /\
  exists df, outcome_of (load_data no_datetime None) = Done df.
Proof. split; [intros H; exact H | exists []; reflexivity]. Qed.

(** C5 (amended).  With no file at [EXCEL_FILE], [load_data] shows the
    error message "Excel file not found: data/accounts.xlsx" and returns the
    empty table; no exception is raised.  The loader fails only when a file
    is there and [pd.read_excel] raises on it.  On the empty table the pages
    that are entered only for a ledger with rows (such as the Cashbook and
    Bank Txns) show nothing. *)
Theorem load_data_missing_file (parse_datetime : string -> option Timestamp)
    (parse_number : string -> option Q) :
  load_data parse_datetime None
  = ([StError (Msg "Excel file not found: data/accounts.xlsx")], Done []) /\
  (forall f, failed (load_data parse_datetime f) <-> f = Some Garbage) /\
  (forall df date_range sel,
     outcome_of (load_data parse_datetime None) = Done df ->
     cashbook parse_number df date_range = ret None /\
     bank_txns parse_number df date_range sel = ret None).
Proof.
  split; [reflexivity|]. split.
  - intros [[rows|]|]; unfold failed.
    + rewrite load_data_workbook. simpl. split; [contradiction | discriminate].
    + simpl. split; auto.
    + simpl. split; [contradiction | discriminate].
  - intros df date_range sel Hdf. injection Hdf as <-. split; reflexivity.
Qed.

(** A file that [pd.read_excel] cannot parse does make the loader fail. *)
Lemma load_data_unparseable (parse_datetime : string -> option Timestamp) :
  load_data parse_datetime (Some Garbage) = ([], Raised ReadError).
Proof. reflexivity. Qed.

(** The loader returns the empty debit cell of a workbook row as it
    is. *)
Lemma load_data_keeps_null_cells : ~ loader_leaves_no_null.
Proof.
  intros H.
  specialize (H no_datetime [row_without_debit]
                (map (parse_dates no_datetime) [row_without_debit])
                eq_refl
                (parse_dates no_datetime row_without_debit) Debit
                (or_introl eq_refl)).
  discriminate H.
Qed.

(** ** The date-range rule *)

Lemma in_date_range_iff (s e : date) (d : datetime) :
  in_date_range s e d = true <->
  exists t, d = Some t /\ (s <= ts_day t <= e)%Z.
Proof.
  unfold in_date_range, date_geb, date_leb, dt_date.
  destruct d as [t|]; simpl.
  - rewrite andb_true_iff, !Z.leb_le. split.
    + intros [H1 H2]. exists t. auto.
    + intros [t' [Ht [H1 H2]]]. injection Ht as <-. auto.
  - split; [discriminate | intros [t [Ht _]]; discriminate].
Qed.

(** The date-range filter of the pages with a range picker compares days:
    it keeps a row exactly when its value in the date column is present
    and its day lies in [[s, e]], both ends included; a row whose date is
    missing is never kept. *)
Theorem date_range_rule (col : Row -> datetime) (s e : date)
    (sub : DataFrame) (r : Row) :
  apply_date_range col [s; e] sub = filter_date_range col s e sub /\
  (In r (filter_date_range col s e sub) <->
   In r sub /\ exists t, col r = Some t /\ (s <= ts_day t <= e)%Z) /\
  (col r = None -> ~ In r (filter_date_range col s e sub)).
Proof.
  split; [reflexivity|].
  assert (Hiff : In r (filter_date_range col s e sub) <->
                 In r sub /\ exists t, col r = Some t /\ (s <= ts_day t <= e)%Z).
  { unfold filter_date_range. rewrite filter_In, in_date_range_iff. reflexivity. }
  split; [exact Hiff|].
  intros Hnull Hin. apply Hiff in Hin.
  destruct Hin as [_ [t [Ht _]]]. congruence.
Qed.

(** In [small_ledger], the range [[10, 10]] keeps the cash receipt of day 10
    and not the bank receipt of day 3; a row without payment date is never
    kept. *)
Lemma date_range_rule_witness :
  In cash_receipt (filter_date_range (@payment_date _) 10%Z 10%Z small_ledger) /\
  ~ In bank_receipt (filter_date_range (@payment_date _) 10%Z 10%Z small_ledger) /\
  ~ In dated_row (filter_date_range (@payment_date _) 10%Z 10%Z
                    (dated_row :: small_ledger)).
Proof.
  split; [|split].
  - apply (proj1 (proj2 (@date_range_rule (@payment_date _) 10%Z 10%Z
                           small_ledger cash_receipt))).
    split; [left; reflexivity|].
    exists (mkTimestamp 10%Z 0%Z). split; [reflexivity | simpl; lia].
  - intros Hin.
    apply (proj1 (proj2 (@date_range_rule (@payment_date _) 10%Z 10%Z
                           small_ledger bank_receipt))) in Hin.
    destruct Hin as [_ [t [Ht Hr]]]. injection Ht as <-. simpl in Hr. lia.
  - apply (proj2 (proj2 (@date_range_rule (@payment_date _) 10%Z 10%Z
                           (dated_row :: small_ledger) dated_row))).
    reflexivity.
Defined.

(** The range filter of the MD Report compares timestamps with the
    midnights of its two days: of the end day it keeps only the rows dated
    at midnight sharp. *)
Lemma md_mask_iff (s e : date) (r : Row) :
  (forall t, date_ r = Some t -> well_formed t) ->
  md_mask s e r = true <->
  exists t, date_ r = Some t /\
            (s <= ts_day t)%Z /\
            ((ts_day t < e)%Z \/ (ts_day t = e /\ ts_ns t = 0%Z)).
Proof.
  intros Hwf. unfold md_mask. destruct (date_ r) as [t|] eqn:Ht.
  - specialize (Hwf t eq_refl). unfold well_formed, NS_PER_DAY in Hwf.
    unfold ts_leb, ts_nanos, to_datetime_date, NS_PER_DAY. cbn [ts_day ts_ns].
    rewrite andb_true_iff, !Z.leb_le. split.
    + intros [H1 H2]. exists t. split; [reflexivity|]. split; [nia|].
      destruct (Z_lt_ge_dec (ts_day t) e) as [Hlt|Hge]; [left; exact Hlt|].
      right. nia.
    + intros [t' [E [H1 H2]]]. injection E as <-. split; [nia|].
      destruct H2 as [H2 | [H2 H3]]; nia.
  - split; [discriminate | intros [t [E _]]; discriminate].
Qed.

(** C8 (the code departs from the claim).  The claim keeps every row whose
    date falls within [[start, end]], both days included, and the pages
    with a range picker do so: they compare [.dt.date].  The MD Report
    compares the timestamps with [pd.to_datetime(end_date)], the midnight
    that starts the end day.  With the default selection, the first and
    the last day of the ledger, the entry of day 20 at nine o'clock is
    within the range by its date and is not among the rows of the
    report. *)
Theorem md_report_drops_rows_of_the_end_day (parse_number : string -> option Q) :
  In late_entry two_day_ledger /\
  date_ late_entry = Some (mkTimestamp 20%Z 32400000000000%Z) /\
  map (@date_ _) (filter_date_range (@date_ _) 5%Z 20%Z two_day_ledger)
  = [Some (mkTimestamp 5%Z 0%Z); Some (mkTimestamp 20%Z 32400000000000%Z)] /\
  md_mask 5%Z 20%Z late_entry = false /\
  exists filtered_df,
    md_report parse_number two_day_ledger None None = ret filtered_df /\
    map (@date_ _) filtered_df = [Some (mkTimestamp 5%Z 0%Z)].
Proof.
  split; [right; left; reflexivity|].
  split; [reflexivity|]. split; [reflexivity|]. split; [reflexivity|].
  eexists. split; reflexivity.
Qed.

(** ** Settled rows (Payables and Receivables) *)

Lemma payable_df_iff (df : DataFrame) (r : Row) :
  In r (payable_df df) <->
  In r df /\ text_eqb (str_lower (party_type r)) "vendor" = true
          /\ text_eqb (str_lower (status r)) "paid" = false.
Proof.
  unfold payable_df, is_payable, text_neqb.
  rewrite filter_In, andb_true_iff, negb_true_iff. reflexivity.
Qed.

Lemma receivable_df_total (df : DataFrame) :
  df <> [] ->
  is_object (map (@party_type _) df) = true ->
  (forall r, In r df -> status r <> None) ->
  receivable_df df
  = ret (filter (fun r => is_customer r
                          && negb (match is_settled r with
                                   | Some b => b
                                   | None => false
                                   end)) df).
Proof.
  intros Hne Hp H. unfold receivable_df.
  assert (Hs : is_object (map (@status _) df) = true).
  { destruct df as [|r0 df']; [congruence|].
    destruct (status r0) as [s|] eqn:Hs0.
    - apply (is_object_row (@status _) (r0 :: df') r0 (s := s));
        [left; reflexivity | exact Hs0].
    - exfalso. apply (H r0 (or_introl eq_refl) Hs0). }
  rewrite (str_accessor_object _ Hp), bind_ret_l.
  rewrite (str_accessor_object _ Hs), bind_ret_l.
  destruct (existsb _ df) eqn:Hex; [|reflexivity].
  apply existsb_exists in Hex. destruct Hex as [r [Hin Hr]].
  specialize (H r Hin). unfold is_settled, str_contains, str_lower in Hr.
  destruct (status r); [discriminate | congruence].
Qed.

(** Receivables: a row whose status contains "received" or "paid",
    ignoring case, is not in the outstanding receivables (and the subset is
    computed whenever the party types hold text and no status is missing).
    Payables: a row is left out as settled exactly when its status,
    lower-cased, equals "paid". *)
Lemma settled_rows (df : DataFrame) (r : Row) (s : string) :
  status r = Some s ->
  (Str.contains_any ["received"; "paid"]%string (Str.lower s) = true ->
   forall sub, outcome_of (receivable_df df) = Done sub -> ~ In r sub) /\
  (df <> [] -> is_object (map (@party_type _) df) = true ->
   (forall r', In r' df -> status r' <> None) ->
   exists sub, receivable_df df = ret sub) /\
  (Str.lower s = "paid"%string -> ~ In r (payable_df df)) /\
  (In r df -> text_eqb (str_lower (party_type r)) "vendor" = true ->
   Str.lower s <> "paid"%string -> In r (payable_df df)).
Proof.
  intros Hs. repeat split.
  - intros Hc sub Hsub Hin.
    unfold receivable_df, str_accessor in Hsub.
    destruct (is_object (map (@party_type _) df)); [|discriminate].
    rewrite bind_ret_l in Hsub.
    destruct (is_object (map (@status _) df)); [|discriminate].
    rewrite bind_ret_l in Hsub.
    destruct (existsb _ df); [discriminate|].
    injection Hsub as <-. apply filter_In in Hin.
    destruct Hin as [_ Hin]. apply andb_true_iff in Hin.
    destruct Hin as [_ Hin].
    unfold is_settled, str_contains, str_lower in Hin.
    rewrite Hs in Hin. cbn [option_map] in Hin. rewrite Hc in Hin. discriminate.
  - intros Hne Hp Hall. eexists. apply receivable_df_total; assumption.
  - intros Hp Hin. apply payable_df_iff in Hin.
    destruct Hin as (_ & _ & Hneq).
    unfold str_lower in Hneq. rewrite Hs in Hneq. cbn [option_map text_eqb] in Hneq.
    rewrite Hp in Hneq. discriminate.
  - intros Hin Hv Hneq. apply payable_df_iff. repeat split; auto.
    unfold str_lower. rewrite Hs. cbn [option_map text_eqb]. apply String.eqb_neq, Hneq.
Qed.

Example received_invoice_is_settled :
  receivable_df [received_invoice; invoice_due_tomorrow]
  = ret [invoice_due_tomorrow].
Proof. reflexivity. Qed.

Example paid_bill_is_settled :
  payable_df [example_row None None CNull CNull (CNum 900)
                (Some "Vendor"%string) None (Some "PAID"%string) None;
              fully_paid_bill]
  = [fully_paid_bill].
Proof. reflexivity. Qed.

(** C6 (the code departs from the claim).  The claim takes a vendor row
    whose status contains "paid", ignoring case, out of the outstanding
    payables.  The Payables page compares the lower-cased status with
    "paid" for equality: a vendor bill marked "Fully Paid" stays in the
    outstanding payables, while the Receivables page, which tests for the
    substring, treats a customer invoice with the same status as settled. *)
Theorem payables_keep_fully_paid_bill :
  str_contains_nocase ["paid"]%string (status fully_paid_bill) = true /\
  payables [fully_paid_bill] = ret [fully_paid_bill] /\
  In fully_paid_bill (payable_df [fully_paid_bill]) /\
  receivable_df [fully_paid_invoice] = ret [].
Proof. repeat split; reflexivity || (left; reflexivity). Qed.

(** ** The Cashbook page *)

Section CashbookFacts.

Variable parse_number : string -> option Q.

Lemma prepared_numeric (c : numcol) (df0 : DataFrame) :
  numeric_col c (prepared_ledger parse_number df0).
Proof.
  apply numeric_col_coerce. unfold cashbook_numeric_cols.
  destruct c; simpl; auto 6.
Qed.

Lemma numeric_col_apply_date_range (c : numcol) (col : Row -> datetime)
    (date_range : list date) (df : DataFrame) :
  numeric_col c df -> numeric_col c (apply_date_range col date_range df).
Proof.
  intros H. unfold apply_date_range.
  destruct date_range as [|s [|e [|x l]]]; auto.
  apply numeric_col_filter, H.
Qed.

Lemma compare_previous_ok (df0 : DataFrame) (s e : date) (td tc : Q) :
  compare_previous (prepared_ledger parse_number df0) s e td tc
  = ret (expected_comparison parse_number df0 s e td tc).
Proof.
  unfold compare_previous, prev_window, expected_comparison, previous_rows.
  cbv zeta.
  change (map (@debit _)) with (map (@get_num datetime Debit)).
  change (map (@credit _)) with (map (@get_num datetime Credit)).
  rewrite !series_sum_numeric
    by (apply numeric_col_filter, prepared_numeric).
  rewrite !bind_ret_l. reflexivity.
Qed.

Lemma cash_rows_object (df : DataFrame) :
  filter is_cash df <> [] -> is_object (map (@payment_method _) df) = true.
Proof.
  intros Hne. destruct (filter is_cash df) as [|r l] eqn:Hf; [congruence|].
  assert (Hin : In r (filter is_cash df)) by (rewrite Hf; left; reflexivity).
  apply filter_In in Hin. destruct Hin as [Hin Hc].
  unfold is_cash in Hc. destruct (payment_method r) as [s|] eqn:Hs;
    [|discriminate].
  exact (is_object_row (@payment_method _) df r Hin Hs).
Qed.

Lemma cashbook_outcome (df0 : DataFrame) (date_range : list date) :
  cashbook_ready parse_number df0 ->
  outcome_of (cashbook parse_number df0 date_range)
  = Done (Some (expected_view parse_number df0 date_range)).
Proof.
  unfold cashbook_ready, expected_view, cash_rows. intros Hready.
  unfold cashbook. fold (prepared_ledger parse_number df0).
  destruct df0 as [|r0 df0']; [exfalso; apply Hready; reflexivity|].
  set (df := prepared_ledger parse_number (r0 :: df0')) in *.
  assert (Hnum : forall c dr, numeric_col c
            (apply_date_range (@payment_date _) dr (filter is_cash df))).
  { intros c dr. apply numeric_col_apply_date_range, numeric_col_filter,
      prepared_numeric. }
  assert (Hobj : is_object (map (@payment_method _) df) = true).
  { apply cash_rows_object. intros E. apply Hready. rewrite E. reflexivity. }
  rewrite (str_accessor_object _ Hobj), bind_ret_l.
  destruct (filter is_cash df) as [|r l] eqn:Hcash;
    [exfalso; apply Hready; reflexivity|].
  unfold series_min_date, series_max_date.
  destruct (non_null (map (@payment_date _) (r :: l))) as [|t ts];
    [exfalso; apply Hready; reflexivity|].
  rewrite !bind_ret_l.
  change (map (@debit _)) with (map (@get_num datetime Debit)).
  change (map (@credit _)) with (map (@get_num datetime Credit)).
  clear Hcash. subst df.
  destruct date_range as [|s [|e [|x dr]]];
    rewrite ?outcome_bind_emit, ?bind_ret_l;
    rewrite !series_sum_numeric by apply Hnum;
    rewrite !bind_ret_l;
    rewrite ?compare_previous_ok, ?bind_ret_l;
    rewrite !outcome_bind_emit; reflexivity.
Qed.

End CashbookFacts.

(** ** Percent change against the previous period *)

Lemma pct_change_cases (total_now prev : Q) :
  (0 < prev -> pct_change total_now prev
               = Fin ((total_now - prev) / prev * 100)) /\
  (prev <= 0 -> pct_change total_now prev = Fin 0).
Proof.
  unfold pct_change, Qgt0, np_truediv. split; intros H.
  - destruct (Qle_bool prev 0) eqn:Hle.
    + apply Qle_bool_iff in Hle. exfalso. exact (Qlt_not_le _ _ H Hle).
    + simpl. destruct (Qeq_bool prev 0) eqn:Heq; [|reflexivity].
      apply Qeq_bool_iff in Heq. rewrite Heq in H.
      exfalso. exact (Qlt_irrefl _ H).
  - apply Qle_bool_iff in H. rewrite H. reflexivity.
Qed.

Lemma pct_change_finite (total_now prev : Q) :
  exists q, pct_change total_now prev = Fin q.
Proof.
  destruct (Qlt_le_dec 0 prev) as [H|H].
  - eexists. apply (proj1 (pct_change_cases total_now prev)), H.
  - eexists. apply (proj2 (pct_change_cases total_now prev)), H.
Qed.

Lemma pct_change_zero (total_now prev : Q) :
  prev == 0 -> pct_change total_now prev = Fin 0.
Proof.
  intros H. apply (proj2 (pct_change_cases total_now prev)).
  rewrite H. apply Qle_refl.
Qed.

Lemma small_ledger_ready : cashbook_ready no_parse small_ledger.
Proof. unfold cashbook_ready. simpl. discriminate. Qed.

(** The Cashbook with a complete range, from its first message to its
    first three metrics. *)
Lemma cashbook_run (parse_number : string -> option Q) (df0 : DataFrame)
    (s e : date) :
  cashbook_ready parse_number df0 ->
  let v := expected_view parse_number df0 [s; e] in
  let c := expected_comparison parse_number df0 s e
             (cb_total_debit v) (cb_total_credit v) in
  cashbook parse_number df0 [s; e]
  = ([StSuccess (MsgRange "Showing data" s e);
      StMetric "Total Cash In" (cb_total_debit v)
        (DeltaPct (debit_change c) (prev_start c) (prev_end c));
      StMetric "Total Cash Out" (cb_total_credit v)
        (DeltaPct (credit_change c) (prev_start c) (prev_end c));
      StMetric "Net Cash Flow" (cb_net_flow v)
        (DeltaText (if Qle_bool 0 (cb_net_flow v)
                    then "Surplus" else "Deficit"))],
     Done (Some v)).
Proof.
  unfold cashbook_ready, expected_view, cash_rows. intros Hready. cbv zeta.
  unfold cashbook. fold (prepared_ledger parse_number df0).
  destruct df0 as [|r0 df0']; [exfalso; apply Hready; reflexivity|].
  set (df := prepared_ledger parse_number (r0 :: df0')) in *.
  assert (Hnum : forall c dr, numeric_col c
            (apply_date_range (@payment_date _) dr (filter is_cash df))).
  { intros c dr. apply numeric_col_apply_date_range, numeric_col_filter,
      prepared_numeric. }
  assert (Hobj : is_object (map (@payment_method _) df) = true).
  { apply cash_rows_object. intros E. apply Hready. rewrite E. reflexivity. }
  rewrite (str_accessor_object _ Hobj), bind_ret_l.
  destruct (filter is_cash df) as [|r l] eqn:Hcash;
    [exfalso; apply Hready; reflexivity|].
  unfold series_min_date, series_max_date.
  destruct (non_null (map (@payment_date _) (r :: l))) as [|t ts];
    [exfalso; apply Hready; reflexivity|].
  rewrite !bind_ret_l.
  change (map (@debit _)) with (map (@get_num datetime Debit)).
  change (map (@credit _)) with (map (@get_num datetime Credit)).
  clear Hcash. subst df.
  rewrite bind_emit.
  rewrite !series_sum_numeric by apply Hnum.
  rewrite !bind_ret_l.
  rewrite compare_previous_ok, !bind_ret_l.
  reflexivity.
Qed.

(** C4 (counterexample).  The claim gives the percent change as
    [(current - previous) / previous * 100] whenever the previous total is
    not 0.  The page computes it under the guard [previous > 0]: with a
    negative previous total (the reversal of day 8, a debit of -60, in the
    previous window [[7, 9]] of the range [[10, 12]]) the delta it shows is
    0, where the claim's formula gives a non-zero change. *)
Lemma cashbook_negative_previous_total :
  exists v c,
    cashbook no_parse reversal_ledger [10; 12]%Z
    = ([StSuccess (MsgRange "Showing data" 10%Z 12%Z);
        StMetric "Total Cash In" 100 (DeltaPct (Fin 0) 7%Z 9%Z);
        StMetric "Total Cash Out" 0 (DeltaPct (Fin 0) 7%Z 9%Z);
        StMetric "Net Cash Flow" 100 (DeltaText "Surplus")],
       Done (Some v)) /\
    cb_comparison v = Some c /\
    cb_total_debit v == 100 /\
    prev_debit c == -60 /\
    debit_change c = Fin 0 /\
    ~ (cb_total_debit v - prev_debit c) / prev_debit c * 100 == 0.
Proof.
  eexists. eexists. split; [reflexivity|]. split; [reflexivity|].
  split; [reflexivity|]. split; [reflexivity|]. split; [reflexivity|].
  intros H. vm_compute in H. discriminate H.
Qed.

(** C4 (amended).  For a current range [[s, e]] the Cashbook compares with
    the window [[s - (e - s + 1), s - 1]].  The current totals are the sums
    of debit and credit over the cash rows of the range, the previous
    totals the sums over the rows of the ledger dated in that window.  Each
    percent change shown with a metric is
    [(current - previous) / previous * 100] when the previous total is
    positive, and 0 when it is zero or negative: no division by zero takes
    place, and the page goes through to its metrics. *)
Theorem period_over_period_delta (parse_number : string -> option Q)
    (df0 : DataFrame) (s e : date) :
  cashbook_ready parse_number df0 ->
  exists v c,
    cashbook parse_number df0 [s; e]
    = ([StSuccess (MsgRange "Showing data" s e);
        StMetric "Total Cash In" (cb_total_debit v)
          (DeltaPct (debit_change c) (prev_start c) (prev_end c));
        StMetric "Total Cash Out" (cb_total_credit v)
          (DeltaPct (credit_change c) (prev_start c) (prev_end c));
        StMetric "Net Cash Flow" (cb_net_flow v)
          (DeltaText (if Qle_bool 0 (cb_net_flow v)
                      then "Surplus" else "Deficit"))],
       Done (Some v)) /\
    cb_comparison v = Some c /\
    prev_start c = (s - (e - s + 1))%Z /\
    prev_end c = (s - 1)%Z /\
    cb_total_debit v
    = total Debit (filter_date_range (@payment_date _) s e
                     (cash_rows parse_number df0)) /\
    cb_total_credit v
    = total Credit (filter_date_range (@payment_date _) s e
                      (cash_rows parse_number df0)) /\
    prev_debit c = total Debit (previous_rows parse_number df0 s e) /\
    prev_credit c = total Credit (previous_rows parse_number df0 s e) /\
    (0 < prev_debit c ->
     debit_change c
     = Fin ((cb_total_debit v - prev_debit c) / prev_debit c * 100)) /\
    (prev_debit c <= 0 -> debit_change c = Fin 0) /\
    (0 < prev_credit c ->
     credit_change c
     = Fin ((cb_total_credit v - prev_credit c) / prev_credit c * 100)) /\
    (prev_credit c <= 0 -> credit_change c = Fin 0).
Proof.
  intros Hready.
  exists (expected_view parse_number df0 [s; e]).
  eexists. split; [apply (cashbook_run s e Hready)|].
  split; [reflexivity|]. cbn -[pct_change total previous_rows cash_rows].
  repeat split.
  - apply (proj1 (pct_change_cases _ _)).
  - apply (proj2 (pct_change_cases _ _)).
  - apply (proj1 (pct_change_cases _ _)).
  - apply (proj2 (pct_change_cases _ _)).
Qed.

(** In [small_ledger] the range [[4, 4]] has the bank receipt of day 3 in
    its previous window: the previous debit total is 70, and against the
    current total 0 the change shown is -100 per cent. *)
Lemma period_over_period_delta_witness :
  exists v c,
    outcome_of (cashbook no_parse small_ledger [4; 4]%Z) = Done (Some v) /\
    cb_comparison v = Some c /\
    prev_start c = 3%Z /\ prev_end c = 3%Z /\
    prev_debit c == 70 /\
    debit_change c
    = Fin ((cb_total_debit v - prev_debit c) / prev_debit c * 100).
Proof.
  destruct (@period_over_period_delta no_parse small_ledger 4%Z 4%Z
              small_ledger_ready)
    as (v & c & Hv & Hc & Hs & He & _ & _ & Hd & _ & Hpos & _).
  exists v, c. split; [exact (f_equal (@outcome_of _) Hv)|].
  split; [exact Hc|]. split; [exact Hs|]. split; [exact He|].
  assert (H70 : prev_debit c == 70) by (rewrite Hd; reflexivity).
  split; [exact H70|].
  apply Hpos. rewrite H70. reflexivity.
Defined.


(** C10.  The previous-period totals of the Cashbook are sums over the
    whole (prepared) ledger restricted by payment date only: a row counts
    exactly when it is a row of the ledger whose payment date lies in the
    previous window, whatever its payment method. *)
Theorem previous_period_over_whole_ledger (parse_number : string -> option Q)
    (df0 : DataFrame) (s e : date) :
  cashbook_ready parse_number df0 ->
  exists v c,
    outcome_of (cashbook parse_number df0 [s; e]) = Done (Some v) /\
    cb_comparison v = Some c /\
    prev_debit c = total Debit (previous_rows parse_number df0 s e) /\
    prev_credit c = total Credit (previous_rows parse_number df0 s e) /\
    (forall r,
       In r (previous_rows parse_number df0 s e) <->
       In r (prepared_ledger parse_number df0) /\
       exists t, payment_date r = Some t /\
                 (s - (e - s + 1) <= ts_day t <= s - 1)%Z) /\
    (forall r, In r (prepared_ledger parse_number df0) ->
       exists r0, In r0 df0 /\
                  payment_date r = payment_date r0 /\
                  payment_method r = payment_method r0).
Proof.
  intros Hready.
  exists (expected_view parse_number df0 [s; e]).
  eexists. split; [apply cashbook_outcome, Hready|].
  split; [reflexivity|]. cbn -[pct_change total previous_rows].
  split; [reflexivity|]. split; [reflexivity|]. split.
  - intros r. unfold previous_rows, filter_date_range.
    rewrite filter_In, in_date_range_iff. reflexivity.
  - intros r Hin. unfold prepared_ledger, coerce_cols in Hin.
    apply in_map_iff in Hin. destruct Hin as [r0 [<- Hin]].
    exists r0. split; [exact Hin|].
    rewrite coerce_fold_payment_date, coerce_fold_payment_method. auto.
Qed.

(** In [small_ledger] the bank receipt of day 3 is the previous period of
    the range [[4, 4]]: it is no cash row, and its debit is the previous
    debit total. *)
Lemma previous_period_over_whole_ledger_witness :
  exists v c,
    outcome_of (cashbook no_parse small_ledger [4; 4]%Z) = Done (Some v) /\
    cb_comparison v = Some c /\
    prev_debit c = total Debit (previous_rows no_parse small_ledger 4%Z 4%Z) /\
    is_cash bank_receipt = false /\
    map (@payment_method _) (previous_rows no_parse small_ledger 4%Z 4%Z)
    = [payment_method bank_receipt] /\
    total Debit (previous_rows no_parse small_ledger 4%Z 4%Z) == 70.
Proof.
  destruct (@previous_period_over_whole_ledger no_parse small_ledger 4%Z 4%Z
              small_ledger_ready)
    as (v & c & Hv & Hc & Hd & _).
  exists v, c. repeat split; assumption || reflexivity.
Defined.

(** ** Reversed date ranges *)

(** C3 (the code departs from the claim).  The claim has every date-range
    filter answer a reversed range with a validation error.  The MD Report
    does: it checks its two dates and stops with "End date must be after
    start date".  The pages with a range picker filter without a check: the
    Cashbook with the reversed range [[20, 5]] shows no error and runs to
    its metrics over an empty subset. *)
Theorem cashbook_reversed_range_is_empty_result :
  ~ validation_error (cashbook no_parse small_ledger [20; 5]%Z) /\
  exists v,
    cashbook no_parse small_ledger [20; 5]%Z
    = ([StSuccess (MsgRange "Showing data" 20%Z 5%Z);
        StMetric "Total Cash In" 0 (DeltaPct (Fin 0) 34%Z 19%Z);
        StMetric "Total Cash Out" 0 (DeltaPct (Fin 0) 34%Z 19%Z);
        StMetric "Net Cash Flow" 0 (DeltaText "Surplus")],
       Done (Some v)) /\
    cb_cash_df v = [].
Proof.
  split.
  - intros [H _]. discriminate H.
  - eexists. split; reflexivity.
Qed.

Lemma filter_date_range_reversed (col : Row -> datetime) (s e : date)
    (sub : DataFrame) :
  (e < s)%Z -> filter_date_range col s e sub = [].
Proof.
  intros H. unfold filter_date_range.
  induction sub as [|r sub IH]; simpl; [reflexivity|].
  destruct (in_date_range s e (col r)) eqn:Hin; [|exact IH].
  apply in_date_range_iff in Hin. destruct Hin as [t [_ Ht]]. lia.
Qed.

(** The sibling check: when the end date picked in the MD Report is
    before the start date, the page shows the error and stops. *)
Lemma md_report_validates_dates (parse_number : string -> option Q)
    (df : DataFrame) (pick_start pick_end : option date) (mn mx : date) :
  series_min_date (map (@date_ _) df) = ret mn ->
  series_max_date (map (@date_ _) df) = ret mx ->
  (date_input mx mn mx pick_end < date_input mn mn mx pick_start)%Z ->
  md_report parse_number df pick_start pick_end
  = ([StError (Msg "End date must be after start date")], Stopped) /\
  validation_error (md_report parse_number df pick_start pick_end).
Proof.
  intros Hmn Hmx Hlt.
  assert (E : md_report parse_number df pick_start pick_end
              = ([StError (Msg "End date must be after start date")], Stopped)).
  { unfold md_report. rewrite Hmn, bind_ret_l, Hmx, bind_ret_l.
    rewrite (proj2 (Z.ltb_lt _ _) Hlt). reflexivity. }
  split; [exact E|]. rewrite E. split; [reflexivity|].
  eexists. left. reflexivity.
Qed.

(** In the ledger with entries on day 5 and day 20, picking day 20 as the
    start and day 5 as the end. *)
Example md_report_reversed_picks :
  validation_error (md_report no_parse two_day_ledger (Some 20%Z) (Some 5%Z)).
Proof.
  apply (@md_report_validates_dates no_parse two_day_ledger
           (Some 20%Z) (Some 5%Z) 5%Z 20%Z); reflexivity.
Qed.

(** ** The Bank Txns page *)

Section BankTxnsFacts.

Variable parse_number : string -> option Q.

Lemma bank_subset_numeric (c : numcol) (df : DataFrame) :
  In c [BankDeposit; BankWithdrawal] -> numeric_col c (bank_subset parse_number df).
Proof.
  intros H. apply numeric_col_filter, numeric_col_coerce, H.
Qed.

(** The three guards of the classification, on the prepared ledger. *)
Lemma bank_txns_guards (df : DataFrame) {B} (k : page B) :
  object_columns [@account_head _; @category _; @sub_category _] df ->
  (str_accessor (map (@account_head _)
     (coerce_cols parse_number [BankDeposit; BankWithdrawal] df)) ;;
   str_accessor (map (@category _)
     (coerce_cols parse_number [BankDeposit; BankWithdrawal] df)) ;;
   str_accessor (map (@sub_category _)
     (coerce_cols parse_number [BankDeposit; BankWithdrawal] df)) ;;
   k) = k.
Proof.
  intros Hobj. unfold object_columns in Hobj.
  apply Forall_cons_iff in Hobj. destruct Hobj as [H1 Hobj].
  apply Forall_cons_iff in Hobj. destruct Hobj as [H2 Hobj].
  apply Forall_cons_iff in Hobj. destruct Hobj as [H3 _].
  rewrite (map_coerce_cols parse_number (@account_head _)) by other_column.
  rewrite (map_coerce_cols parse_number (@category _)) by other_column.
  rewrite (map_coerce_cols parse_number (@sub_category _)) by other_column.
  rewrite (str_accessor_object _ H1), bind_ret_l.
  rewrite (str_accessor_object _ H2), bind_ret_l.
  rewrite (str_accessor_object _ H3), bind_ret_l.
  reflexivity.
Qed.

(** With a complete range the page shows its metrics and returns. *)
Lemma bank_txns_run (df : DataFrame) (s e : date) (sel : list string) :
  bank_txns_ready parse_number df ->
  exists rows,
    bank_txns parse_number df [s; e] sel
    = (bank_metrics parse_number df,
       Done (Some (mkBankTxnsView rows
                     (total BankDeposit (bank_subset parse_number df))
                     (total BankWithdrawal (bank_subset parse_number df))
                     (total BankDeposit (bank_subset parse_number df)
                      - total BankWithdrawal (bank_subset parse_number df))))).
Proof.
  unfold bank_txns_ready, bank_metrics. intros [Hobj Hready].
  assert (Hd := @bank_subset_numeric BankDeposit df (or_introl eq_refl)).
  assert (Hw := @bank_subset_numeric BankWithdrawal df
                  (or_intror (or_introl eq_refl))).
  unfold bank_txns. fold (bank_subset parse_number df).
  destruct df as [|r0 df']; [exfalso; apply Hready; reflexivity|].
  rewrite (bank_txns_guards _ Hobj).
  destruct (bank_subset parse_number (r0 :: df')) as [|r l];
    [exfalso; apply Hready; reflexivity|].
  unfold series_min_date, series_max_date.
  destruct (non_null (map (@payment_date _) (r :: l))) as [|t ts];
    [exfalso; apply Hready; reflexivity|].
  rewrite !bind_ret_l.
  change (map (@bank_deposit _)) with (map (@get_num datetime BankDeposit)).
  change (map (@bank_withdrawal _))
    with (map (@get_num datetime BankWithdrawal)).
  rewrite !series_sum_numeric by assumption.
  rewrite !bind_ret_l.
  eexists. reflexivity.
Qed.

Lemma bank_txns_ready_dec (df : DataFrame) :
  bank_txns_ready parse_number df \/ ~ bank_txns_ready parse_number df.
Proof.
  unfold bank_txns_ready, object_columns.
  destruct (is_object (map (@account_head _) df)) eqn:H1;
    [|right; intros [H _]; apply Forall_cons_iff in H; destruct H as [H _];
      exact (eq_true_false_abs _ H H1)].
  destruct (is_object (map (@category _) df)) eqn:H2;
    [|right; intros [H _]; apply Forall_cons_iff in H; destruct H as [_ H];
      apply Forall_cons_iff in H; destruct H as [H _];
      exact (eq_true_false_abs _ H H2)].
  destruct (is_object (map (@sub_category _) df)) eqn:H3;
    [|right; intros [H _]; apply Forall_cons_iff in H; destruct H as [_ H];
      apply Forall_cons_iff in H; destruct H as [_ H];
      apply Forall_cons_iff in H; destruct H as [H _];
      exact (eq_true_false_abs _ H H3)].
  destruct (non_null (map (@payment_date _) (bank_subset parse_number df))).
  - right. intros [_ H]. apply H. reflexivity.
  - left. split; [repeat constructor; assumption | discriminate].
Qed.

(** Otherwise nothing is shown. *)
Lemma bank_txns_silent (df : DataFrame) (date_range : list date)
    (sel : list string) :
  ~ bank_txns_ready parse_number df ->
  log_of (bank_txns parse_number df date_range sel) = [].
Proof.
  unfold bank_txns_ready, object_columns. intros Hnot.
  unfold bank_txns. fold (bank_subset parse_number df).
  destruct df as [|r0 df']; [reflexivity|].
  rewrite (map_coerce_cols parse_number (@account_head _)) by other_column.
  rewrite (map_coerce_cols parse_number (@category _)) by other_column.
  rewrite (map_coerce_cols parse_number (@sub_category _)) by other_column.
  unfold str_accessor.
  repeat match goal with
         | |- context [if is_object ?c then _ else _] =>
             let H := fresh "Hobj" in
             destruct (is_object c) eqn:H;
             [cbv iota; rewrite bind_ret_l | reflexivity]
         end.
  destruct (bank_subset parse_number (r0 :: df')) as [|r l]; [reflexivity|].
  unfold series_min_date.
  destruct (non_null (map (@payment_date _) (r :: l))) as [|t ts];
    [reflexivity|].
  exfalso. apply Hnot. split; [repeat constructor; assumption | discriminate].
Qed.

End BankTxnsFacts.

(** C9.  The three metrics of the Bank Txns page do not depend on the
    selected date range (nor on the selected payment methods): two complete
    selections over the same ledger show the same metrics, and when the
    page shows them (the three text columns it classifies by hold text and
    some bank row has a payment date) they are the totals of the whole
    bank-classified subset, taken before the date filter. *)
Theorem bank_txns_metrics_ignore_date_range
    (parse_number : string -> option Q) (df : DataFrame)
    (s1 e1 s2 e2 : date) (sel1 sel2 : list string) :
  log_of (bank_txns parse_number df [s1; e1] sel1)
  = log_of (bank_txns parse_number df [s2; e2] sel2) /\
  (bank_txns_ready parse_number df ->
   log_of (bank_txns parse_number df [s1; e1] sel1)
   = bank_metrics parse_number df /\
   exists v,
     outcome_of (bank_txns parse_number df [s1; e1] sel1) = Done (Some v) /\
     bt_total_deposit v = total BankDeposit (bank_subset parse_number df) /\
     bt_total_withdrawal v = total BankWithdrawal (bank_subset parse_number df) /\
     bt_net_flow v = bt_total_deposit v - bt_total_withdrawal v).
Proof.
  split.
  - destruct (bank_txns_ready_dec parse_number df) as [Hr | Hn].
    + destruct (bank_txns_run s1 e1 sel1 Hr) as [rows1 ->].
      destruct (bank_txns_run s2 e2 sel2 Hr) as [rows2 ->].
      reflexivity.
    + rewrite !bank_txns_silent by exact Hn. reflexivity.
  - intros Hr. destruct (bank_txns_run s1 e1 sel1 Hr) as [rows1 ->].
    split; [reflexivity|]. eexists. repeat split.
Qed.

Lemma bank_txns_metrics_ignore_date_range_witness :
  log_of (bank_txns no_parse [deposit_row; withdrawal_row] [1; 5]%Z [])
  = log_of (bank_txns no_parse [deposit_row; withdrawal_row] [100; 200]%Z []) /\
  log_of (bank_txns no_parse [deposit_row; withdrawal_row] [1; 5]%Z [])
  = [StMetric "Total Deposit" 500 DeltaNone;
     StMetric "Total Withdrawal" 120 DeltaNone;
     StMetric "Net Cash Flow" 380 DeltaNone].
Proof.
  destruct (@bank_txns_metrics_ignore_date_range no_parse
              [deposit_row; withdrawal_row] 1%Z 5%Z 100%Z 200%Z [] [])
    as [H1 H2].
  split; [exact H1|].
  destruct H2 as [H2 _];
    [split; [repeat constructor | discriminate]|].
  exact H2.
Defined.

(** ** The Balance Sheet page *)

Section BalanceSheetFacts.

Variable parse_number : string -> option Q.

Lemma bs_filtered_classes (df : DataFrame) :
  bs_filtered parse_number df
  = map (bs_row parse_number) (filter (fun r0 => match account_class r0 with
                                  | Some _ => true
                                  | None => false
                                  end) df).
Proof.
  unfold bs_filtered, bs_clean, coerce_cols.
  induction df as [|r0 df IH]; [reflexivity|].
  cbn [map filter fold_left]. cbn [map filter fold_left] in IH.
  unfold account_class at 1. cbn [account_type set_account_type isin valid_types existsb].
  set (t := clean_account_type (account_type (coerce_col parse_number Amount r0))).
  assert (Ht : t = clean_account_type (account_type r0)) by reflexivity.
  rewrite <- Ht.
  destruct (String.eqb_spec t "asset") as [E1|N1].
  { cbn [orb map]. rewrite IH. f_equal.
    unfold bs_row, account_class. rewrite <- Ht, E1. reflexivity. }
  destruct (String.eqb_spec t "liability") as [E2|N2].
  { cbn [orb map]. rewrite IH. f_equal.
    unfold bs_row, account_class. rewrite <- Ht, E2. reflexivity. }
  destruct (String.eqb_spec t "equity") as [E3|N3].
  { cbn [orb map]. rewrite IH. f_equal.
    unfold bs_row, account_class. rewrite <- Ht, E3. reflexivity. }
  destruct (String.eqb_spec t "capital") as [E4|N4].
  { cbn [orb map]. rewrite IH. f_equal.
    unfold bs_row, account_class. rewrite <- Ht, E4. reflexivity. }
  destruct (String.eqb_spec t "retained earnings") as [E5|N5].
  { cbn [orb map]. rewrite IH. f_equal.
    unfold bs_row, account_class. rewrite <- Ht, E5. reflexivity. }
  cbn [orb]. exact IH.
Qed.

End BalanceSheetFacts.

Section BalanceSheetTotals.

Variable parse_number : string -> option Q.

Lemma filter_has_type (ty : string) (df : DataFrame) :
  filter (has_type ty) (bs_filtered parse_number df)
  = map (bs_row parse_number) (filter (in_class ty) df).
Proof.
  rewrite bs_filtered_classes.
  induction df as [|r0 df IH]; [reflexivity|].
  cbn [filter]. unfold in_class at 1.
  destruct (account_class r0) as [c|] eqn:Hc; [|exact IH].
  cbn [map filter].
  assert (Hty : has_type ty (bs_row parse_number r0) = String.eqb c ty).
  { unfold has_type, bs_row. cbn [account_type set_account_type].
    rewrite Hc. reflexivity. }
  rewrite Hty. destruct (String.eqb c ty); cbn [map]; rewrite IH; reflexivity.
Qed.

Lemma bs_rows_numeric (l : DataFrame) :
  numeric_col Amount (map (bs_row parse_number) l).
Proof.
  unfold numeric_col. rewrite Forall_forall. intros r Hr.
  apply in_map_iff in Hr. destruct Hr as [r0 [<- _]].
  apply to_numeric_fillna_is_num.
Qed.

Lemma in_class_cases (r0 : Row) :
  let t := clean_account_type (account_type r0) in
  (in_class "asset" r0 = true <-> t = "asset"%string) /\
  (in_class "liability" r0 = true <-> t = "liability"%string) /\
  (in_class "equity" r0 = true <->
   t = "equity"%string \/ t = "capital"%string
   \/ t = "retained earnings"%string).
Proof.
  intros t. unfold in_class, account_class. fold t.
  destruct (String.eqb_spec t "asset") as [E1|N1].
  { rewrite E1. cbn. repeat split; intros H; auto; try discriminate;
      destruct H as [H | [H | H]]; discriminate. }
  destruct (String.eqb_spec t "liability") as [E2|N2].
  { rewrite E2. cbn. repeat split; intros H; auto; try discriminate;
      destruct H as [H | [H | H]]; discriminate. }
  destruct (String.eqb_spec t "equity") as [E3|N3].
  { cbn. repeat split; intros H; auto; try discriminate; congruence. }
  destruct (String.eqb_spec t "capital") as [E4|N4].
  { cbn. repeat split; intros H; auto; try discriminate; congruence. }
  destruct (String.eqb_spec t "retained earnings") as [E5|N5].
  { cbn. repeat split; intros H; auto; try discriminate; congruence. }
  cbn. repeat split; intros H; try discriminate; try congruence.
  destruct H as [H | [H | H]]; congruence.
Qed.

End BalanceSheetTotals.

(** The block of lines 1911-1937, on the table that reaches it: a row goes
    to the assets, the liabilities or the equity by its cleaned account
    type, reading "capital" and "retained earnings" as "equity"; rows of any
    other type are dropped.  Total equity is the sum of the equity rows'
    amounts when there is an equity row, and total assets minus total
    liabilities when there is none.  With no row of a valid type at all the
    block warns and stops. *)
Theorem balance_sheet_classification (parse_number : string -> option Q)
    (df : DataFrame) :
  (forall r0,
     let t := clean_account_type (account_type r0) in
     (in_class "asset" r0 = true <-> t = "asset"%string) /\
     (in_class "liability" r0 = true <-> t = "liability"%string) /\
     (in_class "equity" r0 = true <->
      t = "equity"%string \/ t = "capital"%string
      \/ t = "retained earnings"%string)) /\
  (bs_filtered parse_number df = [] ->
   outcome_of (balance_sheet parse_number df) = Stopped) /\
  (bs_filtered parse_number df <> [] ->
   exists bs,
     balance_sheet parse_number df = ret bs /\
     assets_df bs = map (bs_row parse_number) (filter (in_class "asset") df) /\
     liabilities_df bs
     = map (bs_row parse_number) (filter (in_class "liability") df) /\
     equity_df bs = map (bs_row parse_number) (filter (in_class "equity") df) /\
     total_assets bs = total Amount (assets_df bs) /\
     total_liabilities bs = total Amount (liabilities_df bs) /\
     total_equity bs
     = match equity_df bs with
       | [] => total_assets bs - total_liabilities bs
       | _ => total Amount (equity_df bs)
       end).
Proof.
  split; [intros r0; apply in_class_cases|].
  split.
  - intros Hempty. unfold balance_sheet. rewrite Hempty. reflexivity.
  - intros Hne. unfold balance_sheet.
    destruct (bs_filtered parse_number df) as [|r l] eqn:Hf; [congruence|].
    rewrite <- Hf. rewrite !filter_has_type.
    change (map (@amount _)) with (map (@get_num datetime Amount)).
    rewrite !series_sum_numeric by apply bs_rows_numeric.
    rewrite !bind_ret_l.
    destruct (map (bs_row parse_number) (filter (in_class "equity") df))
      as [|q qs] eqn:Heq.
    + rewrite !bind_ret_l. eexists. split; [reflexivity|].
      cbn [assets_df liabilities_df equity_df
           total_assets total_liabilities total_equity].
      rewrite ?Heq. repeat split.
    + rewrite !bind_ret_l. eexists. split; [reflexivity|].
      cbn [assets_df liabilities_df equity_df
           total_assets total_liabilities total_equity].
      rewrite ?Heq. repeat split.
Qed.

Lemma balance_sheet_classification_witness :
  (exists bs,
     balance_sheet no_parse ledger_without_equity = ret bs /\
     equity_df bs = [] /\ total_equity bs == 600) /\
  (exists bs,
     balance_sheet no_parse ledger_with_capital = ret bs /\
     List.length (equity_df bs) = 2%nat /\ total_equity bs == 750).
Proof.
  pose proof (@balance_sheet_classification no_parse ledger_without_equity)
    as (_ & _ & H1).
  pose proof (@balance_sheet_classification no_parse ledger_with_capital)
    as (_ & _ & H2).
  split.
  - destruct H1 as (bs & Hbs & _ & _ & He & Ha & Hl & Ht); [discriminate|].
    exists bs. split; [exact Hbs|]. split; [exact He|].
    rewrite Ht, He, Ha, Hl.
    injection Hbs as Hbs. subst bs. reflexivity.
  - destruct H2 as (bs & Hbs & _ & _ & He & _ & _ & Ht); [discriminate|].
    exists bs. split; [exact Hbs|]. split; [rewrite He; reflexivity|].
    rewrite Ht, He. reflexivity.
Defined.

(** The rename of lines 1907-1909 takes the new name of a column from its
    position in the header: it raises IndexError as soon as one of the
    three columns stands after the third place. *)
Lemma col_mapping_index_error (columns : list string) (i : nat) :
  (exists j col, nth_error columns j = Some col /\ (3 <= i + j)%nat /\
                 In (Str.lower col) required_cols) ->
  col_mapping i columns = raise IndexError.
Proof.
  revert i. induction columns as [|c columns IH]; intros i [j [col [Hj [Hi Hin]]]].
  - destruct j; discriminate.
  - cbn [col_mapping]. destruct j as [|j].
    + injection Hj as ->.
      replace (existsb (String.eqb (Str.lower col)) (map Str.lower required_cols))
        with true.
      * rewrite (proj2 (nth_error_None required_cols i))
          by (simpl; lia).
        reflexivity.
      * symmetry. apply existsb_exists. exists (Str.lower col).
        split; [exact Hin | apply String.eqb_refl].
    + assert (E : col_mapping (S i) columns = raise IndexError).
      { apply IH. exists j, col. split; [exact Hj|]. split; [lia | exact Hin]. }
      rewrite E.
      destruct (existsb _ _); [|reflexivity].
      destruct (nth_error required_cols i); reflexivity.
Qed.

(** The snapshot filter always hands a table on. *)
Lemma bs_snapshot_done (df : DataFrame) (pick : option date) :
  exists log df', bs_snapshot df pick = (log, Done df').
Proof.
  unfold bs_snapshot, series_min_date, series_max_date.
  destruct (non_null (map (@date_ _) df)) as [|t ts].
  - eexists. eexists. reflexivity.
  - rewrite !bind_ret_l. eexists. eexists. reflexivity.
Qed.

(** Whatever the table and the snapshot date: a header on which the rename
    fails ends the page with the error message, and no balance sheet. *)
Lemma balance_sheet_page_rename_fails (parse_number : string -> option Q)
    (float_str : Q -> string) (columns : list string) (df : DataFrame)
    (pick : option date) :
  missing_cols columns = [] ->
  col_mapping 0 columns = raise IndexError ->
  exists log,
    balance_sheet_page parse_number float_str columns df pick
    = (log ++ [StError (MsgExn "An error occurred" IndexError);
               StError (Msg "Please check your data and try again")],
       Done None).
Proof.
  intros Hm Hc. unfold balance_sheet_page. rewrite Hm, Hc.
  destruct (existsb (String.eqb "date") columns).
  - destruct (bs_snapshot_done df pick) as [log [df' ->]].
    exists log. reflexivity.
  - exists []. reflexivity.
Qed.

(** C7 (the code departs from the claim).  The classification and the
    equity fallback of the claim are written in the page (the block of
    lines 1911-1937 gives the three accounts of the example their classes
    and totals), but the page does not get to them.  No entry of the menu
    opens the Balance Sheet branch: the entry reads "Blance Sheet" and
    falls to the final [else].  And the page itself fails before the
    block: with the header in the order of the ledger, the rename of
    lines 1907-1909 raises IndexError, which the page shows as "An error
    occurred" in place of the balance sheet. *)
Theorem balance_sheet_is_not_shown (parse_number : string -> option Q)
    (float_str : Q -> string) (pick : option date) :
  Forall (fun choice => forall df_empty,
            dispatch choice df_empty <> BBalanceSheet) menu /\
  dispatch "⚖ Blance Sheet" false = BElse /\
  missing_cols ledger_columns = [] /\
  col_mapping 0 ledger_columns = raise IndexError /\
  balance_sheet_page parse_number float_str ledger_columns
                     chart_of_accounts None
  = ([StError (MsgExn "An error occurred" IndexError);
      StError (Msg "Please check your data and try again")],
     Done None) /\
  outcome_of (balance_sheet_page parse_number float_str ledger_columns
                                 chart_of_accounts pick) = Done None /\
  exists bs,
    balance_sheet parse_number chart_of_accounts = ret bs /\
    map (@account_name _) (equity_df bs) = [Some "Share capital"%string] /\
    total_assets bs == 1000 /\ total_liabilities bs == 400 /\
    total_equity bs == 600.
Proof.
  assert (Hmap : col_mapping 0 ledger_columns = raise IndexError).
  { apply col_mapping_index_error. exists 7%nat, "amount"%string.
    split; [reflexivity|]. split; [lia|]. right. right. left. reflexivity. }
  split.
  { unfold menu. repeat constructor; intros [|]; vm_compute; discriminate. }
  split; [vm_compute; reflexivity|].
  split; [reflexivity|].
  split; [exact Hmap|].
  split; [vm_compute; reflexivity|].
  split.
  { destruct (@balance_sheet_page_rename_fails parse_number float_str
                ledger_columns chart_of_accounts pick eq_refl Hmap)
      as [log ->].
    reflexivity. }
  eexists. split; [reflexivity|].
  repeat split; reflexivity.
Qed.

(** * Further properties of the pages *)

(** ** The menu *)

(** X1.  Routing of the sidebar menu.  With a ledger that has rows, each
    menu entry opens the page of its name, except "Settings" and "Blance
    Sheet": their labels are not the ones the branches test for ("Settings"
    without the sign, "Balance Sheet"), so both end in the final [else] and
    its upload warning, and the Settings and Balance Sheet branches are
    reached from no menu entry.  With an empty ledger the six report pages
    and Bank Txns, whose branches ask for rows, end there too. *)
Theorem menu_dispatch :
  map (fun choice => dispatch choice false) menu
  = [BHome; BDashboard; BCashbook; BBankbook; BLiability; BIncome; BExpense;
     BPayables; BReceivables; BForecast; BMdReport; BBankTxns;
     BElse; BAbout; BElse] /\
  map (fun choice => dispatch choice true) menu
  = [BHome; BElse; BElse; BElse; BElse; BElse; BElse;
     BPayables; BReceivables; BForecast; BMdReport; BElse;
     BElse; BAbout; BElse] /\
  Forall (fun choice => forall df_empty,
            dispatch choice df_empty <> BBalanceSheet /\
            dispatch choice df_empty <> BSettings) menu /\
  (forall df_empty,
     dispatch "⚖ Balance Sheet" df_empty = BBalanceSheet /\
     dispatch "Settings" df_empty = BSettings).
Proof.
  split; [vm_compute; reflexivity|].
  split; [vm_compute; reflexivity|].
  split.
  - unfold menu. repeat constructor; destruct df_empty; vm_compute;
      discriminate.
  - intros [|]; split; vm_compute; reflexivity.
Qed.

(** ** The cash filter of the Cashbook *)

Lemma prefix_app_l (p q s : string) :
  String.prefix (p ++ q) s = true -> String.prefix p s = true.
Proof.
  revert s. induction p as [|a p IH]; intros s H; simpl in *.
  - destruct s; reflexivity.
  - destruct s as [|b s]; [discriminate|].
    simpl in *. destruct (ascii_dec a b); [apply IH, H | discriminate].
Qed.

Lemma contains_app_l (p q s : string) :
  Str.contains (p ++ q) s = true -> Str.contains p s = true.
Proof.
  induction s as [|c s IH]; cbn [Str.contains]; intros H.
  - apply orb_true_iff in H. destruct H as [H | H]; [|discriminate].
    apply prefix_app_l in H. rewrite H. reflexivity.
  - apply orb_true_iff in H. apply orb_true_iff.
    destruct H as [H | H].
    + left. apply (prefix_app_l _ _ _ H).
    + right. apply IH, H.
Qed.

(** X2.  In the Cashbook's pattern ['cash|ca'] the alternative "cash" adds
    nothing: a row counts as a cash transaction exactly when its payment
    method, lower-cased, contains "ca" (so does "Card" or "bKash Bank
    Transfer"); a row without payment method never does. *)
Theorem is_cash_is_contains_ca (r : Row) :
  is_cash r = match payment_method r with
              | Some m => Str.contains "ca" (Str.lower m)
              | None => false
              end.
Proof.
  unfold is_cash, str_contains_na_false, str_lower.
  destruct (payment_method r) as [m|]; [|reflexivity].
  cbn [option_map Str.contains_any existsb].
  rewrite orb_false_r.
  destruct (Str.contains "cash" (Str.lower m)) eqn:Hc; [|reflexivity].
  change "cash"%string with ("ca" ++ "sh")%string in Hc.
  apply contains_app_l in Hc. rewrite Hc. reflexivity.
Qed.

(** ** Coercion *)

Lemma to_numeric_fillna_idem (parse_number : string -> option Q) (c : cell) :
  to_numeric_fillna parse_number (to_numeric_fillna parse_number c)
  = to_numeric_fillna parse_number c.
Proof.
  destruct (to_numeric_fillna_is_num parse_number c) as [q ->]. reflexivity.
Qed.

Section CoercionValues.

Variable parse_number : string -> option Q.

Lemma coerce_col_value (c c' : numcol) (r : Row) :
  get_num c (coerce_col parse_number c' r) = get_num c r \/
  get_num c (coerce_col parse_number c' r)
  = to_numeric_fillna parse_number (get_num c r).
Proof. destruct c, c'; simpl; auto. Qed.

Lemma coerce_fold_stays (c : numcol) (cols : list numcol) (r : Row) (x : cell) :
  get_num c r = to_numeric_fillna parse_number x ->
  get_num c (fold_left (fun r c => coerce_col parse_number c r) cols r)
  = to_numeric_fillna parse_number x.
Proof.
  revert r. induction cols as [|c' cols IH]; intros r H; simpl; auto.
  apply IH. destruct (coerce_col_value c c' r) as [E | E]; rewrite E, H.
  - reflexivity.
  - apply to_numeric_fillna_idem.
Qed.

(** A column the loop goes over holds the coerced value of each cell. *)
Lemma coerce_fold_value (c : numcol) (cols : list numcol) (r : Row) :
  In c cols ->
  get_num c (fold_left (fun r c => coerce_col parse_number c r) cols r)
  = to_numeric_fillna parse_number (get_num c r).
Proof.
  revert r. induction cols as [|c' cols IH]; intros r Hin; simpl.
  - contradiction.
  - destruct Hin as [-> | Hin].
    + apply coerce_fold_stays. destruct c; reflexivity.
    + rewrite IH by exact Hin.
      destruct (coerce_col_value c c' r) as [E | E]; rewrite E.
      * reflexivity.
      * apply to_numeric_fillna_idem.
Qed.

(** A column the loop does not go over is left as it is. *)
Lemma coerce_fold_untouched (c : numcol) (cols : list numcol) (r : Row) :
  ~ In c cols ->
  get_num c (fold_left (fun r c => coerce_col parse_number c r) cols r)
  = get_num c r.
Proof.
  revert r. induction cols as [|c' cols IH]; intros r Hin; simpl; auto.
  rewrite IH by (intros H; apply Hin; right; exact H).
  assert (c' <> c) by (intros ->; apply Hin; left; reflexivity).
  destruct c, c'; try reflexivity; congruence.
Qed.

Lemma total_coerce_cols (c : numcol) (cols : list numcol) (df : DataFrame) :
  In c cols ->
  total c (coerce_cols parse_number cols df)
  = qsum (map (fun r => cell_value (to_numeric_fillna parse_number (get_num c r))) df).
Proof.
  intros Hin. unfold total, coerce_cols. rewrite map_map. f_equal.
  apply map_ext. intros r. rewrite coerce_fold_value by exact Hin. reflexivity.
Qed.

End CoercionValues.

Lemma numcol_eq_dec (a b : numcol) : {a = b} + {a <> b}.
Proof. decide equality. Defined.

Lemma row_ext (r r' : Row) :
  same_other_columns r r' ->
  (forall c, get_num c r = get_num c r') ->
  r = r'.
Proof.
  intros H Hn. destruct r, r'. unfold same_other_columns in H. simpl in H.
  pose proof (Hn Debit) as H1. pose proof (Hn Credit) as H2.
  pose proof (Hn Amount) as H3. pose proof (Hn BankDeposit) as H4.
  pose proof (Hn BankWithdrawal) as H5. simpl in *.
  decompose [and] H. subst. reflexivity.
Qed.

Section CoercionLoop.

Variable parse_number : string -> option Q.

Lemma coerce_fold_idem (cols : list numcol) (r : Row) :
  let step := fold_left (fun r c => coerce_col parse_number c r) cols in
  step (step r) = step r.
Proof.
  intros step. apply row_ext.
  - apply coerce_fold_other_columns.
  - intros c. unfold step. destruct (in_dec numcol_eq_dec c cols) as [Hin | Hout].
    + rewrite !coerce_fold_value by exact Hin. apply to_numeric_fillna_idem.
    + apply coerce_fold_untouched, Hout.
Qed.

End CoercionLoop.

(** X3.  The coercion loop of a page
    ([df[col] = pd.to_numeric(df[col], errors='coerce').fillna(0)] over a
    list of columns) keeps the rows and their order, leaves every date and
    text column and every numeric column outside the list as it was, turns
    each cell of a listed column into its coerced value, and changes
    nothing when it is run a second time. *)
Theorem coercion_loop (parse_number : string -> option Q)
    (cols : list numcol) (df : DataFrame) :
  coerce_cols parse_number cols (coerce_cols parse_number cols df)
  = coerce_cols parse_number cols df /\
  List.length (coerce_cols parse_number cols df) = List.length df /\
  Forall2 (fun r' r =>
             same_other_columns r' r /\
             forall c,
               get_num c r' = if in_dec numcol_eq_dec c cols
                              then to_numeric_fillna parse_number (get_num c r)
                              else get_num c r)
          (coerce_cols parse_number cols df) df.
Proof.
  split; [|split].
  - unfold coerce_cols. rewrite map_map. apply map_ext.
    intros r. apply coerce_fold_idem.
  - unfold coerce_cols. apply length_map.
  - unfold coerce_cols. induction df as [|r df IH]; simpl; constructor; auto.
    split; [apply coerce_fold_other_columns|].
    intros c. destruct (in_dec numcol_eq_dec c cols) as [Hin | Hout].
    + apply coerce_fold_value, Hin.
    + apply coerce_fold_untouched, Hout.
Qed.

(** ** Edge cases of the Cashbook and Bank Txns pages *)

(** X4.  When the ledger has cash rows but none of them has a payment
    date, the Cashbook raises ValueError (the range picker gets NaT as its
    value) before it shows anything, whatever the selected range. *)
Theorem cashbook_without_dates_raises (parse_number : string -> option Q)
    (df0 : DataFrame) (date_range : list date) :
  cash_rows parse_number df0 <> [] ->
  non_null (map (@payment_date _) (cash_rows parse_number df0)) = [] ->
  cashbook parse_number df0 date_range = ([], Raised ValueError).
Proof.
  unfold cash_rows, prepared_ledger. intros Hne Hnull. unfold cashbook.
  destruct df0 as [|r0 df0']; [exfalso; apply Hne; reflexivity|].
  rewrite (str_accessor_object _ (@cash_rows_object _ Hne)), bind_ret_l.
  destruct (filter is_cash _) as [|r l]; [exfalso; apply Hne; reflexivity|].
  unfold series_min_date. rewrite Hnull. reflexivity.
Qed.

(** A cash receipt without payment date. *)
Lemma cashbook_without_dates_raises_witness :
  cashbook no_parse
    [example_row None None (CNum 10) (CNum 0) CNull None
       (Some "Cash"%string) None None] [1; 2]%Z
  = ([], Raised ValueError).
Proof.
  apply cashbook_without_dates_raises; [discriminate | reflexivity].
Defined.

(** X5.  With an incomplete date range (no date or one date picked), the
    Bank Txns page raises IndexError at the filter that is applied again
    without the length test, before any metric is shown.  (The page gets
    that far when the three text columns it classifies by hold text and
    some bank row has a payment date.) *)
Theorem bank_txns_incomplete_range_raises (parse_number : string -> option Q)
    (df : DataFrame) (date_range : list date) (sel : list string) :
  bank_txns_ready parse_number df ->
  (List.length date_range < 2)%nat ->
  bank_txns parse_number df date_range sel = ([], Raised IndexError).
Proof.
  unfold bank_txns_ready. intros [Hobj Hready] Hlen.
  assert (Hd := @bank_subset_numeric parse_number BankDeposit df (or_introl eq_refl)).
  assert (Hw := @bank_subset_numeric parse_number BankWithdrawal df
                  (or_intror (or_introl eq_refl))).
  unfold bank_txns. fold (bank_subset parse_number df).
  destruct df as [|r0 df']; [exfalso; apply Hready; reflexivity|].
  rewrite (@bank_txns_guards parse_number _ _ _ Hobj).
  destruct (bank_subset parse_number (r0 :: df')) as [|r l];
    [exfalso; apply Hready; reflexivity|].
  unfold series_min_date, series_max_date.
  destruct (non_null (map (@payment_date _) (r :: l))) as [|t ts];
    [exfalso; apply Hready; reflexivity|].
  rewrite !bind_ret_l.
  change (map (@bank_deposit _)) with (map (@get_num datetime BankDeposit)).
  change (map (@bank_withdrawal _))
    with (map (@get_num datetime BankWithdrawal)).
  rewrite !series_sum_numeric by assumption.
  rewrite !bind_ret_l.
  destruct date_range as [|s [|e dr]]; [reflexivity | reflexivity |].
  simpl in Hlen. lia.
Qed.

Lemma bank_txns_incomplete_range_raises_witness :
  bank_txns no_parse [deposit_row; withdrawal_row] [3]%Z []
  = ([], Raised IndexError).
Proof.
  apply bank_txns_incomplete_range_raises;
    [split; [repeat constructor | discriminate] | simpl; lia].
Defined.

(** X6.  The rows the Bank Txns page shows for a complete range [[s, e]]:
    the bank-classified rows whose payment day lies in [[s, e]] and, when
    payment methods are selected, whose payment method is one of them.
    Applying the date filter a second time after the method filter changes
    nothing. *)
Theorem bank_txns_rows (parse_number : string -> option Q)
    (df : DataFrame) (s e : date) (sel : list string) :
  bank_txns_ready parse_number df ->
  exists v,
    outcome_of (bank_txns parse_number df [s; e] sel) = Done (Some v) /\
    (forall r,
       In r (bt_bank_df v) <->
       In r (bank_subset parse_number df) /\
       (exists t, payment_date r = Some t /\ (s <= ts_day t <= e)%Z) /\
       (sel = [] \/ exists m, payment_method r = Some m /\ In m sel)) /\
    bt_bank_df v
    = match sel with
      | [] => filter_date_range (@payment_date _) s e (bank_subset parse_number df)
      | _ => filter (fun r => isin sel (payment_method r))
               (filter_date_range (@payment_date _) s e
                  (bank_subset parse_number df))
      end.
Proof.
  unfold bank_txns_ready. intros [Hobj Hready].
  assert (Hd := @bank_subset_numeric parse_number BankDeposit df (or_introl eq_refl)).
  assert (Hw := @bank_subset_numeric parse_number BankWithdrawal df
                  (or_intror (or_introl eq_refl))).
  unfold bank_txns. fold (bank_subset parse_number df).
  destruct df as [|r0 df']; [exfalso; apply Hready; reflexivity|].
  rewrite (@bank_txns_guards parse_number _ _ _ Hobj).
  set (b := bank_subset parse_number (r0 :: df')) in *.
  destruct b as [|r l] eqn:Hb; [exfalso; apply Hready; reflexivity|].
  unfold series_min_date, series_max_date.
  destruct (non_null (map (@payment_date _) (r :: l))) as [|t ts];
    [exfalso; apply Hready; reflexivity|].
  rewrite !bind_ret_l.
  change (map (@bank_deposit _)) with (map (@get_num datetime BankDeposit)).
  change (map (@bank_withdrawal _))
    with (map (@get_num datetime BankWithdrawal)).
  rewrite !series_sum_numeric by assumption.
  rewrite !bind_ret_l.
  eexists. split; [reflexivity|].
  cbn [bt_bank_df apply_date_range tuple_get nth_error].
  assert (Hidem : forall X,
            filter_date_range (@payment_date _) s e
              (filter_date_range (@payment_date _) s e X)
            = filter_date_range (@payment_date _) s e X).
  { intros X. unfold filter_date_range. induction X as [|x X IH]; simpl; auto.
    destruct (in_date_range s e (payment_date x)) eqn:Hx; simpl;
      rewrite ?Hx, IH; reflexivity. }
  assert (Hcomm : forall (p : Row -> bool) X,
            filter_date_range (@payment_date _) s e (filter p X)
            = filter p (filter_date_range (@payment_date _) s e X)).
  { intros p X. unfold filter_date_range. induction X as [|x X IH]; simpl; auto.
    destruct (p x) eqn:Hp, (in_date_range s e (payment_date x)) eqn:Hx; simpl;
      rewrite ?Hp, ?Hx, IH; reflexivity. }
  split.
  - intros x. destruct sel as [|m sel].
    + rewrite Hidem. unfold filter_date_range.
      rewrite filter_In, in_date_range_iff. intuition.
    + rewrite Hcomm, Hidem. unfold filter_date_range.
      rewrite !filter_In, in_date_range_iff. unfold isin.
      split.
      * intros [[Hin Hd'] Hm]. split; [exact Hin|]. split; [exact Hd'|].
        right. destruct (payment_method x) as [pm|]; [|discriminate].
        exists pm. split; [reflexivity|].
        apply existsb_exists in Hm. destruct Hm as [y [Hy Heq]].
        apply String.eqb_eq in Heq. subst y. exact Hy.
      * intros [Hin [Hd' [Hs | [pm [Hpm Hm]]]]]; [discriminate|].
        split; [split; assumption|]. rewrite Hpm.
        apply existsb_exists. exists pm. split; [exact Hm|].
        apply String.eqb_refl.
  - destruct sel as [|m sel].
    + apply Hidem.
    + rewrite Hcomm, Hidem. reflexivity.
Qed.

Lemma bank_txns_rows_witness :
  exists v,
    outcome_of (bank_txns no_parse [deposit_row; withdrawal_row] [1; 5]%Z
                  ["Cheque"%string]) = Done (Some v) /\
    (In withdrawal_row (bt_bank_df v) -> False).
Proof.
  destruct (@bank_txns_rows no_parse [deposit_row; withdrawal_row] 1%Z 5%Z
              ["Cheque"%string]) as (v & Hv & Hrows & _).
  { split; [repeat constructor | discriminate]. }
  exists v. split; [exact Hv|].
  intros Hin. apply Hrows in Hin.
  destruct Hin as (_ & (t & Ht & Hr) & _).
  injection Ht as <-. simpl in Hr. lia.
Defined.

(** ** The previous window and the shortcut buttons of the Cashbook *)

(** X7.  For a range with [s <= e], the previous window of the Cashbook
    ends on the day before [s], has as many days as the range, and shares
    no day with it: no payment date is counted in both periods. *)
Theorem previous_window_adjacent (s e : date) :
  (s <= e)%Z ->
  let '(ps, pe) := prev_window s e in
  (pe + 1 = s)%Z /\
  (pe - ps = e - s)%Z /\
  (forall d : datetime,
     in_date_range ps pe d = true -> in_date_range s e d = false) /\
  (forall d : datetime,
     in_date_range s e d = true -> in_date_range ps pe d = false).
Proof.
  intros Hle. unfold prev_window. cbv zeta.
  split; [lia|]. split; [lia|].
  split; intros d Hd; apply in_date_range_iff in Hd;
    destruct Hd as [t [-> Ht]];
    destruct (in_date_range _ _ (Some t)) eqn:Hin; try reflexivity;
    apply in_date_range_iff in Hin; destruct Hin as [t' [Ht' Hr]];
    injection Ht' as <-; lia.
Qed.

Lemma previous_window_adjacent_witness :
  prev_window 10%Z 12%Z = (7, 9)%Z /\
  in_date_range 10%Z 12%Z (Some (mkTimestamp 9%Z 0%Z)) = false.
Proof.
  pose proof (@previous_window_adjacent 10%Z 12%Z) as H.
  simpl in H. destruct H as (_ & _ & H & _); [lia|].
  split; [reflexivity|]. apply H. reflexivity.
Defined.

Lemma non_null_In {A} (col : list (option A)) (t : A) :
  In t (non_null col) <-> In (Some t) col.
Proof.
  unfold non_null. rewrite in_flat_map. split.
  - intros [[x|] [Hin Hx]]; simpl in Hx; [|contradiction].
    destruct Hx as [-> | []]. exact Hin.
  - intros Hin. exists (Some t). split; [exact Hin | left; reflexivity].
Qed.

Lemma fold_latest (ts : list Timestamp) (t : Timestamp) :
  let m := fold_left (fun m x => if ts_leb m x then x else m) ts t in
  In m (t :: ts) /\
  forall x, In x (t :: ts) -> (ts_nanos x <= ts_nanos m)%Z.
Proof.
  revert t. induction ts as [|y ts IH]; intros t; simpl.
  - split; [left; reflexivity|]. intros x [<- | []]. lia.
  - specialize (IH (if ts_leb t y then y else t)). simpl in IH.
    destruct IH as [Hin Hmax]. split.
    + destruct Hin as [Hin | Hin]; [|right; right; exact Hin].
      rewrite <- Hin. destruct (ts_leb t y); auto.
    + intros x Hx.
      assert (Hstep : (ts_nanos t <= ts_nanos (if ts_leb t y then y else t))%Z
                      /\ (ts_nanos y <= ts_nanos (if ts_leb t y then y else t))%Z).
      { unfold ts_leb. destruct (Z.leb_spec (ts_nanos t) (ts_nanos y)); lia. }
      pose proof (Hmax _ (or_introl eq_refl)) as Hm.
      destruct Hx as [<- | [<- | Hx]]; [lia | lia |].
      apply Hmax. right. exact Hx.
Qed.

Lemma nanos_le_day (x m : Timestamp) :
  well_formed x -> well_formed m ->
  (ts_nanos x <= ts_nanos m)%Z -> (ts_day x <= ts_day m)%Z.
Proof.
  unfold well_formed, ts_nanos, NS_PER_DAY. intros Hx Hm H. lia.
Qed.

(** [max().date()] of a datetime column: the day of one of its values, and
    no value is on a later day. *)
Lemma series_max_date_spec (col : list datetime) :
  non_null col <> [] ->
  (forall t, In (Some t) col -> well_formed t) ->
  exists d,
    series_max_date col = ret d /\
    (exists t, In (Some t) col /\ ts_day t = d) /\
    (forall t, In (Some t) col -> (ts_day t <= d)%Z).
Proof.
  intros Hne Hwf. unfold series_max_date.
  assert (Hnn : forall t, In t (non_null col) <-> In (Some t) col)
    by apply non_null_In.
  destruct (non_null col) as [|t ts]; [congruence|].
  destruct (fold_latest ts t) as [Hin Hmax].
  eexists. split; [reflexivity|]. split.
  - eexists. split; [apply Hnn, Hin | reflexivity].
  - intros x Hx. apply nanos_le_day.
    + apply Hwf, Hx.
    + apply Hwf, Hnn, Hin.
    + apply Hmax, Hnn, Hx.
Qed.

(** X8.  The "Last 7 Days" button of the Cashbook selects
    [[max_date - 7, max_date]], where [max_date] is the latest payment day
    of a cash row; as the filter keeps both ends, the page then shows the
    cash rows of the last eight calendar days: exactly those paid on
    [max_date - 7] or later. *)
Theorem last_7_days_shows_eight_days (parse_number : string -> option Q)
    (month_start year_start : date -> date)
    (df0 : DataFrame) (picked : list date) :
  cashbook_ready parse_number df0 ->
  dates_well_formed (@payment_date _) (cash_rows parse_number df0) ->
  exists max_date v,
    outcome_of (cashbook_with_shortcuts parse_number month_start year_start
                  df0 picked true false false) = Done (Some v) /\
    (exists r t, In r (cash_rows parse_number df0) /\
                 payment_date r = Some t /\ ts_day t = max_date) /\
    (forall r t, In r (cash_rows parse_number df0) ->
                 payment_date r = Some t -> (ts_day t <= max_date)%Z) /\
    (forall r,
       In r (cb_cash_df v) <->
       In r (cash_rows parse_number df0) /\
       exists t, payment_date r = Some t /\ (max_date - 7 <= ts_day t)%Z).
Proof.
  intros Hready Hwf.
  assert (Hcol : forall t,
            In (Some t) (map (@payment_date _) (cash_rows parse_number df0))
            <-> exists r, In r (cash_rows parse_number df0)
                          /\ payment_date r = Some t).
  { intros t. rewrite in_map_iff. split; intros [r [H1 H2]]; exists r; auto. }
  destruct (@series_max_date_spec
              (map (@payment_date _) (cash_rows parse_number df0)))
    as (d & Hd & (t & Ht & Htd) & Hmax).
  { exact Hready. }
  { intros x Hx. apply Hcol in Hx. destruct Hx as [r [Hr Hx]].
    apply (Hwf r x Hr Hx). }
  exists d, (expected_view parse_number df0 [(d - 7)%Z; d]).
  split.
  { unfold cashbook_with_shortcuts.
    fold (prepared_ledger parse_number df0). fold (cash_rows parse_number df0).
    unfold cashbook_ready in Hready.
    destruct (non_null (map (@payment_date _) (cash_rows parse_number df0)))
      eqn:Hnn; [congruence|].
    rewrite Hd, bind_ret_l. unfold shortcut_range. cbv zeta. cbn [negb].
    apply cashbook_outcome. unfold cashbook_ready. rewrite Hnn. discriminate. }
  split.
  { apply Hcol in Ht. destruct Ht as [r [Hr Ht]]. exists r, t. auto. }
  split.
  { intros r x Hr Hx. apply Hmax, Hcol. exists r. auto. }
  intros r. cbn [expected_view cb_cash_df apply_date_range].
  unfold filter_date_range. rewrite filter_In, in_date_range_iff.
  split.
  - intros [Hr [x [Hx Hrange]]]. split; [exact Hr|]. exists x. split; [exact Hx | lia].
  - intros [Hr [x [Hx Hlow]]]. split; [exact Hr|]. exists x. split; [exact Hx|].
    split; [exact Hlow|]. apply Hmax, Hcol. exists r. auto.
Qed.

Lemma small_ledger_well_formed :
  dates_well_formed (@payment_date _) (cash_rows no_parse small_ledger).
Proof.
  intros r t [<- | []] Ht. injection Ht as <-.
  unfold well_formed, NS_PER_DAY. simpl. lia.
Qed.

Lemma last_7_days_shows_eight_days_witness :
  exists max_date v,
    outcome_of (cashbook_with_shortcuts no_parse (fun d => d) (fun d => d)
                  small_ledger [] true false false) = Done (Some v) /\
    (forall r t, In r (cash_rows no_parse small_ledger) ->
                 payment_date r = Some t -> (ts_day t <= max_date)%Z).
Proof.
  destruct (@last_7_days_shows_eight_days no_parse (fun d => d) (fun d => d)
              small_ledger [] small_ledger_ready small_ledger_well_formed)
    as (d & v & Hv & _ & Hmax & _).
  exists d, v. split; assumption.
Defined.

(** ** The "Detailed Transactions" tab of the Cashbook *)

Lemma cell_gt0_iff (c : cell) : cell_gt0 c = true <-> 0 < cell_value c.
Proof.
  destruct c as [|q|s]; simpl.
  - split; [discriminate | intros H; exfalso; exact (Qlt_irrefl _ H)].
  - unfold Qgt0. rewrite negb_true_iff. split.
    + intros H. apply Qnot_le_lt. intros Hle.
      apply Qle_bool_iff in Hle. congruence.
    + intros H. destruct (Qle_bool q 0) eqn:Hle; [|reflexivity].
      apply Qle_bool_iff in Hle. exfalso. exact (Qlt_not_le _ _ H Hle).
  - split; [discriminate | intros H; exfalso; exact (Qlt_irrefl _ H)].
Qed.

(** X9.  The "Flow Type" filter of the transactions tab.  With no flow type
    selected the rows are not filtered by flow at all; with a selection a
    row is kept when its debit is positive and "Cash In" is selected, or
    its credit is positive and "Cash Out" is selected.  So selecting both
    types hides the rows whose debit and credit are both zero, which
    selecting none shows. *)
Theorem flow_type_filter (parse_number : string -> option Q)
    (df0 : DataFrame) (date_range : list date) (category_filter : list string)
    (slider : Q * Q) (flow_type : list string) (r : Row) :
  let shown := cashbook_transactions parse_number df0 date_range
                 category_filter slider in
  let cash_in := existsb (String.eqb "Cash In") flow_type in
  let cash_out := existsb (String.eqb "Cash Out") flow_type in
  In r (shown flow_type) <->
  In r (shown []) /\
  ((cash_in = false /\ cash_out = false) \/
   (cash_in = true /\ 0 < cell_value (debit r)) \/
   (cash_out = true /\ 0 < cell_value (credit r))).
Proof.
  cbv zeta. unfold cashbook_transactions, detailed_transactions.
  set (cash_df := apply_date_range _ _ _).
  set (amount_range := match cash_df with [] => (0, 0) | _ => slider end).
  set (f1 := match category_filter with [] => cash_df | _ => _ end).
  match goal with
  | |- context [if negb ?b then ?x else ?y] =>
      set (f2 := if negb b then x else y)
  end.
  cbn [existsb app].
  destruct (existsb (String.eqb "Cash In") flow_type) eqn:Hin,
           (existsb (String.eqb "Cash Out") flow_type) eqn:Hout;
    cbn [app]; rewrite ?filter_In; cbn [existsb];
    rewrite ?orb_false_r, ?orb_true_iff, ?cell_gt0_iff.
  - split.
    + intros [H [Hd | Hc]]; (split; [exact H|]); auto.
    + intros [H [[Hf _] | [[_ Hd] | [_ Hc]]]]; [discriminate | |]; auto.
  - split.
    + intros [H Hd]. auto.
    + intros [H [[Hf _] | [[_ Hd] | [Hf _]]]]; try discriminate; auto.
  - split.
    + intros [H Hc]. auto.
    + intros [H [[_ Hf] | [[Hf _] | [_ Hc]]]]; try discriminate; auto.
  - split.
    + intros H. auto.
    + intros [H _]. exact H.
Qed.

(** X10.  The amount slider of the transactions tab.  The filter keeps the
    rows whose amount lies in the selected range, both ends included,
    unless the selected range is [(0, 0)]: that value is the page's mark
    for "no amount data", so choosing it applies no amount filter and rows
    of every amount are shown. *)
Theorem amount_range_filter (cash_df : DataFrame)
    (category_filter : list string) (slider : Q * Q) (r : Row) :
  cash_df <> [] ->
  let by_category :=
    detailed_transactions cash_df category_filter (0, 0) [] in
  (In r by_category <->
   In r cash_df /\
   (category_filter = [] \/
    exists c, category r = Some c /\ In c category_filter)) /\
  (is_zero_range slider = true ->
   detailed_transactions cash_df category_filter slider [] = by_category) /\
  (is_zero_range slider = false ->
   (In r (detailed_transactions cash_df category_filter slider []) <->
    In r by_category /\
    exists q, amount r = CNum q /\ fst slider <= q /\ q <= snd slider)).
Proof.
  intros Hne. cbv zeta. unfold detailed_transactions.
  destruct cash_df as [|r0 l]; [congruence|].
  set (cash_df := r0 :: l). cbn [existsb app].
  change (is_zero_range (0, 0)) with true. cbn [negb].
  split; [|split].
  - destruct category_filter as [|c cs]; cbv beta iota.
    + intuition.
    + rewrite filter_In. unfold isin. split.
      * intros [H Hc]. split; [exact H|]. right.
        destruct (category r) as [x|]; [|discriminate].
        exists x. split; [reflexivity|].
        apply existsb_exists in Hc. destruct Hc as [y [Hy Heq]].
        apply String.eqb_eq in Heq. subst y. exact Hy.
      * intros [H [Hc | [x [Hx Hc]]]]; [discriminate|].
        split; [exact H|]. rewrite Hx. apply existsb_exists.
        exists x. split; [exact Hc | apply String.eqb_refl].
  - intros Hz. rewrite Hz. reflexivity.
  - intros Hz. rewrite Hz. cbn [negb]. rewrite filter_In.
    unfold cell_leb. split.
    + intros [H Ha]. split; [exact H|].
      destruct (amount r) as [|q|s]; try discriminate.
      apply andb_true_iff in Ha. destruct Ha as [H1 H2].
      exists q. split; [reflexivity|].
      split; apply Qle_bool_iff; assumption.
    + intros [H [q [Hq [H1 H2]]]]. split; [exact H|]. rewrite Hq.
      apply andb_true_iff. split; apply Qle_bool_iff; assumption.
Qed.

Lemma amount_range_filter_witness :
  detailed_transactions [five_row; zero_row] [] (0, 0) []
  = [five_row; zero_row] /\
  ~ In five_row (detailed_transactions [five_row; zero_row] [] (0, 1) []).
Proof.
  destruct (@amount_range_filter [five_row; zero_row] [] (0, 1)
              five_row) as (_ & _ & H1); [discriminate|].
  split.
  - reflexivity.
  - intros Hin. apply (H1 eq_refl) in Hin.
    destruct Hin as [_ [q [Hq [_ Hle]]]]. simpl in Hq. injection Hq as <-.
    unfold Qle in Hle. simpl in Hle. lia.
Defined.

(** ** Home, Dashboard and MD Report *)

Section HomeFacts.

Variable parse_number : string -> option Q.

Lemma series_sum_coerced (c : numcol) (cols : list numcol) (df0 : DataFrame) :
  In c cols ->
  series_sum (map (get_num c) (coerce_cols parse_number cols df0))
  = ret (coerced_total parse_number c df0).
Proof.
  intros Hin. rewrite series_sum_numeric by (apply numeric_col_coerce, Hin).
  rewrite total_coerce_cols by exact Hin. reflexivity.
Qed.

Lemma home_run (df0 : DataFrame) :
  df0 <> [] ->
  let T := coerced_total parse_number in
  let cash := T Debit df0 - T Credit df0 in
  let bank := T BankDeposit df0 - T BankWithdrawal df0 in
  home parse_number df0
  = ([StMetric "Current Balance" (cash + bank) DeltaNone],
     Done (mkHomeView cash bank (cash + bank))).
Proof.
  intros Hne. cbv zeta. unfold home.
  destruct df0 as [|r0 df']; [congruence|].
  change (map (@debit _)) with (map (@get_num datetime Debit)).
  change (map (@credit _)) with (map (@get_num datetime Credit)).
  change (map (@bank_deposit _)) with (map (@get_num datetime BankDeposit)).
  change (map (@bank_withdrawal _))
    with (map (@get_num datetime BankWithdrawal)).
  rewrite !series_sum_coerced by (simpl; auto).
  rewrite !bind_ret_l. reflexivity.
Qed.

Lemma dashboard_run (df0 : DataFrame) :
  df0 <> [] ->
  let T := coerced_total parse_number in
  outcome_of (dashboard parse_number df0)
  = Done (Some (mkDashboardView (T Credit df0) (T Debit df0)
                  (T Credit df0 - T Debit df0))).
Proof.
  intros Hne. cbv zeta. unfold dashboard.
  destruct df0 as [|r0 df']; [congruence|].
  change (map (@debit _)) with (map (@get_num datetime Debit)).
  change (map (@credit _)) with (map (@get_num datetime Credit)).
  rewrite !series_sum_coerced by (simpl; auto).
  rewrite !bind_ret_l. reflexivity.
Qed.

End HomeFacts.

(** X11.  Home and Dashboard read the two cash columns with opposite
    signs.  Home takes the cash balance as debits minus credits; the
    Dashboard calls the credits "Total Income" and the debits "Total
    Expense", so for every ledger its "Net Balance" is the negative of
    Home's cash balance.  Both pages complete on every ledger with rows:
    the coercion leaves nothing that could make a sum fail. *)
Theorem dashboard_balance_is_minus_home_cash
    (parse_number : string -> option Q) (df0 : DataFrame) :
  df0 <> [] ->
  exists h d,
    outcome_of (home parse_number df0) = Done h /\
    outcome_of (dashboard parse_number df0) = Done (Some d) /\
    dash_total_income d = coerced_total parse_number Credit df0 /\
    dash_total_expense d = coerced_total parse_number Debit df0 /\
    home_total_cash h
    = coerced_total parse_number Debit df0 - coerced_total parse_number Credit df0 /\
    dash_balance d == - home_total_cash h /\
    home_total_balance h = home_total_cash h + home_total_bank h.
Proof.
  intros Hne. eexists. eexists.
  split; [rewrite (@home_run parse_number df0 Hne); reflexivity|].
  split; [apply dashboard_run, Hne|].
  cbn [dash_total_income dash_total_expense dash_balance
       home_total_cash home_total_bank home_total_balance].
  repeat split. ring.
Qed.

Lemma dashboard_balance_is_minus_home_cash_witness :
  exists h d,
    outcome_of (home no_parse small_ledger) = Done h /\
    outcome_of (dashboard no_parse small_ledger) = Done (Some d) /\
    dash_balance d == - home_total_cash h.
Proof.
  destruct (@dashboard_balance_is_minus_home_cash no_parse small_ledger)
    as (h & d & H1 & H2 & _ & _ & _ & H3 & _); [discriminate|].
  exists h, d. repeat split; assumption.
Defined.

Lemma try_except_done {A} (m : page A) (h : exn -> page A) (a : A) :
  outcome_of m = Done a -> try_except m h = m.
Proof. destruct m as [log [x| |ex]]; simpl; intros H; congruence. Qed.

Section MdReportFacts.

Variable parse_number : string -> option Q.

Lemma md_dates_rows (df : DataFrame) (ps pe : option date) (s e : date) :
  md_dates df ps pe s e -> df <> [].
Proof.
  intros (mn & mx & Hmn & _) ->. discriminate Hmn.
Qed.

Lemma md_report_run (df : DataFrame) (ps pe : option date) (s e : date) :
  md_dates df ps pe s e ->
  (s <= e)%Z ->
  md_report parse_number df ps pe
  = ret (coerce_cols parse_number cashbook_numeric_cols
           (filter (md_mask s e) df)).
Proof.
  intros (mn & mx & Hmn & Hmx & -> & ->) Hle. unfold md_report.
  rewrite Hmn, bind_ret_l, Hmx, bind_ret_l.
  destruct (Z.ltb_spec (date_input mx mn mx pe) (date_input mn mn mx ps))
    as [Hlt | _]; [lia|].
  rewrite bind_ret_l. reflexivity.
Qed.

Lemma md_kpis_run (df fdf : DataFrame) :
  is_object (map (@status _) df) = true ->
  (forall c, numeric_col c fdf) ->
  let sales := total Debit (filter (fun r => text_eqb (category r) "Income") fdf) in
  let expenses := total Credit (filter (fun r => text_eqb (category r) "Expense") fdf) in
  let loans := total Debit (filter (fun r => text_eqb (category r) "Loan") fdf) in
  let payables := total Amount (filter (md_unsettled "Vendor" "Paid") fdf) in
  let receivables := total Amount (filter (md_unsettled "Customer" "Received") fdf) in
  let balance := (total Debit fdf - total Credit fdf)
                 + (total BankDeposit fdf - total BankWithdrawal fdf) in
  outcome_of (md_kpis df fdf)
  = Done (mkMdKpis sales expenses loans payables receivables balance
            (balance + receivables) (payables + loans)
            (balance + receivables - (payables + loans))
            (guarded_ratio (balance + receivables) (payables + loans))
            (guarded_ratio (payables + loans)
               (balance + receivables - (payables + loans)))).
Proof.
  intros Hobj Hnum. cbv zeta. unfold md_kpis.
  change (map (@debit _)) with (map (@get_num datetime Debit)).
  change (map (@credit _)) with (map (@get_num datetime Credit)).
  change (map (@amount _)) with (map (@get_num datetime Amount)).
  change (map (@bank_deposit _)) with (map (@get_num datetime BankDeposit)).
  change (map (@bank_withdrawal _))
    with (map (@get_num datetime BankWithdrawal)).
  rewrite !series_sum_numeric by (try apply numeric_col_filter; apply Hnum).
  rewrite (str_accessor_object _ Hobj).
  rewrite !bind_ret_l.
  unfold kpi_card. cbv iota.
  repeat match goal with
         | |- context [if ?b then emit _ else _] => destruct b
         end;
    rewrite !outcome_bind_emit; reflexivity.
Qed.

Lemma md_report_kpis_run (df : DataFrame) (ps pe : option date) (s e : date) :
  md_dates df ps pe s e ->
  (s <= e)%Z ->
  is_object (map (@status _) df) = true ->
  let fdf := coerce_cols parse_number cashbook_numeric_cols
               (filter (md_mask s e) df) in
  exists k,
    outcome_of (md_kpis df fdf) = Done k /\
    outcome_of (md_report_kpis parse_number df ps pe) = Done (Some k).
Proof.
  intros Hd Hle Hobj fdf.
  assert (Hnum : forall c, numeric_col c fdf).
  { intros c. apply numeric_col_coerce. destruct c; simpl; auto 6. }
  eexists. split; [apply (@md_kpis_run df fdf Hobj Hnum)|].
  unfold md_report_kpis. rewrite (@md_report_run _ _ _ _ _ Hd Hle), bind_ret_l.
  fold fdf. pose proof (@md_kpis_run df fdf Hobj Hnum) as Hk. cbv zeta in Hk.
  destruct (md_kpis df fdf) as [log o]. cbn [outcome_of snd] in Hk.
  subst o. reflexivity.
Qed.

Lemma filter_all (p : Row -> bool) (df : DataFrame) :
  (forall r, In r df -> p r = true) -> filter p df = df.
Proof.
  induction df as [|r df IH]; intros H; simpl; [reflexivity|].
  rewrite (H r (or_introl eq_refl)), IH; [reflexivity|].
  intros x Hx. apply H. right. exact Hx.
Qed.

End MdReportFacts.

(** X12.  The "Current Balance" of the MD Report, for a start date not
    after the end date and a ledger whose [status] column holds text, is
    the balance of the rows that the range filter keeps (rows without date
    are left out), each numeric cell coerced.  When the filter keeps every
    row of the ledger it is the "Current Balance" of the Home page. *)
Theorem md_balance_matches_home (parse_number : string -> option Q)
    (df : DataFrame) (pick_start pick_end : option date) (s e : date) :
  md_dates df pick_start pick_end s e ->
  (s <= e)%Z ->
  is_object (map (@status _) df) = true ->
  exists k h,
    outcome_of (md_report_kpis parse_number df pick_start pick_end)
    = Done (Some k) /\
    outcome_of (home parse_number df) = Done h /\
    (let T c := coerced_total parse_number c (filter (md_mask s e) df) in
     md_total_balance k
     = (T Debit - T Credit) + (T BankDeposit - T BankWithdrawal)) /\
    ((forall r, In r df -> md_mask s e r = true) ->
     md_total_balance k = home_total_balance h).
Proof.
  intros Hd Hle Hobj.
  destruct (@md_report_kpis_run parse_number _ _ _ _ _ Hd Hle Hobj)
    as [k [Hk Hrun]].
  exists k. eexists. split; [exact Hrun|].
  split; [rewrite (@home_run parse_number df (@md_dates_rows _ _ _ _ _ Hd)); reflexivity|].
  rewrite md_kpis_run in Hk
    by (try exact Hobj; intros c; apply numeric_col_coerce;
        destruct c; simpl; auto 6).
  injection Hk as <-.
  cbn [md_total_balance home_total_balance].
  rewrite !total_coerce_cols by (simpl; auto 6).
  split; [reflexivity|].
  intros Hall. rewrite (@filter_all _ _ Hall). reflexivity.
Qed.

(** The ledger with a sale on day 5 and a bill on day 20, both entered at
    midnight, with the default selection of the two widgets. *)
Lemma md_balance_matches_home_witness :
  exists k h,
    outcome_of (md_report_kpis no_parse month_ledger None None)
    = Done (Some k) /\
    outcome_of (home no_parse month_ledger) = Done h /\
    md_total_balance k = home_total_balance h.
Proof.
  destruct (@md_balance_matches_home no_parse month_ledger None None 5%Z 20%Z)
    as (k & h & Hk & Hh & _ & Heq).
  { exists 5%Z, 20%Z. repeat split; reflexivity. }
  { lia. }
  { reflexivity. }
  exists k, h. repeat split; try assumption.
  apply Heq. intros r [<- | [<- | []]]; reflexivity.
Defined.

(** X13.  The financial position of the MD Report, when the report block
    runs (start not after end, a [status] column that holds text).  Assets
    are the liabilities plus the equity.  The current ratio is assets over
    liabilities, and the debt-to-equity ratio liabilities over equity; a
    zero divisor gives positive infinity (shown as "inf"), whatever the
    sign of the dividend: no division by zero takes place. *)
Theorem md_financial_position (parse_number : string -> option Q)
    (df : DataFrame) (pick_start pick_end : option date) (s e : date) :
  md_dates df pick_start pick_end s e ->
  (s <= e)%Z ->
  is_object (map (@status _) df) = true ->
  exists k,
    outcome_of (md_report_kpis parse_number df pick_start pick_end)
    = Done (Some k) /\
    md_assets k == md_liabilities k + md_equity k /\
    md_assets k = md_total_balance k + md_total_receivables k /\
    md_liabilities k = md_total_payables k + md_total_loans k /\
    (md_liabilities k == 0 -> md_current_ratio k = PInf) /\
    (~ md_liabilities k == 0 ->
     md_current_ratio k = Fin (md_assets k / md_liabilities k)) /\
    (md_equity k == 0 -> md_debt_to_equity k = PInf) /\
    (~ md_equity k == 0 ->
     md_debt_to_equity k = Fin (md_liabilities k / md_equity k)).
Proof.
  intros Hd Hle Hobj.
  destruct (@md_report_kpis_run parse_number _ _ _ _ _ Hd Hle Hobj)
    as [k [Hk Hrun]].
  exists k. split; [exact Hrun|].
  rewrite md_kpis_run in Hk
    by (try exact Hobj; intros c; apply numeric_col_coerce;
        destruct c; simpl; auto 6).
  injection Hk as <-.
  cbn [md_assets md_liabilities md_equity md_total_balance
       md_total_receivables md_total_payables md_total_loans
       md_current_ratio md_debt_to_equity].
  assert (Hratio : forall n d,
            (d == 0 -> guarded_ratio n d = PInf) /\
            (~ d == 0 -> guarded_ratio n d = Fin (n / d))).
  { intros n d. unfold guarded_ratio, np_truediv.
    destruct (Qeq_bool d 0) eqn:Hd0; simpl.
    - apply Qeq_bool_iff in Hd0. split; [reflexivity | intros H; contradiction].
    - split; [|reflexivity]. intros H. apply Qeq_bool_iff in H. congruence. }
  split; [ring|]. split; [reflexivity|]. split; [reflexivity|].
  split; [apply Hratio|]. split; [apply Hratio|].
  split; apply Hratio.
Qed.

(** In the ledger of the two entries the default range keeps the sale of
    day 5 only: there is no liability, and the current ratio is "inf". *)
Lemma md_financial_position_witness :
  exists k,
    outcome_of (md_report_kpis no_parse two_day_ledger None None)
    = Done (Some k) /\
    md_current_ratio k = PInf.
Proof.
  destruct (@md_financial_position no_parse two_day_ledger None None 5%Z 20%Z)
    as (k & Hk & _ & _ & Hl & Hinf & _).
  { exists 5%Z, 20%Z. repeat split; reflexivity. }
  { lia. }
  { reflexivity. }
  exists k. split; [exact Hk|]. apply Hinf. rewrite Hl.
  vm_compute in Hk. injection Hk as <-. reflexivity.
Defined.

(** ** Sums over the parts of a table *)

Lemma series_sum_cases (col : list cell) :
  series_sum col = if has_text col then raise TypeError else ret (skip_sum col).
Proof.
  induction col as [|c col IH]; [reflexivity|].
  destruct c as [|q|s]; simpl.
  - exact IH.
  - rewrite IH. unfold has_text. destruct (existsb _ col); reflexivity.
  - reflexivity.
Qed.

Lemma skip_sum_total (c : numcol) (df : DataFrame) :
  skip_sum (map (get_num c) df) == total c df.
Proof.
  unfold total. induction df as [|r df IH]; simpl; [reflexivity|].
  destruct (get_num c r) as [|q|s]; simpl; rewrite IH; ring.
Qed.

Lemma has_text_filter (c : numcol) (p : Row -> bool) (df : DataFrame) :
  has_text (map (get_num c) df) = false ->
  has_text (map (get_num c) (filter p df)) = false.
Proof.
  unfold has_text. induction df as [|r df IH]; simpl; [reflexivity|].
  intros H. apply orb_false_iff in H. destruct H as [H1 H2].
  destruct (p r); simpl; [rewrite H1|]; auto.
Qed.

Lemma qsum_ext (A : Type) (f g : A -> Q) (l : list A) :
  (forall x, In x l -> f x == g x) ->
  qsum (map f l) == qsum (map g l).
Proof.
  induction l as [|x l IH]; intros H; simpl; [reflexivity|].
  rewrite (H x (or_introl eq_refl)), IH; [reflexivity|].
  intros y Hy. apply H. right. exact Hy.
Qed.

Lemma qsum_plus (A : Type) (f g : A -> Q) (l : list A) :
  qsum (map (fun x => f x + g x) l) == qsum (map f l) + qsum (map g l).
Proof.
  induction l as [|x l IH]; simpl; [ring | rewrite IH; ring].
Qed.

(** Two tests that no row passes together split a sum. *)
Lemma sum_over_disjoint (f : Row -> Q) (p q : Row -> bool) (df : DataFrame) :
  (forall r, In r df -> p r = true -> q r = false) ->
  sum_over f (filter (fun r => p r || q r) df)
  == sum_over f (filter p df) + sum_over f (filter q df).
Proof.
  unfold sum_over. induction df as [|r df IH]; intros H; simpl; [ring|].
  assert (IH' := IH (fun x Hx => H x (or_intror Hx))).
  destruct (p r) eqn:Hp; simpl.
  - rewrite (H r (or_introl eq_refl) Hp). simpl. rewrite IH'. ring.
  - destruct (q r); simpl; rewrite IH'; ring.
Qed.

Lemma sum_over_split (f : Row -> Q) (p : Row -> bool) (df : DataFrame) :
  sum_over f df
  == sum_over f (filter p df) + sum_over f (filter (fun r => negb (p r)) df).
Proof.
  unfold sum_over. induction df as [|r df IH]; simpl; [ring|].
  destruct (p r); simpl; rewrite IH; ring.
Qed.

Lemma filter_ext_in_rows (p q : Row -> bool) (df : DataFrame) :
  (forall r, In r df -> p r = q r) -> filter p df = filter q df.
Proof.
  induction df as [|r df IH]; intros H; simpl; [reflexivity|].
  rewrite (H r (or_introl eq_refl)), IH; [reflexivity|].
  intros x Hx. apply H. right. exact Hx.
Qed.

(** The sums of the groups of distinct keys add up to the sum of the rows
    that carry one of the keys. *)
Lemma sum_over_groups (f : Row -> Q) (key : Row -> text) (keys : list string)
    (df : DataFrame) :
  NoDup keys ->
  qsum (map (fun k => sum_over f (filter (has_key key k) df)) keys)
  == sum_over f (filter (fun r => isin keys (key r)) df).
Proof.
  induction 1 as [|k keys Hk Hnd IH]; simpl.
  - unfold sum_over. rewrite (@filter_ext_in_rows _ (fun _ => false)).
    + induction df as [|r df IHdf]; simpl; [reflexivity | exact IHdf].
    + intros r _. unfold isin. destruct (key r); reflexivity.
  - rewrite IH.
    rewrite (@filter_ext_in_rows (fun r => isin (k :: keys) (key r))
               (fun r => has_key key k r || isin keys (key r))).
    + rewrite sum_over_disjoint; [reflexivity|].
      intros r _ Hp. unfold has_key, text_eqb, isin in *.
      destruct (key r) as [x|]; [|discriminate].
      apply String.eqb_eq in Hp. subst x.
      destruct (existsb (String.eqb k) keys) eqn:He; [|reflexivity].
      apply existsb_exists in He. destruct He as [y [Hy Heq]].
      apply String.eqb_eq in Heq. subst y. contradiction.
    + intros r _. unfold has_key, text_eqb, isin.
      destruct (key r); reflexivity.
Qed.

Lemma insert_sorted_perm (s : string) (l : list string) :
  Permutation (insert_sorted s l) (s :: l).
Proof.
  induction l as [|x l IH]; simpl; [reflexivity|].
  destruct (String.leb s x); [reflexivity|].
  rewrite IH. apply perm_swap.
Qed.

Lemma sort_strings_perm (l : list string) : Permutation (sort_strings l) l.
Proof.
  induction l as [|x l IH]; simpl; [reflexivity|].
  rewrite insert_sorted_perm. constructor. exact IH.
Qed.

Lemma group_keys_NoDup (col : list text) : NoDup (group_keys col).
Proof.
  unfold group_keys.
  eapply Permutation_NoDup; [symmetry; apply sort_strings_perm|].
  apply NoDup_nodup.
Qed.

Lemma group_keys_In (col : list text) (k : string) :
  In k (group_keys col) <-> In (Some k) col.
Proof.
  unfold group_keys. split; intros H.
  - apply non_null_In. apply (nodup_In string_dec).
    exact (Permutation_in _ (sort_strings_perm _) H).
  - apply non_null_In in H. apply (nodup_In string_dec) in H.
    exact (Permutation_in _ (Permutation_sym (sort_strings_perm _)) H).
Qed.

(** Every row with a key is in the group of its key. *)
Lemma isin_group_keys (key : Row -> text) (df : DataFrame) (r : Row) :
  In r df ->
  isin (group_keys (map key df)) (key r) = negb (no_key key r).
Proof.
  intros Hin. unfold isin, no_key. destruct (key r) as [k|] eqn:Hk; [|reflexivity].
  simpl. apply existsb_exists. exists k. split; [|apply String.eqb_refl].
  apply group_keys_In. rewrite <- Hk. apply in_map, Hin.
Qed.

Lemma qsum_app (l1 l2 : list Q) : qsum (l1 ++ l2) == qsum l1 + qsum l2.
Proof.
  unfold qsum. induction l1 as [|x l1 IH]; simpl; [ring | rewrite IH; ring].
Qed.

Lemma total_as_sum_over (c : numcol) (df : DataFrame) :
  total c df = sum_over (fun r => cell_value (get_num c r)) df.
Proof. reflexivity. Qed.

(** The group sums of [groupby] add up to the sum of the rows that have a
    key, or of all rows with [dropna=False]. *)
Lemma groupby_total (c : numcol) (key : Row -> text) (dropna : bool)
    (df : DataFrame) :
  qsum (map (fun kg => total c (snd kg)) (groupby key dropna df))
  == if dropna then total c (filter (fun r => negb (no_key key r)) df)
     else total c df.
Proof.
  set (f := fun r : Row => cell_value (get_num c r)).
  pose proof (sum_over_groups f key df (group_keys_NoDup (map key df))) as H1.
  rewrite (@filter_ext_in_rows _ (fun r => negb (no_key key r)) df) in H1
    by (intros r Hr; apply isin_group_keys, Hr).
  pose proof (sum_over_split f (fun r => negb (no_key key r)) df) as H2.
  cbv beta in H2.
  rewrite (@filter_ext_in_rows (fun r => negb (negb (no_key key r)))
             (no_key key) df) in H2
    by (intros r _; apply negb_involutive).
  unfold groupby. rewrite map_app, qsum_app, map_map. cbn [snd].
  change (fun x : string => total c (filter (has_key key x) df))
    with (fun k : string => sum_over f (filter (has_key key k) df)).
  rewrite H1.
  change (total c df) with (sum_over f df).
  change (total c (filter (fun r => negb (no_key key r)) df))
    with (sum_over f (filter (fun r => negb (no_key key r)) df)).
  destruct dropna.
  - simpl. ring.
  - rewrite H2.
    destruct (filter (no_key key) df) as [|g gs]; simpl.
    + unfold sum_over, f. simpl. ring.
    + unfold total, sum_over, f. simpl. rewrite Qplus_0_r. reflexivity.
Qed.

Lemma groupby_text_free (c : numcol) (key : Row -> text) (dropna : bool)
    (df : DataFrame) (k : text) (g : DataFrame) :
  has_text (map (get_num c) df) = false ->
  In (k, g) (groupby key dropna df) ->
  has_text (map (get_num c) g) = false.
Proof.
  intros Hdf Hin. unfold groupby in Hin. apply in_app_or in Hin.
  destruct Hin as [Hin | Hin].
  - apply in_map_iff in Hin. destruct Hin as [x [Hx _]].
    injection Hx as _ <-. apply has_text_filter, Hdf.
  - destruct dropna; [contradiction|].
    pose proof (has_text_filter c (no_key key) df Hdf) as Hf.
    destruct (filter (no_key key) df) as [|y ys]; [contradiction|].
    destruct Hin as [Hin | []]. injection Hin as _ <-. exact Hf.
Qed.

Lemma agg_sum_count_run (c : numcol) (groups : list (text * DataFrame)) :
  (forall k g, In (k, g) groups -> has_text (map (get_num c) g) = false) ->
  agg_sum_count c groups
  = ret (map (fun kg => (fst kg, skip_sum (map (get_num c) (snd kg)),
                         series_count (map (@voucher_no _) (snd kg))))
             groups).
Proof.
  induction groups as [|[k g] groups IH]; intros H; [reflexivity|].
  cbn [agg_sum_count map fst snd].
  rewrite series_sum_cases, (H k g (or_introl eq_refl)), bind_ret_l.
  rewrite IH by (intros k' g' Hin; apply (H k' g'); right; exact Hin).
  rewrite bind_ret_l. reflexivity.
Qed.

Lemma groupby_keys_NoDup (key : Row -> text) (dropna : bool) (df : DataFrame) :
  NoDup (map fst (groupby key dropna df)).
Proof.
  unfold groupby. rewrite map_app, map_map. cbn [fst].
  assert (Hk : NoDup (map Some (group_keys (map key df)))).
  { apply Finite.Injective_map_NoDup; [|apply group_keys_NoDup].
    intros a b Hab. injection Hab as ->. reflexivity. }
  destruct dropna; [rewrite app_nil_r; exact Hk|].
  destruct (filter (no_key key) df) as [|g gs]; [rewrite app_nil_r; exact Hk|].
  simpl. apply NoDup_app; [exact Hk | repeat constructor; auto |].
  intros x Hx [<- | []]. apply in_map_iff in Hx.
  destruct Hx as [y [Hy _]]. discriminate.
Qed.

Lemma payable_rows_object (df : DataFrame) :
  payable_df df <> [] -> is_object (map (@party_type _) df) = true.
Proof.
  intros Hne. destruct (payable_df df) as [|r l] eqn:Hf; [congruence|].
  assert (Hin : In r (payable_df df)) by (rewrite Hf; left; reflexivity).
  apply payable_df_iff in Hin. destruct Hin as (Hin & Hv & _).
  destruct (party_type r) as [s|] eqn:Hs; [|discriminate].
  exact (is_object_row (@party_type _) df r Hin Hs).
Qed.

Lemma payables_report_run (df : DataFrame) :
  payable_df df <> [] ->
  is_object (map (@status _) df) = true ->
  has_text (map (@amount _) (payable_df df)) = false ->
  outcome_of (payables_report df)
  = Done (Some (mkPayablesView (payable_df df)
                  (skip_sum (map (get_num Amount) (payable_df df)))
                  (map (fun kg => (fst kg,
                                   skip_sum (map (get_num Amount) (snd kg)),
                                   series_count (map (@voucher_no _) (snd kg))))
                       (groupby (@party_name _) false (payable_df df))))).
Proof.
  intros Hne Hobj Htext. unfold payables_report.
  pose proof (@payable_rows_object _ Hne) as Hp.
  destruct df as [|r0 df']; [exfalso; apply Hne; reflexivity|].
  rewrite (str_accessor_object _ Hp), bind_ret_l.
  rewrite (str_accessor_object _ Hobj), bind_ret_l.
  destruct (payable_df (r0 :: df')) as [|r l] eqn:Hsub; [congruence|].
  change (map (@amount _)) with (map (@get_num datetime Amount)) in *.
  rewrite series_sum_cases, Htext, bind_ret_l.
  rewrite agg_sum_count_run
    by (intros k g; apply groupby_text_free; exact Htext).
  rewrite bind_ret_l. reflexivity.
Qed.

(** The page completes only in that case. *)
Lemma payables_report_done (df : DataFrame) (v : PayablesView) :
  outcome_of (payables_report df) = Done (Some v) ->
  payable_df df <> [] /\
  is_object (map (@status _) df) = true /\
  has_text (map (@amount _) (payable_df df)) = false.
Proof.
  unfold payables_report, str_accessor. intros Hv.
  destruct df as [|r0 df']; [discriminate Hv|].
  destruct (is_object (map (@party_type _) (r0 :: df'))) eqn:Hp;
    [|discriminate Hv].
  rewrite bind_ret_l in Hv.
  destruct (is_object (map (@status _) (r0 :: df'))) eqn:Hs;
    [|discriminate Hv].
  rewrite bind_ret_l in Hv.
  destruct (payable_df (r0 :: df')) as [|r l] eqn:Hsub; [discriminate Hv|].
  split; [discriminate|]. split; [reflexivity|].
  destruct (has_text (map (@amount _) (r :: l))) eqn:Htext; [|reflexivity].
  change (map (@amount _)) with (map (@get_num datetime Amount)) in *.
  rewrite series_sum_cases, Htext in Hv. discriminate Hv.
Qed.

(** X14.  The vendor summary of the Payables page accounts for every
    outstanding bill: it has one row per vendor name, plus one for the
    bills without vendor name, and whenever the page completes its
    [total_due] column adds up to the "Total Payable" metric.  The page
    completes when there is an outstanding bill, the [status] column holds
    text and no amount is a text. *)
Theorem payables_vendor_summary_total (df : DataFrame) :
  (forall v,
     outcome_of (payables_report df) = Done (Some v) ->
     summary_total (pv_vendor_summary v) == pv_total_payable v /\
     pv_total_payable v == total Amount (payable_df df) /\
     NoDup (summary_keys (pv_vendor_summary v))) /\
  (payable_df df <> [] ->
   is_object (map (@status _) df) = true ->
   has_text (map (@amount _) (payable_df df)) = false ->
   exists v, outcome_of (payables_report df) = Done (Some v)).
Proof.
  split.
  - intros v Hv.
    destruct (@payables_report_done _ _ Hv) as (Hne & Hobj & Htext).
    rewrite (@payables_report_run _ Hne Hobj Htext) in Hv.
    injection Hv as <-.
    cbn [pv_vendor_summary pv_total_payable].
    unfold summary_total, summary_keys. rewrite !map_map. cbn [fst snd].
    split; [|split].
    + rewrite (qsum_ext _ (fun kg => total Amount (snd kg)))
        by (intros; apply skip_sum_total).
      rewrite (groupby_total Amount (@party_name _) false).
      symmetry. apply (skip_sum_total Amount (payable_df df)).
    + apply (skip_sum_total Amount (payable_df df)).
    + apply groupby_keys_NoDup.
  - intros Hne Hobj Htext. eexists.
    apply (@payables_report_run _ Hne Hobj Htext).
Qed.

Lemma payables_vendor_summary_total_witness :
  exists v,
    outcome_of (payables_report open_bills) = Done (Some v) /\
    summary_keys (pv_vendor_summary v)
    = [Some "Alpha Tools"; Some "Zeta Steel"; None]%string /\
    summary_total (pv_vendor_summary v) == pv_total_payable v.
Proof.
  destruct (payables_vendor_summary_total open_bills) as [Hsum Hrun].
  destruct Hrun as [v Hv]; [discriminate | reflexivity | reflexivity |].
  exists v. split; [exact Hv|].
  split; [|apply (Hsum v Hv)].
  injection Hv as <-. reflexivity.
Defined.

(** ** The Receivables page: overdue amount, aging summary and highlight *)

Lemma overdue_iff_overdue_bucket (d : Z) :
  (0 <? d)%Z = isin overdue_labels (bucket_of_days (Some d)).
Proof.
  rewrite bucket_of_days_edges.
  repeat match goal with
         | |- context [(?a <=? ?b)%Z] => destruct (Z.leb_spec a b)
         end;
    destruct (Z.ltb_spec 0 d); try reflexivity; lia.
Qed.

Lemma bucketed_iff_due (d : Z) :
  isin aging_labels (bucket_of_days (Some d)) = negb (d <=? -1)%Z.
Proof.
  rewrite bucket_of_days_edges.
  repeat match goal with
         | |- context [(?a <=? ?b)%Z] => destruct (Z.leb_spec a b)
         end; try reflexivity; lia.
Qed.

Lemma is_overdue_bucket (today : Timestamp) (r : Row) :
  is_overdue today r = isin overdue_labels (aging_bucket today r).
Proof.
  unfold is_overdue, aging_bucket. destruct (days_overdue today r) as [d|].
  - apply overdue_iff_overdue_bucket.
  - reflexivity.
Qed.

Lemma unbucketed_iff (today : Timestamp) (r : Row) :
  aging_bucket today r = None <->
  due_date r = None \/
  exists d, days_overdue today r = Some d /\ (d < 0)%Z.
Proof.
  unfold aging_bucket, days_overdue.
  destruct (due_date r) as [due|]; cbn [option_map].
  - pose proof (bucketed_iff_due (timedelta_days today due)) as H.
    split.
    + intros Hb. right. eexists. split; [reflexivity|].
      rewrite Hb in H. cbn [isin] in H.
      destruct (Z.leb_spec (timedelta_days today due) (-1)); [lia | discriminate].
    + intros [Hd | [d [Hd Hneg]]]; [discriminate|].
      injection Hd as <-.
      destruct (bucket_of_days (Some (timedelta_days today due))) eqn:Hb;
        [|reflexivity].
      destruct (Z.leb_spec (timedelta_days today due) (-1)); [|lia].
      rewrite bucket_of_days_edges in Hb.
      destruct (Z.leb_spec (timedelta_days today due) (-1)); [discriminate | lia].
  - split; [auto | reflexivity].
Qed.

Lemma aging_summary_run (today : Timestamp) (labels : list string)
    (sub : DataFrame) :
  has_text (map (get_num Amount) sub) = false ->
  aging_summary today labels sub
  = ret (map (fun lab =>
                (lab,
                 skip_sum (map (get_num Amount) (bucket_rows today lab sub)),
                 series_count (map (@voucher_no _) (bucket_rows today lab sub))))
             labels).
Proof.
  intros Htext. induction labels as [|lab labels IH]; [reflexivity|].
  cbn [aging_summary map].
  change (map (@amount _)) with (map (@get_num datetime Amount)).
  rewrite series_sum_cases.
  unfold bucket_rows at 1. rewrite (has_text_filter _ _ _ Htext), bind_ret_l.
  rewrite IH, bind_ret_l. reflexivity.
Qed.

Lemma receivables_done (df : DataFrame) (today : Timestamp)
    (v : ReceivablesView) :
  outcome_of (receivables df today) = Done v ->
  exists sub,
    receivable_df df = ret sub /\
    has_text (map (get_num Amount) sub) = false /\
    v = mkReceivablesView sub
          (skip_sum (map (get_num Amount) sub))
          (skip_sum (map (get_num Amount) (filter (is_overdue today) sub)))
          (map (fun lab =>
                  (lab,
                   skip_sum (map (get_num Amount) (bucket_rows today lab sub)),
                   series_count (map (@voucher_no _) (bucket_rows today lab sub))))
               aging_labels).
Proof.
  intros Hv. unfold receivables in Hv.
  destruct df as [|r00 df']; [discriminate Hv|].
  assert (Hcases : (exists ex, receivable_df (r00 :: df') = raise ex)
                   \/ exists sub, receivable_df (r00 :: df') = ret sub).
  { unfold receivable_df, str_accessor.
    destruct (is_object (map (@party_type _) (r00 :: df')));
      [|left; eexists; reflexivity].
    rewrite bind_ret_l.
    destruct (is_object (map (@status _) (r00 :: df')));
      [|left; eexists; reflexivity].
    rewrite bind_ret_l.
    destruct (existsb _ (r00 :: df')); eauto. }
  destruct Hcases as [[ex Hr] | [sub Hr]]; rewrite Hr in Hv;
    [discriminate Hv|].
  rewrite bind_ret_l in Hv. exists sub. split; [exact Hr|].
  destruct sub as [|r0 sub']; [discriminate Hv|].
  cbv beta iota in Hv.
  change (map (@amount _)) with (map (@get_num datetime Amount)) in Hv.
  rewrite !series_sum_cases in Hv.
  destruct (has_text (map (get_num Amount) (r0 :: sub'))) eqn:Htext;
    [discriminate Hv|].
  rewrite (has_text_filter _ _ _ Htext) in Hv.
  rewrite !bind_ret_l in Hv.
  rewrite (aging_summary_run today aging_labels (r0 :: sub') Htext) in Hv.
  rewrite bind_ret_l in Hv. injection Hv as <-.
  split; reflexivity.
Qed.

(** X15.  Whenever the Receivables page completes, its aging summary has
    the five buckets in order, the "Overdue Amount" metric is the sum of
    the four overdue buckets, and the "Total Receivable" metric is the sum
    of the five buckets plus the amounts of the invoices that have no
    bucket: those without due date and those not yet due
    ([days_overdue < 0]).  The summary adds up to the total only when the
    latter amount to nothing. *)
Theorem receivables_aging_totals (df : DataFrame) (today : Timestamp)
    (v : ReceivablesView) :
  outcome_of (receivables df today) = Done v ->
  (exists a0 a1 a2 a3 a4 n0 n1 n2 n3 n4,
     rv_aging_summary v
     = [("Not Due", a0, n0); ("0-30 Days", a1, n1); ("31-60 Days", a2, n2);
        ("61-90 Days", a3, n3); ("90+ Days", a4, n4)]%string /\
     rv_overdue_amount v == a1 + a2 + a3 + a4 /\
     rv_total_receivable v
     == a0 + (a1 + a2 + a3 + a4)
        + total Amount (filter (no_key (aging_bucket today))
                          (rv_receivable_df v))) /\
  (forall r,
     no_key (aging_bucket today) r = true <->
     due_date r = None \/
     exists d, days_overdue today r = Some d /\ (d < 0)%Z).
Proof.
  intros Hv. split.
  2:{ intros r. unfold no_key. rewrite <- unbucketed_iff.
      destruct (aging_bucket today r); split; congruence. }
  destruct (receivables_done _ _ Hv) as (sub & Hsub & Htext & ->).
  cbn [rv_aging_summary rv_overdue_amount rv_total_receivable
       rv_receivable_df].
  unfold aging_labels at 1. cbn [map].
  do 10 eexists. split; [reflexivity|].
  set (f := fun r : Row => cell_value (get_num Amount r)).
  assert (Hb : forall lab,
            skip_sum (map (get_num Amount) (bucket_rows today lab sub))
            == sum_over f (filter (has_key (aging_bucket today) lab) sub)).
  { intros lab. apply (skip_sum_total Amount (bucket_rows today lab sub)). }
  assert (Hover : skip_sum (map (get_num Amount) (filter (is_overdue today) sub))
                  == sum_over f (filter (fun r => isin overdue_labels
                                                    (aging_bucket today r)) sub)).
  { assert (Hf : filter (is_overdue today) sub
                 = filter (fun r => isin overdue_labels (aging_bucket today r)) sub)
      by (apply filter_ext_in_rows; intros r _; apply is_overdue_bucket).
    rewrite <- Hf.
    apply (skip_sum_total Amount (filter (is_overdue today) sub)). }
  assert (H4 := @sum_over_groups f (aging_bucket today) overdue_labels sub).
  assert (H1 := @sum_over_groups f (aging_bucket today) ["Not Due"%string] sub).
  assert (Hnd4 : NoDup overdue_labels).
  { unfold overdue_labels. repeat constructor; simpl; intuition discriminate. }
  assert (Hnd1 : NoDup ["Not Due"%string]) by (repeat constructor; auto).
  specialize (H4 Hnd4). specialize (H1 Hnd1).
  unfold overdue_labels in H4 at 1. cbn [map qsum fold_right] in H4, H1.
  split.
  - rewrite Hover, <- H4, !Hb. ring.
  - rewrite !Hb.
    assert (Htot : skip_sum (map (get_num Amount) sub) == sum_over f sub)
      by apply (skip_sum_total Amount sub).
    rewrite Htot.
    rewrite (sum_over_split f (fun r => isin aging_labels (aging_bucket today r)) sub).
    rewrite (@filter_ext_in_rows
               (fun r => negb (isin aging_labels (aging_bucket today r)))
               (no_key (aging_bucket today)) sub).
    2:{ intros r _. unfold no_key, aging_bucket.
        destruct (days_overdue today r) as [d|]; [|reflexivity].
        rewrite bucketed_iff_due, bucket_of_days_edges.
        destruct (Z.leb_spec d (-1)); [reflexivity|].
        repeat match goal with
               | |- context [(?a <=? ?b)%Z] => destruct (Z.leb_spec a b)
               end; reflexivity. }
    rewrite (@filter_ext_in_rows
               (fun r => isin aging_labels (aging_bucket today r))
               (fun r => has_key (aging_bucket today) "Not Due" r
                         || isin overdue_labels (aging_bucket today r)) sub).
    2:{ intros r _. unfold has_key, text_eqb, isin, aging_labels, overdue_labels.
        destruct (aging_bucket today r); reflexivity. }
    rewrite sum_over_disjoint.
    2:{ intros r _ Hp. unfold has_key, text_eqb in Hp.
        destruct (aging_bucket today r) as [l|]; [|discriminate].
        apply String.eqb_eq in Hp. subst l. reflexivity. }
    rewrite <- H4.
    change (total Amount (filter (no_key (aging_bucket today)) sub))
      with (sum_over f (filter (no_key (aging_bucket today)) sub)).
    ring.
Qed.

Lemma receivables_aging_totals_witness :
  exists v,
    outcome_of (receivables [invoice_due_tomorrow; overdue_invoice]
                  example_today) = Done v /\
    rv_overdue_amount v == 400 /\
    rv_total_receivable v == 650.
Proof.
  eexists. split; [reflexivity|].
  destruct (@receivables_aging_totals [invoice_due_tomorrow; overdue_invoice]
              example_today _ eq_refl) as [_ _].
  split; reflexivity.
Defined.

(** X16.  In the detailed list of the Receivables page the colour of a row
    goes with its aging bucket: pink for "90+ Days", orange for
    "61-90 Days", yellow for "31-60 Days", green for "0-30 Days", and no
    colour for a row that is "Not Due" or has no bucket.  The thresholds of
    [highlight_overdue] are the bin edges of [pd.cut]. *)
Theorem receivables_highlight_matches_bucket (today : Timestamp) (r : Row) :
  receivables_highlight (days_overdue today r)
  = bucket_colour (aging_bucket today r) /\
  (receivables_highlight (days_overdue today r) = ""%string <->
   is_overdue today r = false).
Proof.
  unfold aging_bucket, is_overdue.
  destruct (days_overdue today r) as [d|]; [|split; [reflexivity | tauto]].
  rewrite bucket_of_days_edges. unfold receivables_highlight.
  repeat match goal with
         | |- context [(?a <=? ?b)%Z] => destruct (Z.leb_spec a b)
         | |- context [(?a <? ?b)%Z] => destruct (Z.ltb_spec a b)
         end; try lia; (split; [reflexivity|]);
  split; intros Hx; try reflexivity; try discriminate Hx.
Qed.

(** X17.  Payables and Receivables date "overdue" differently.  The
    Payables list highlights a bill as soon as its due timestamp lies
    before now; the Receivables page counts an invoice as overdue only when
    [days_overdue], the whole days elapsed, is positive.  So every row that
    is overdue by the Receivables test is highlighted by the Payables one,
    and a highlighted row has [days_overdue >= 0]: a row that fell due
    earlier today is highlighted on Payables and "Not Due" on
    Receivables. *)
Theorem payables_highlight_vs_overdue (today : Timestamp) (r : Row) :
  (is_overdue today r = true ->
   payables_highlight today r = "background-color: #ffcccc"%string) /\
  (payables_highlight today r = "background-color: #ffcccc"%string <->
   exists due, due_date r = Some due /\ (ts_nanos due < ts_nanos today)%Z) /\
  (payables_highlight today r = "background-color: #ffcccc"%string ->
   exists d, days_overdue today r = Some d /\ (0 <= d)%Z) /\
  (forall due, due_date r = Some due ->
     (ts_nanos due < ts_nanos today < ts_nanos due + NS_PER_DAY)%Z ->
     payables_highlight today r = "background-color: #ffcccc"%string /\
     aging_bucket today r = Some "Not Due"%string).
Proof.
  unfold is_overdue, payables_highlight, aging_bucket, days_overdue,
    timedelta_days, ts_ltb.
  destruct (due_date r) as [due|]; cbn [option_map].
  - destruct (Z.ltb_spec (ts_nanos due) (ts_nanos today)) as [Hlt | Hge].
    + split; [reflexivity|]. split.
      { split; [intros _; exists due; auto | reflexivity]. }
      split.
      { intros _. eexists. split; [reflexivity|].
        unfold NS_PER_DAY. apply Z.div_pos; lia. }
      intros due' Hd [H1 H2]. injection Hd as <-. split; [reflexivity|].
      rewrite bucket_of_days_edges.
      assert (Hz : ((ts_nanos today - ts_nanos due) / NS_PER_DAY = 0)%Z)
        by (apply Z.div_small; lia).
      rewrite Hz. reflexivity.
    + split.
      { intros H. apply Z.ltb_lt in H.
        assert ((ts_nanos today - ts_nanos due) / NS_PER_DAY <= 0)%Z; [|lia].
        unfold NS_PER_DAY.
        apply Z.div_le_upper_bound; lia. }
      split.
      { split; [discriminate|]. intros [d [Hd Hlt]]. injection Hd as <-. lia. }
      split; [discriminate|].
      intros due' Hd [H1 H2]. injection Hd as <-. lia.
  - split; [discriminate|]. split.
    { split; [discriminate | intros [d [Hd _]]; discriminate]. }
    split; [discriminate|]. intros due Hd. discriminate.
Qed.

Lemma payables_highlight_vs_overdue_witness :
  payables_highlight example_today overdue_invoice
  = "background-color: #ffcccc"%string.
Proof.
  apply (proj1 (@payables_highlight_vs_overdue example_today overdue_invoice)).
  reflexivity.
Defined.

(** ** The Liability page *)

Lemma sum_over_filter (f : Row -> Q) (p : Row -> bool) (df : DataFrame) :
  sum_over f (filter p df) == sum_over (fun r => if p r then f r else 0) df.
Proof.
  unfold sum_over. induction df as [|r df IH]; simpl; [reflexivity|].
  destruct (p r); simpl; rewrite IH; ring.
Qed.

Lemma filter_comm_rows (p q : Row -> bool) (df : DataFrame) :
  filter p (filter q df) = filter q (filter p df).
Proof.
  induction df as [|r df IH]; simpl; [reflexivity|].
  destruct (p r) eqn:Hp, (q r) eqn:Hq; simpl; rewrite ?Hp, ?Hq, IH; reflexivity.
Qed.

Section LiabilityFacts.

Variable parse_number : string -> option Q.

Lemma liability_agg_run (groups : list (text * DataFrame)) :
  (forall k g, In (k, g) groups -> numeric_col Amount g) ->
  liability_agg groups
  = ret (map (fun kg =>
                mkPartyLiability (fst kg) (total Amount (snd kg))
                  (total Amount (filter not_paid (snd kg)))
                  (series_count (map (@voucher_no _) (snd kg))))
             groups).
Proof.
  induction groups as [|[k g] groups IH]; intros H; [reflexivity|].
  cbn [liability_agg map fst snd].
  change (map (@amount _)) with (map (@get_num datetime Amount)).
  pose proof (H k g (or_introl eq_refl)) as Hg.
  rewrite !series_sum_numeric by (try apply numeric_col_filter; exact Hg).
  rewrite !bind_ret_l.
  rewrite IH by (intros k' g' Hin; apply (H k' g'); right; exact Hin).
  rewrite bind_ret_l. reflexivity.
Qed.

Lemma groupby_numeric (c : numcol) (key : Row -> text) (dropna : bool)
    (df : DataFrame) (k : text) (g : DataFrame) :
  numeric_col c df -> In (k, g) (groupby key dropna df) -> numeric_col c g.
Proof.
  intros Hdf Hin. unfold groupby in Hin. apply in_app_or in Hin.
  destruct Hin as [Hin | Hin].
  - apply in_map_iff in Hin. destruct Hin as [x [Hx _]].
    injection Hx as _ <-. apply numeric_col_filter, Hdf.
  - destruct dropna; [contradiction|].
    pose proof (numeric_col_filter (no_key key) Hdf) as Hf.
    destruct (filter (no_key key) df) as [|y ys]; [contradiction|].
    destruct Hin as [Hin | []]. injection Hin as _ <-. exact Hf.
Qed.

Lemma liability_run (df0 : DataFrame) (date_range : list date) :
  liability_ready parse_number df0 ->
  let L := apply_date_range (@due_date _) date_range
             (liability_rows parse_number df0) in
  outcome_of (liability parse_number df0 date_range)
  = Done (Some (mkLiabilityView L (total Amount L)
                  (total Amount (filter not_paid L))
                  (total Amount L - total Amount (filter not_paid L))
                  (map (fun kg =>
                          mkPartyLiability (fst kg) (total Amount (snd kg))
                            (total Amount (filter not_paid (snd kg)))
                            (series_count (map (@voucher_no _) (snd kg))))
                       (groupby (@party_name _) true L)))).
Proof.
  unfold liability_ready, liability_rows, object_columns.
  intros [Hobj Hready]. cbv zeta.
  apply Forall_cons_iff in Hobj. destruct Hobj as [H1 Hobj].
  apply Forall_cons_iff in Hobj. destruct Hobj as [H2 Hobj].
  apply Forall_cons_iff in Hobj. destruct Hobj as [H3 Hobj].
  apply Forall_cons_iff in Hobj. destruct Hobj as [H4 _].
  unfold liability.
  destruct df0 as [|r0 df0']; [exfalso; apply Hready; reflexivity|].
  rewrite (@str_guard_coerced parse_number _ (@account_head _))
    by (other_column || exact H1).
  rewrite (@str_guard_coerced parse_number _ (@sub_category _))
    by (other_column || exact H2).
  rewrite (@str_guard_coerced parse_number _ (@party_type _))
    by (other_column || exact H3).
  rewrite (map_coerce_cols parse_number (@status _)) by other_column.
  rewrite (str_accessor_object _ H4).
  set (df := coerce_cols parse_number [Amount] (r0 :: df0')) in *.
  assert (Hnum : forall dr, numeric_col Amount
              (apply_date_range (@due_date _) dr (filter is_liability df))).
  { intros dr. apply numeric_col_apply_date_range, numeric_col_filter,
      numeric_col_coerce. left. reflexivity. }
  destruct (filter is_liability df) as [|r l];
    [exfalso; apply Hready; reflexivity|].
  unfold series_min_date, series_max_date.
  destruct (non_null (map (@due_date _) (r :: l))) as [|t ts];
    [exfalso; apply Hready; reflexivity|].
  rewrite !bind_ret_l.
  change (map (@amount _)) with (map (@get_num datetime Amount)).
  rewrite !series_sum_numeric
    by (try apply numeric_col_filter; apply Hnum).
  rewrite !bind_ret_l, !outcome_bind_emit.
  rewrite liability_agg_run
    by (intros k g; apply groupby_numeric, Hnum).
  rewrite bind_ret_l. reflexivity.
Qed.

End LiabilityFacts.

(** X18.  The metrics of the Liability page, when the page gets to them (its
    text columns hold text, some liability row has a due date). "Overdue
    Liabilities" is the sum of all liability rows of the range whose status
    is not "paid" (case ignored), whether they are due or not; "Outstanding
    Liabilities", the total minus that sum, is therefore the amount of the
    rows that are marked paid. *)
Theorem liability_outstanding_is_paid (parse_number : string -> option Q)
    (df0 : DataFrame) (date_range : list date) :
  liability_ready parse_number df0 ->
  exists v,
    outcome_of (liability parse_number df0 date_range) = Done (Some v) /\
    lv_liability_df v
    = apply_date_range (@due_date _) date_range
        (liability_rows parse_number df0) /\
    lv_total_liabilities v = total Amount (lv_liability_df v) /\
    lv_overdue_liabilities v
    = total Amount (filter (fun r => negb (is_paid r)) (lv_liability_df v)) /\
    lv_outstanding v == total Amount (filter is_paid (lv_liability_df v)).
Proof.
  intros Hready. eexists. split; [apply liability_run, Hready|].
  cbn [lv_liability_df lv_total_liabilities lv_overdue_liabilities
       lv_outstanding].
  split; [reflexivity|]. split; [reflexivity|]. split; [reflexivity|].
  set (L := apply_date_range _ _ _).
  rewrite !total_as_sum_over.
  rewrite (sum_over_split _ is_paid L).
  change not_paid with (fun r => negb (is_paid r)). ring.
Qed.

Lemma liability_outstanding_is_paid_witness :
  exists v,
    outcome_of (liability no_parse loans []) = Done (Some v) /\
    lv_outstanding v == 1000.
Proof.
  destruct (@liability_outstanding_is_paid no_parse loans [])
    as (v & Hv & Hdf & _ & _ & Hout);
    [split; [repeat constructor | discriminate]|].
  exists v. split; [exact Hv|]. rewrite Hout, Hdf. reflexivity.
Defined.

(** X19.  The party summary of the Liability page, when the page gets to it
    (as for the metrics), has one row per party name and leaves out the
    liability rows without party name: its [total_amount] column adds up to
    the "Total Liabilities" metric less the amounts of those rows, and its
    [overdue_amount] column to the "Overdue Liabilities" metric less their
    unpaid amounts. *)
Theorem liability_party_summary (parse_number : string -> option Q)
    (df0 : DataFrame) (date_range : list date) :
  liability_ready parse_number df0 ->
  exists v,
    outcome_of (liability parse_number df0 date_range) = Done (Some v) /\
    NoDup (map pl_party_name (lv_party_summary v)) /\
    (forall p, In p (lv_party_summary v) -> pl_party_name p <> None) /\
    qsum (map pl_total_amount (lv_party_summary v))
    == lv_total_liabilities v
       - total Amount (filter (no_key (@party_name _)) (lv_liability_df v)) /\
    qsum (map pl_overdue_amount (lv_party_summary v))
    == lv_overdue_liabilities v
       - total Amount (filter not_paid
                         (filter (no_key (@party_name _)) (lv_liability_df v))).
Proof.
  intros Hready. eexists. split; [apply liability_run, Hready|].
  cbn [lv_liability_df lv_total_liabilities lv_overdue_liabilities
       lv_party_summary].
  set (L := apply_date_range _ _ _).
  rewrite !map_map. cbn [pl_party_name pl_total_amount pl_overdue_amount].
  split; [apply groupby_keys_NoDup|]. split.
  { intros p Hp. apply in_map_iff in Hp. destruct Hp as [[k g] [<- Hin]].
    cbn [pl_party_name fst]. unfold groupby in Hin. rewrite app_nil_r in Hin.
    apply in_map_iff in Hin. destruct Hin as [x [Hx _]]. congruence. }
  split.
  - rewrite (groupby_total Amount (@party_name _) true L).
    rewrite !total_as_sum_over.
    rewrite (sum_over_split _ (fun r => negb (no_key (@party_name _) r)) L).
    rewrite (@filter_ext_in_rows
               (fun r => negb (negb (no_key (@party_name _) r)))
               (no_key (@party_name _)) L)
      by (intros r _; apply negb_involutive).
    ring.
  - set (f := fun r : Row => if not_paid r
                             then cell_value (get_num Amount r) else 0).
    rewrite (qsum_ext _ (fun kg => sum_over f (snd kg))).
    2:{ intros kg _. rewrite total_as_sum_over. apply sum_over_filter. }
    unfold groupby. rewrite app_nil_r, map_map. cbn [snd].
    rewrite (sum_over_groups f (@party_name _) L (group_keys_NoDup _)).
    rewrite (@filter_ext_in_rows _ (fun r => negb (no_key (@party_name _) r)) L)
      by (intros r Hr; apply isin_group_keys, Hr).
    assert (Hf : forall X, total Amount (filter not_paid X) == sum_over f X)
      by (intros X; rewrite total_as_sum_over; apply sum_over_filter).
    rewrite !Hf.
    pose proof (sum_over_split f (fun r => negb (no_key (@party_name _) r)) L)
      as Hs.
    cbv beta in Hs.
    rewrite (@filter_ext_in_rows
               (fun r => negb (negb (no_key (@party_name _) r)))
               (no_key (@party_name _)) L) in Hs
      by (intros r _; apply negb_involutive).
    rewrite Hs. ring.
Qed.

Lemma liability_party_summary_witness :
  exists v,
    outcome_of (liability no_parse loans []) = Done (Some v) /\
    map pl_party_name (lv_party_summary v) = [Some "City Bank"%string] /\
    qsum (map pl_total_amount (lv_party_summary v)) == 1400.
Proof.
  assert (Hready : liability_ready no_parse loans)
    by (split; [repeat constructor | discriminate]).
  destruct (@liability_party_summary no_parse loans [] Hready)
    as (v & Hv & _ & _ & Hsum & _).
  exists v. split; [exact Hv|].
  assert (Hrun := @liability_run no_parse loans [] Hready).
  rewrite Hrun in Hv. injection Hv as <-.
  split; reflexivity.
Defined.

(** ** The Income page *)

Lemma idxmax_none (l : list (text * Q)) : idxmax l = None <-> l = [].
Proof.
  destruct l as [|[k v] l]; simpl; [tauto|].
  split; [|discriminate].
  destruct (idxmax l) as [[k' v']|]; [|discriminate].
  destruct (Qle_bool v' v); discriminate.
Qed.

Lemma idxmax_spec (l : list (text * Q)) (k : text) (v : Q) :
  idxmax l = Some (k, v) ->
  In (k, v) l /\ forall k' v', In (k', v') l -> v' <= v.
Proof.
  revert k v. induction l as [|[k0 v0] l IH]; intros k v H; [discriminate|].
  simpl in H. destruct (idxmax l) as [[k1 v1]|] eqn:Hl.
  - destruct (IH k1 v1 eq_refl) as [Hin Hmax].
    destruct (Qle_bool v1 v0) eqn:Hle; injection H as <- <-.
    + apply Qle_bool_iff in Hle. split; [left; reflexivity|].
      intros k' v' [Heq | Hin'].
      * injection Heq as _ <-. apply Qle_refl.
      * apply Qle_trans with v1; [apply (Hmax k' v' Hin') | exact Hle].
    + split; [right; exact Hin|].
      intros k' v' [Heq | Hin'].
      * injection Heq as _ <-.
        apply Qlt_le_weak, Qnot_le_lt. intros Hc.
        apply Qle_bool_iff in Hc. congruence.
      * apply (Hmax k' v' Hin').
  - injection H as <- <-. apply idxmax_none in Hl. subst l.
    split; [left; reflexivity|].
    intros k' v' [Heq | []]. injection Heq as _ <-. apply Qle_refl.
Qed.

Section IncomeFacts.

Variable parse_number : string -> option Q.

Lemma group_sums_run (groups : list (text * DataFrame)) :
  (forall k g, In (k, g) groups -> numeric_col Amount g) ->
  group_sums Amount groups
  = ret (map (fun kg => (fst kg, total Amount (snd kg))) groups).
Proof.
  induction groups as [|[k g] groups IH]; intros H; [reflexivity|].
  cbn [group_sums map fst snd].
  rewrite series_sum_numeric by (apply (H k g); left; reflexivity).
  rewrite bind_ret_l.
  rewrite IH by (intros k' g' Hin; apply (H k' g'); right; exact Hin).
  rewrite bind_ret_l. reflexivity.
Qed.

Lemma income_run (df0 : DataFrame) (date_range : list date)
    (method_filter account_filter : list string) :
  income_ready parse_number df0 ->
  let I := income_selected parse_number df0 date_range
             method_filter account_filter in
  income parse_number df0 date_range method_filter account_filter
  = match idxmax (map (fun kg => (fst kg, total Amount (snd kg)))
                      (groupby (@party_name _) true I)) with
    | None => ([], Raised ValueError)
    | Some (p, a) => ([], Done (Some (mkIncomeView I (total Amount I) p a)))
    end.
Proof.
  unfold income_ready, income_selected, income_rows, object_columns.
  intros [Hobj Hready]. cbv zeta.
  apply Forall_cons_iff in Hobj. destruct Hobj as [H1 Hobj].
  apply Forall_cons_iff in Hobj. destruct Hobj as [H2 Hobj].
  apply Forall_cons_iff in Hobj. destruct Hobj as [H3 _].
  unfold income.
  destruct df0 as [|r0 df0']; [exfalso; apply Hready; reflexivity|].
  rewrite (@str_guard_coerced parse_number _ (@account_head _))
    by (other_column || exact H1).
  rewrite (@str_guard_coerced parse_number _ (@category _))
    by (other_column || exact H2).
  rewrite (@str_guard_coerced parse_number _ (@sub_category _))
    by (other_column || exact H3).
  set (df := coerce_cols parse_number [Amount] (r0 :: df0')) in *.
  assert (Hnum0 : numeric_col Amount (filter is_income df)).
  { apply numeric_col_filter, numeric_col_coerce. left. reflexivity. }
  destruct (filter is_income df) as [|r l];
    [exfalso; apply Hready; reflexivity|].
  unfold series_min_date, series_max_date.
  destruct (non_null (map (@payment_date _) (r :: l))) as [|t ts];
    [exfalso; apply Hready; reflexivity|].
  rewrite !bind_ret_l.
  set (I1 := apply_date_range (@payment_date _) date_range (r :: l)).
  assert (Hnum1 : numeric_col Amount I1)
    by (apply numeric_col_apply_date_range, Hnum0).
  set (I2 := match method_filter with [] => I1 | _ => _ end).
  assert (Hnum2 : numeric_col Amount I2).
  { unfold I2. destruct method_filter; [exact Hnum1|].
    apply numeric_col_filter, Hnum1. }
  set (I3 := match account_filter with [] => I2 | _ => _ end).
  assert (Hnum3 : numeric_col Amount I3).
  { unfold I3. destruct account_filter; [exact Hnum2|].
    apply numeric_col_filter, Hnum2. }
  change (map (@amount _)) with (map (@get_num datetime Amount)).
  rewrite (series_sum_numeric Hnum3), bind_ret_l.
  rewrite group_sums_run by (intros k g; apply groupby_numeric, Hnum3).
  rewrite bind_ret_l.
  destruct (idxmax _) as [[p a]|]; reflexivity.
Qed.

End IncomeFacts.

(** X20.  On a ledger whose classification columns hold text and that has a
    dated income row: when the date range and the two multiselects leave no
    income row that has a party name (for instance no row at all), the
    Income page raises ValueError at [idxmax] of the empty party totals, and
    shows no metric. *)
Theorem income_without_party_raises (parse_number : string -> option Q)
    (df0 : DataFrame) (date_range : list date)
    (method_filter account_filter : list string) :
  income_ready parse_number df0 ->
  (forall r, In r (income_selected parse_number df0 date_range
                     method_filter account_filter) ->
             party_name r = None) ->
  income parse_number df0 date_range method_filter account_filter
  = ([], Raised ValueError).
Proof.
  intros Hready Hnone. rewrite income_run by exact Hready.
  set (I := income_selected _ _ _ _ _) in *.
  unfold groupby.
  match goal with
  | |- context [group_keys ?x] => destruct (group_keys x) as [|k ks] eqn:Hg
  end; [reflexivity|].
  exfalso.
  match type of Hg with
  | group_keys ?x = _ => assert (Hin : In k (group_keys x))
                           by (rewrite Hg; left; reflexivity)
  end.
  apply group_keys_In, in_map_iff in Hin. destruct Hin as [r [Hr Hin]].
  rewrite (Hnone r Hin) in Hr. discriminate.
Qed.

Lemma income_without_party_raises_witness :
  income no_parse sales [100; 200]%Z [] [] = ([], Raised ValueError).
Proof.
  apply income_without_party_raises;
    [split; [repeat constructor | discriminate]|].
  intros r Hin. destruct Hin.
Defined.

(** X21.  Otherwise the Income page completes, and its "Top Contributor"
    is a party of the selected income rows whose total, the "Top
    Contribution", is not below the total of any other party; "Total
    Income" is the sum over all selected rows, those without party name
    included. *)
Theorem income_top_contributor (parse_number : string -> option Q)
    (df0 : DataFrame) (date_range : list date)
    (method_filter account_filter : list string) :
  let I := income_selected parse_number df0 date_range
             method_filter account_filter in
  income_ready parse_number df0 ->
  (exists r p, In r I /\ party_name r = Some p) ->
  exists v p,
    outcome_of (income parse_number df0 date_range method_filter account_filter)
    = Done (Some v) /\
    iv_income_df v = I /\
    iv_total_income v = total Amount I /\
    iv_top_party v = Some p /\
    (exists r, In r I /\ party_name r = Some p) /\
    iv_top_amount v = total Amount (filter (has_key (@party_name _) p) I) /\
    (forall r q, In r I -> party_name r = Some q ->
       total Amount (filter (has_key (@party_name _) q) I) <= iv_top_amount v).
Proof.
  intros I Hready [r0 [p0 [Hr0 Hp0]]].
  pose proof (@income_run parse_number df0 date_range method_filter
                account_filter Hready) as Hrun.
  cbv zeta in Hrun. fold I in Hrun.
  set (sums := map (fun kg => (fst kg, total Amount (snd kg)))
                   (groupby (@party_name _) true I)) in *.
  assert (Hsums : forall k a,
            In (k, a) sums <->
            exists p, k = Some p /\ In (Some p) (map (@party_name _) I) /\
                      a = total Amount (filter (has_key (@party_name _) p) I)).
  { intros k a. unfold sums, groupby. rewrite app_nil_r, map_map.
    cbn [fst snd]. rewrite in_map_iff. split.
    - intros [p [Hp Hin]]. injection Hp as <- <-. exists p.
      split; [reflexivity|]. split; [apply group_keys_In, Hin | reflexivity].
    - intros [p [-> [Hin ->]]]. exists p. split; [reflexivity|].
      apply group_keys_In, Hin. }
  destruct (idxmax sums) as [[k a]|] eqn:Hmax.
  - destruct (idxmax_spec _ Hmax) as [Hin Hle].
    apply Hsums in Hin. destruct Hin as [p [-> [Hp ->]]].
    eexists. exists p. rewrite Hrun.
    split; [reflexivity|].
    cbn [iv_income_df iv_total_income iv_top_party iv_top_amount].
    split; [reflexivity|]. split; [reflexivity|]. split; [reflexivity|].
    split.
    { apply in_map_iff in Hp. destruct Hp as [r [Hr Hin]]. exists r. auto. }
    split; [reflexivity|].
    intros r q Hr Hq. apply (Hle (Some q)). apply Hsums. exists q.
    split; [reflexivity|]. split; [|reflexivity].
    rewrite <- Hq. apply in_map, Hr.
  - exfalso. apply idxmax_none in Hmax.
    assert (Hin : In (Some p0, total Amount (filter (has_key (@party_name _) p0) I))
                     sums).
    { apply Hsums. exists p0. split; [reflexivity|]. split; [|reflexivity].
      rewrite <- Hp0. apply in_map, Hr0. }
    rewrite Hmax in Hin. destruct Hin.
Qed.

Lemma income_top_contributor_witness :
  exists v,
    outcome_of (income no_parse sales [] [] []) = Done (Some v) /\
    iv_top_party v = Some "Beta Ltd"%string /\
    iv_top_amount v == 350 /\ iv_total_income v == 1450.
Proof.
  destruct (@income_top_contributor no_parse sales [] [] [])
    as (v & p & Hv & _ & Htot & _).
  { split; [repeat constructor | discriminate]. }
  { exists (sale (Some "Beta Ltd"%string) 5 300), "Beta Ltd"%string.
    split; [left; reflexivity | reflexivity]. }
  exists v. split; [exact Hv|].
  rewrite income_run in Hv by (split; [repeat constructor | discriminate]).
  injection Hv as <-. repeat split; reflexivity.
Defined.

(** ** The Bankbook page *)

(** X22.  The metrics of the Bankbook for a range [[s, e]].  "Total
    Deposit", "Total Withdrawal" and "Net Flow" are sums over all bank rows
    of the ledger, whatever the range (the first two are labelled "All
    Time"); "Total Amount", shown beside them, is the sum over the bank
    rows of the range only.  A row without payment method is no bank
    row. *)
Theorem bankbook_metrics (parse_number : string -> option Q)
    (df0 : DataFrame) (s e : date) :
  bankbook_ready parse_number df0 ->
  let B := bankbook_rows parse_number df0 in
  let D := total BankDeposit B in
  let W := total BankWithdrawal B in
  let A := total Amount (filter_date_range (@payment_date _) s e B) in
  bankbook parse_number df0 [s; e]
  = ([StMetric "Total Deposit" D (DeltaText "All Time");
      StMetric "Total Withdrawal" W (DeltaText "All Time");
      StMetric "Net Flow" (D - W) DeltaNone;
      StMetric "Total Amount" A DeltaNone],
     Done (Some (mkBankbookView (filter_date_range (@payment_date _) s e B)
                   D W (D - W) A))) /\
  (forall r, payment_method r = None -> is_bank_method r = false).
Proof.
  unfold bankbook_ready, bankbook_rows. intros Hready. cbv zeta.
  split; [|intros r Hr; unfold is_bank_method; rewrite Hr; reflexivity].
  unfold bankbook.
  destruct df0 as [|r0 df0']; [exfalso; apply Hready; reflexivity|].
  set (df := coerce_cols parse_number _ (r0 :: df0')) in *.
  assert (Hnum : forall c, numeric_col c (filter is_bank_method df)).
  { intros c. apply numeric_col_filter, numeric_col_coerce.
    destruct c; simpl; auto 6. }
  destruct (filter is_bank_method df) as [|r l];
    [exfalso; apply Hready; reflexivity|].
  unfold series_min_date, series_max_date.
  change (map (@bank_deposit _)) with (map (@get_num datetime BankDeposit)).
  change (map (@bank_withdrawal _))
    with (map (@get_num datetime BankWithdrawal)).
  change (map (@amount _)) with (map (@get_num datetime Amount)).
  rewrite !series_sum_numeric by apply Hnum.
  rewrite !bind_ret_l.
  destruct (non_null (map (@payment_date _) (r :: l))) as [|t ts];
    [exfalso; apply Hready; reflexivity|].
  rewrite !bind_ret_l.
  rewrite (series_sum_numeric
             (numeric_col_apply_date_range (@payment_date _) [s; e]
                (Hnum Amount))).
  reflexivity.
Qed.

Lemma bankbook_metrics_witness :
  log_of (bankbook no_parse transfers [1; 5]%Z)
  = [StMetric "Total Deposit" 500 (DeltaText "All Time");
     StMetric "Total Withdrawal" 120 (DeltaText "All Time");
     StMetric "Net Flow" 380 DeltaNone;
     StMetric "Total Amount" 500 DeltaNone].
Proof.
  destruct (@bankbook_metrics no_parse transfers 1%Z 5%Z) as [H _];
    [discriminate|].
  exact (f_equal (@log_of _) H).
Defined.

(** ** The Expense page *)

Lemma numeric_col_no_text (c : numcol) (df : DataFrame) :
  numeric_col c df -> has_text (map (get_num c) df) = false.
Proof.
  unfold numeric_col, has_text. induction 1 as [|r df [q Hq] _ IH]; simpl;
    [reflexivity|].
  rewrite Hq. exact IH.
Qed.

Section ExpenseFacts.

Variable parse_number : string -> option Q.

Lemma expense_run (df0 : DataFrame) (date_range : list date)
    (party_filter : list string) :
  expense_ready parse_number df0 ->
  let E := apply_date_range (@payment_date _) date_range
             (expense_rows parse_number df0) in
  expense parse_number df0 date_range party_filter
  = ([], Done (Some (mkExpenseView E
        (map (fun kg => (fst kg, skip_sum (map (get_num Credit) (snd kg)),
                         series_count (map (@voucher_no _) (snd kg))))
             (groupby (@sub_category _) true E))
        (group_keys (map (@party_name _) E))
        (filter (fun r => isin party_filter (party_name r)) E)))).
Proof.
  unfold expense_ready, expense_rows, object_columns.
  intros [Hobj Hready]. cbv zeta.
  apply Forall_cons_iff in Hobj. destruct Hobj as [H1 Hobj].
  apply Forall_cons_iff in Hobj. destruct Hobj as [H2 Hobj].
  apply Forall_cons_iff in Hobj. destruct Hobj as [H3 _].
  unfold expense.
  destruct df0 as [|r0 df0']; [exfalso; apply Hready; reflexivity|].
  rewrite (@str_guard_coerced parse_number _ (@account_head _))
    by (other_column || exact H1).
  rewrite (@str_guard_coerced parse_number _ (@category _))
    by (other_column || exact H2).
  rewrite (@str_guard_coerced parse_number _ (@sub_category _))
    by (other_column || exact H3).
  set (df := coerce_cols parse_number [Credit] (r0 :: df0')) in *.
  assert (Hnum0 : numeric_col Credit (filter is_expense df)).
  { apply numeric_col_filter, numeric_col_coerce. left. reflexivity. }
  destruct (filter is_expense df) as [|r l];
    [exfalso; apply Hready; reflexivity|].
  unfold series_min_date, series_max_date.
  destruct (non_null (map (@payment_date _) (r :: l))) as [|t ts];
    [exfalso; apply Hready; reflexivity|].
  rewrite !bind_ret_l.
  set (E := apply_date_range (@payment_date _) date_range (r :: l)).
  assert (Hnum1 : numeric_col Credit E)
    by (apply numeric_col_apply_date_range, Hnum0).
  rewrite agg_sum_count_run
    by (intros k g Hin; apply numeric_col_no_text;
        eapply groupby_numeric; [exact Hnum1 | exact Hin]).
  rewrite bind_ret_l. reflexivity.
Qed.

End ExpenseFacts.

(** X23.  On a ledger whose classification columns hold text and that has a
    dated expense row. The detailed table of the Expense page applies the
    party filter unconditionally. Its options are the party names of the
    expense rows of the range; a row is listed exactly when its party name
    is selected. So with the default selection (every option) the rows
    without party name are left out, and with nothing selected the table is
    empty. The sub-category summary leaves out the rows without sub-category
    in the same way: its totals add up to the credit of the rows that have
    one. *)
Theorem expense_party_filter (parse_number : string -> option Q)
    (df0 : DataFrame) (date_range : list date) (party_filter : list string) :
  expense_ready parse_number df0 ->
  let E := apply_date_range (@payment_date _) date_range
             (expense_rows parse_number df0) in
  exists v,
    expense parse_number df0 date_range party_filter = ([], Done (Some v)) /\
    ev_expense_df v = E /\
    (forall p, In p (ev_party_options v) <->
               exists r, In r E /\ party_name r = Some p) /\
    (forall r, In r (ev_filtered_df v) <->
               In r E /\ exists p, party_name r = Some p /\ In p party_filter) /\
    (party_filter = ev_party_options v ->
     ev_filtered_df v = filter has_party E) /\
    (party_filter = [] -> ev_filtered_df v = []) /\
    NoDup (summary_keys (ev_subcat_summary v)) /\
    summary_total (ev_subcat_summary v)
    == total Credit (filter has_sub_category E).
Proof.
  intros Hready E. eexists. split.
  { apply (@expense_run parse_number df0 date_range party_filter Hready). }
  fold E.
  cbn [ev_expense_df ev_subcat_summary ev_party_options ev_filtered_df].
  split; [reflexivity|]. split; [|split; [|split; [|split; [|split]]]].
  - intros p. rewrite group_keys_In, in_map_iff. split.
    + intros [r [Hp Hr]]. exists r. auto.
    + intros [r [Hr Hp]]. exists r. auto.
  - intros r. rewrite filter_In. unfold isin. split.
    + intros [Hr Hsel]. split; [exact Hr|].
      destruct (party_name r) as [p|]; [|discriminate].
      exists p. split; [reflexivity|].
      apply existsb_exists in Hsel. destruct Hsel as [x [Hx Heq]].
      apply String.eqb_eq in Heq. subst x. exact Hx.
    + intros [Hr [p [Hp Hsel]]]. split; [exact Hr|]. rewrite Hp.
      apply existsb_exists. exists p. split; [exact Hsel|apply String.eqb_refl].
  - intros ->. apply filter_ext_in_rows. intros r Hr.
    apply isin_group_keys, Hr.
  - intros ->. induction E as [|r E' IH]; [reflexivity|].
    simpl. destruct (party_name r); simpl; exact IH.
  - unfold summary_keys. rewrite map_map. cbn [fst snd].
    apply groupby_keys_NoDup.
  - unfold summary_total. rewrite map_map. cbn [fst snd].
    rewrite (qsum_ext _ (fun kg => total Credit (snd kg)))
      by (intros; apply skip_sum_total).
    exact (groupby_total Credit (@sub_category _) true E).
Qed.

Lemma expense_party_filter_witness :
  expense_ready no_parse purchases /\
  exists v,
    expense no_parse purchases [] ["Paper Co"%string; "Fuel Ltd"%string]
    = ([], Done (Some v)) /\
    List.length (ev_expense_df v) = 3%nat /\
    List.length (ev_filtered_df v) = 2%nat.
Proof.
  assert (Hready : expense_ready no_parse purchases)
    by (split; [repeat constructor | discriminate]).
  split; [exact Hready|].
  destruct (@expense_party_filter no_parse purchases []
              ["Paper Co"%string; "Fuel Ltd"%string] Hready)
    as [v [Hrun [HE [_ [Hrows _]]]]].
  exists v. split; [exact Hrun|].
  pose proof (f_equal (@outcome_of _) Hrun) as Ho.
  vm_compute in Ho. injection Ho as Ho. subst v. vm_compute. split; reflexivity.
Defined.

(** ** Missing values: the loader, the coercion loops and the customer
    summary *)

Lemma non_null_nil {A} (col : list (option A)) :
  non_null col = [] <-> forall x, In x col -> x = None.
Proof.
  induction col as [|[a|] col IH]; simpl.
  - split; [intros _ x [] | reflexivity].
  - split; [discriminate|]. intros H. specialize (H (Some a) (or_introl eq_refl)).
    discriminate H.
  - rewrite IH. split.
    + intros H x [<- | Hx]; [reflexivity | apply H, Hx].
    + intros H x Hx. apply H. right. exact Hx.
Qed.

Lemma series_mean_nan (col : list (option Z)) :
  series_mean col = NaN <-> non_null col = [].
Proof.
  unfold series_mean. destruct (non_null col); split; intros H;
    try reflexivity; discriminate H.
Qed.

Lemma customer_agg_done (today : Timestamp) (groups : list (text * DataFrame))
    (l : list CustomerRow) :
  outcome_of (customer_agg today groups) = Done l ->
  l = map (fun kg =>
             mkCustomerRow (fst kg)
               (skip_sum (map (get_num Amount) (snd kg)))
               (series_min (map (@due_date _) (snd kg)))
               (series_count (map (@voucher_no _) (snd kg)))
               (series_mean (map (days_overdue today) (snd kg))))
          groups.
Proof.
  revert l. induction groups as [|[k g] groups IH]; intros l H.
  - injection H as <-. reflexivity.
  - cbn [customer_agg] in H.
    change (map (@amount _)) with (map (@get_num datetime Amount)) in H.
    rewrite series_sum_cases in H.
    destruct (has_text (map (get_num Amount) g)); [discriminate H|].
    rewrite bind_ret_l in H.
    destruct (customer_agg today groups) as [log [l'| |ex]] eqn:E;
      try discriminate H.
    injection H as <-. cbn [map fst snd]. f_equal.
    apply IH. reflexivity.
Qed.

(** The rows of the customer summary: one per party name of the open
    invoices, and the mean of [days_overdue] is NaN exactly for a customer
    none of whose open invoices has a due date. *)
Lemma customer_summary_nan (today : Timestamp) (sub : DataFrame)
    (summary : list CustomerRow) (row : CustomerRow) :
  outcome_of (customer_summary today sub) = Done summary ->
  In row summary ->
  (exists r, In r sub /\ party_name r = cr_party_name row) /\
  (cr_avg_days_overdue row = NaN <->
   forall r, In r sub -> party_name r = cr_party_name row ->
             due_date r = None).
Proof.
  unfold customer_summary. intros Hs Hrow.
  apply customer_agg_done in Hs. subst summary.
  apply in_map_iff in Hrow. destruct Hrow as [[k g] [<- Hin]].
  cbn [cr_party_name cr_avg_days_overdue fst snd].
  unfold groupby in Hin. rewrite app_nil_r in Hin.
  apply in_map_iff in Hin. destruct Hin as [p [Hp Hkeys]].
  injection Hp as <- <-.
  apply group_keys_In, in_map_iff in Hkeys. destruct Hkeys as [r0 [Hr0 Hin0]].
  split; [exists r0; auto|].
  rewrite series_mean_nan, non_null_nil. split.
  - intros H r Hr Hk.
    assert (Hd : days_overdue today r = None).
    { apply H. apply in_map. apply filter_In. split; [exact Hr|].
      unfold has_key. rewrite Hk. apply String.eqb_refl. }
    unfold days_overdue in Hd. destruct (due_date r); [discriminate Hd|reflexivity].
  - intros H x Hx. apply in_map_iff in Hx. destruct Hx as [r [<- Hr]].
    apply filter_In in Hr. destruct Hr as [Hr Hk].
    unfold has_key, text_eqb in Hk.
    destruct (party_name r) as [q|] eqn:Hq; [|discriminate Hk].
    apply String.eqb_eq in Hk. subst q.
    unfold days_overdue. rewrite (H r Hr Hq). reflexivity.
Qed.

(** C2 (counterexample).  A workbook with one open customer invoice, its
    debit and credit cells empty and no due date entered.  The loader
    returns the ledger with the empty debit cell as it is, and the customer
    summary of the Receivables page over this ledger holds NaN as the
    average days overdue (and NaT as the oldest invoice). *)
Lemma loaded_nulls_and_summary_nan :
  exists df,
    load_data no_datetime (Some (Workbook [undated_invoice])) = ret df /\
    (exists r, In r df /\ is_null (get_num Debit r) = true) /\
    ~ loader_leaves_no_null /\
    receivables_customers df example_today
    = ret [mkCustomerRow (Some "Acme"%string) 250 None 1 NaN].
Proof.
  eexists. split; [reflexivity|]. split.
  { eexists. split; [left; reflexivity | reflexivity]. }
  split; [exact load_data_keeps_null_cells | reflexivity].
Qed.

(** C2 (amended).  The loader parses the date columns only and returns
    every numeric cell as read; a missing or unreadable value becomes 0 in
    the coercion loop of a report,
    [pd.to_numeric(..., errors='coerce').fillna(0)], which leaves no
    missing value in the columns it goes over.  A NaN does reach a summary
    table: in the customer summary of the Receivables page the average
    days overdue is NaN for exactly the customers none of whose open
    invoices has a due date. *)
Theorem numeric_columns_after_coercion
    (parse_datetime : string -> option Timestamp)
    (parse_number : string -> option Q)
    (rows : list RawRow) (cols : list numcol) (c : numcol) :
  In c cols ->
  let df := map (parse_dates parse_datetime) rows in
  let prepared := coerce_cols parse_number cols df in
  load_data parse_datetime (Some (Workbook rows)) = ret df /\
  map (get_num c) df = map (get_num c) rows /\
  (forall r, In r prepared ->
     is_null (get_num c r) = false /\ is_num (get_num c r)) /\
  (forall x, to_numeric_fillna parse_number x =
             match x with
             | CNull => CNum 0
             | CNum q => CNum q
             | CText s => match parse_number s with
                          | Some q => CNum q
                          | None => CNum 0
                          end
             end) /\
  (forall today summary,
     outcome_of (receivables_customers df today) = Done summary ->
     exists v,
       outcome_of (receivables df today) = Done v /\
       forall row, In row summary ->
         (exists r, In r (rv_receivable_df v) /\
                    party_name r = cr_party_name row) /\
         (cr_avg_days_overdue row = NaN <->
          forall r, In r (rv_receivable_df v) ->
                    party_name r = cr_party_name row -> due_date r = None)).
Proof.
  intros Hin df prepared.
  assert (Hnum : numeric_col c prepared) by (apply numeric_col_coerce, Hin).
  split; [apply load_data_workbook|].
  split.
  { unfold df. rewrite map_map. apply map_ext. intros r. destruct c; reflexivity. }
  split.
  { intros r Hr. unfold numeric_col in Hnum. rewrite Forall_forall in Hnum.
    destruct (Hnum r Hr) as [q Hq]. rewrite Hq.
    split; [reflexivity | exists q; reflexivity]. }
  split.
  { intros [|q|s]; try reflexivity.
    unfold to_numeric_fillna. simpl. destruct (parse_number s); reflexivity. }
  intros today summary Hs. unfold receivables_customers in Hs.
  destruct (receivables df today) as [log [v| |ex]] eqn:Hv;
    try discriminate Hs.
  exists v. split; [reflexivity|].
  intros row Hrow.
  apply (@customer_summary_nan today (rv_receivable_df v) summary row);
    [|exact Hrow].
  unfold bind in Hs.
  destruct (customer_summary today (rv_receivable_df v)) as [log' o'].
  exact Hs.
Qed.

(** The workbook with the one undated invoice: after the loop over debit
    and credit no debit cell is missing, and the one row of the customer
    summary has NaN as its average. *)
Lemma numeric_columns_after_coercion_witness :
  let df := map (parse_dates no_datetime) [undated_invoice] in
  (forall r, In r (coerce_cols no_parse [Debit; Credit] df) ->
     is_null (get_num Debit r) = false) /\
  exists summary row,
    outcome_of (receivables_customers df example_today) = Done summary /\
    In row summary /\ cr_avg_days_overdue row = NaN.
Proof.
  pose proof (@numeric_columns_after_coercion no_datetime no_parse
                [undated_invoice] [Debit; Credit] Debit
                (or_introl eq_refl)) as H.
  cbv zeta in H. destruct H as (_ & _ & H1 & _ & H2).
  split; [intros r Hr; apply (H1 r Hr)|].
  destruct (H2 example_today
              [mkCustomerRow (Some "Acme"%string) 250 None 1 NaN] eq_refl)
    as (v & Hv & Hrows).
  eexists. eexists. split; [reflexivity|].
  split; [left; reflexivity|].
  apply (Hrows _ (or_introl eq_refl)).
  injection Hv as <-. intros r [<- | []] _. reflexivity.
Defined.
